(** * Appetit API: pricing, promo codes, business hours and order status

    A shallow embedding of the business logic of the food-ordering backend:

    - [app/services/promo/validator.py]   ([calculate_discount]),
    - [app/api/v1/routers/orders.py]      ([create_order], [cancel_order]),
    - [app/api/v1/routers/cart.py]        ([calculate_price]),
    - [app/api/v1/routers/courier.py]     ([update_order_status]),
    - [app/api/v1/routers/admin_orders.py] ([update_order_status]),
    - [app/services/business/hours.py]    ([BusinessHoursService]),
    - [app/models/models.py]              ([Promocode] and its alias properties).

    Python values are modelled as the code has them: statuses, promo kinds and
    rejection reasons are strings, [Decimal] is a coefficient with an exponent
    under the default arithmetic context of the [decimal] module, tables keyed
    by their primary key are finite maps, raised exceptions are explicit
    outcomes.

    Boundaries of the model:
    - [Decimal]: finite numbers only, the sign is carried by the coefficient
      (no negative zero, NaN or infinity), and the exponent limits of the
      context (Emin, Emax) are not represented; the 28 digits of precision,
      the half-even rounding and the [InvalidOperation] of [quantize] are.
    - [Numeric(10, 2)] columns are read back as [Decimal]s; the clocks
      ([datetime.utcnow()], [datetime.now(tz)]) and the generated order number
      are parameters of the functions that read them.
    - Of [create_order], the part up to the [models.Order(...)] it builds is
      modelled; storing the order and its items, the saved address, e-mail,
      push and analytics calls that follow do not change the priced amounts.
      A [Return] of the model is an order that passed every check and was
      priced; the [db.commit()] that follows can still refuse it (an amount
      beyond [Numeric(10, 2)], a duplicate order number), so the statements
      about [create_order] are about its rejections before that point and
      about the orders it builds, not about every way a request can fail.
    - The status endpoints pass the [orders] table explicitly; the
      notifications sent after a status change are not represented.  Where
      a handler leaves [updated_at] to the column's [onupdate=now], the
      clock it reads is a parameter as well. *)

From Stdlib Require Import ZArith Bool Lia.
From stdpp Require Import base option list gmap strings pretty.

Local Open Scope Z_scope.

(** ** Exceptions and outcomes *)

(** The exceptions the modelled code raises: FastAPI's [HTTPException], the
    422 produced by a failing pydantic validator, and the two errors of the
    [decimal] module that the arithmetic can signal. *)
Inductive exn : Type :=
  | HTTPException (status_code : Z) (detail : string)
  | RequestValidationError (msg : string)
  | InvalidOperation
  | DivisionByZero.

Inductive outcome (A : Type) : Type :=
  | Return (a : A)
  | Raise (e : exn).
Arguments Return {A} a.
Arguments Raise {A} e.

#[global] Instance outcome_ret : MRet outcome := fun A a => Return a.

#[global] Instance outcome_bind : MBind outcome := fun A B k m =>
  match m with
  | Return a => k a
  | Raise e => Raise e
  end.

Definition returns {A : Type} (m : outcome A) : bool :=
  match m with Return _ => true | Raise _ => false end.

(** ** Python's [decimal.Decimal] under the default context *)

Module Decimal.

(** A finite decimal [coef * 10 ^ exp]; the sign lives in [coef].
    [Decimal('0.01')] is [mk 1 (-2)], [Decimal('0.0')] is [mk 0 (-1)]. *)
Record t : Type := mk { coef : Z; exp : Z }.

(** [getcontext().prec] of the default context; its rounding mode is
    ROUND_HALF_EVEN. *)
Definition prec : Z := 28.

Fixpoint ndigits_aux (fuel : nat) (n : Z) : Z :=
  match fuel with
  | O => 1
  | S f => if n <? 10 then 1 else 1 + ndigits_aux f (n / 10)
  end.

(** [len(self._int)]: the number of decimal digits of the coefficient. *)
Definition ndigits (c : Z) : Z :=
  ndigits_aux (Z.to_nat (Z.log2 (Z.abs c))) (Z.abs c).

(** Quotient of the magnitude [n] by [10 ^ k], rounded half to even. *)
Definition round_half_even_nat (n k : Z) : Z :=
  let m := 10 ^ k in
  let q := n / m in
  let r := n mod m in
  if (m <? 2 * r) || ((2 * r =? m) && Z.odd q) then q + 1 else q.

Definition round_half_even (c k : Z) : Z :=
  Z.sgn c * round_half_even_nat (Z.abs c) k.

(** [Decimal._fix]: round to at most [prec] significant digits. *)
Definition fix_ (d : t) : t :=
  let n := ndigits (coef d) in
  if n <=? prec then d
  else
    let k := n - prec in
    let c := round_half_even (coef d) k in
    if prec <? ndigits c then mk (Z.quot c 10) (exp d + k + 1)
    else mk c (exp d + k).

Definition of_int (n : Z) : t := mk n 0.

Definition neg (a : t) : t := mk (- coef a) (exp a).

(** [a * b]. *)
Definition mul (a b : t) : t :=
  fix_ (mk (coef a * coef b) (exp a + exp b)).

(** [a + b]: the exact sum at the smaller exponent, then [_fix]. *)
Definition add (a b : t) : t :=
  let e := Z.min (exp a) (exp b) in
  fix_ (mk (coef a * 10 ^ (exp a - e) + coef b * 10 ^ (exp b - e)) e).

(** [a - b] is [a + (-b)]. *)
Definition sub (a b : t) : t := add a (neg b).

(** Numerical comparison, as [Decimal._cmp]. *)
Definition compare (a b : t) : comparison :=
  let e := Z.min (exp a) (exp b) in
  Z.compare (coef a * 10 ^ (exp a - e)) (coef b * 10 ^ (exp b - e)).

Definition ltb (a b : t) : bool :=
  match compare a b with Lt => true | _ => false end.
Definition leb (a b : t) : bool :=
  match compare a b with Gt => false | _ => true end.
Definition eqb (a b : t) : bool :=
  match compare a b with Eq => true | _ => false end.

(** The builtins [min(a, b)] and [max(a, b)] keep the first argument
    unless the second one is strictly smaller (resp. larger). *)
Definition min (a b : t) : t := if ltb b a then b else a.
Definition max (a b : t) : t := if ltb a b then b else a.

(** [Decimal._rescale] to exponent [e], rounding half to even. *)
Definition rescale (d : t) (e : Z) : t :=
  if e <=? exp d then mk (coef d * 10 ^ (exp d - e)) e
  else mk (round_half_even (coef d) (e - exp d)) e.

(** [d.quantize(q)]: [InvalidOperation] when the result would need more
    than [prec] digits. *)
Definition quantize (d q : t) : outcome t :=
  let e := exp q in
  if coef d =? 0 then Return (mk 0 e)
  else if prec <? ndigits (coef d) + exp d - e then Raise InvalidOperation
  else
    let r := rescale d e in
    if prec <? ndigits (coef r) then Raise InvalidOperation
    else Return r.

(** The loop of [__truediv__] that moves an exact quotient towards the
    ideal exponent by dropping trailing zeros. *)
Fixpoint strip_zeros (fuel : nat) (c e ideal : Z) : t :=
  match fuel with
  | O => mk c e
  | S f =>
      if (e <? ideal) && (c mod 10 =? 0)
      then strip_zeros f (c / 10) (e + 1) ideal
      else mk c e
  end.

(** [a / b]. *)
Definition truediv (a b : t) : outcome t :=
  if coef b =? 0 then
    if coef a =? 0 then Raise InvalidOperation else Raise DivisionByZero
  else
    let sign := Z.sgn (coef a) * Z.sgn (coef b) in
    if coef a =? 0 then Return (fix_ (mk 0 (exp a - exp b)))
    else
      let shift := ndigits (coef b) - ndigits (coef a) + prec + 1 in
      let e := exp a - exp b - shift in
      let n := Z.abs (coef a) in
      let m := Z.abs (coef b) in
      let num := if 0 <=? shift then n * 10 ^ shift else n in
      let den := if 0 <=? shift then m else m * 10 ^ (- shift) in
      let q := num / den in
      let r := num mod den in
      let res :=
        if r =? 0 then strip_zeros (Z.to_nat (exp a - exp b - e)) q e (exp a - exp b)
        else mk (if q mod 5 =? 0 then q + 1 else q) e in
      Return (fix_ (mk (sign * coef res) (exp res))).

(** A coefficient that the context precision holds without rounding. *)
Definition fits (c : Z) : Prop := Z.abs c < 10 ^ prec.

(** The constants the code writes. *)
Definition zero1 : t := mk 0 (-1).        (* Decimal('0.0')  *)
Definition cent : t := mk 1 (-2).         (* Decimal('0.01') *)
Definition hundred : t := mk 100 0.       (* Decimal('100')  *)

End Decimal.

Abbreviation Decimal := Decimal.t.

(** ** Dates and times *)

(** [datetime.time]: compared field by field, as Python does. *)
Record time : Type := mk_time {
  hour : Z; minute : Z; second : Z; microsecond : Z
}.

Definition time_key (t : time) : Z :=
  ((hour t * 60 + minute t) * 60 + second t) * 1000000 + microsecond t.

Definition time_ltb (a b : time) : bool :=
  (hour a <? hour b)
  || ((hour a =? hour b)
      && ((minute a <? minute b)
          || ((minute a =? minute b)
              && ((second a <? second b)
                  || ((second a =? second b)
                      && (microsecond a <? microsecond b)))))).

Definition time_leb (a b : time) : bool := negb (time_ltb b a).

(** [datetime.datetime]: the proleptic Gregorian ordinal of the date
    ([date.toordinal()], day 1 is Monday 0001-01-01), the wall-clock time and
    the UTC offset of its [tzinfo] in microseconds ([None] when naive). *)
Record datetime : Type := mk_datetime {
  ordinal : Z;
  clock : time;
  tzinfo : option Z
}.

(** Comparison of two naive datetimes (the promo window is checked on
    [datetime.utcnow()] against naive [DateTime] columns). *)
Definition datetime_ltb (a b : datetime) : bool :=
  (ordinal a <? ordinal b)
  || ((ordinal a =? ordinal b) && time_ltb (clock a) (clock b)).

(** [date.weekday()]: 0 is Monday, 6 is Sunday. *)
Definition weekday_of_ordinal (o : Z) : Z := (o + 6) mod 7.

(** ** The promo code model ([app/models/models.py]) *)

Module Promocode.

(** The persisted columns of [promocodes].  The [Numeric(10, 2)] columns come
    back from the database as [Decimal]; every nullable column is an option. *)
Record t : Type := mk {
  id : Z;
  code : string;
  kind : string;
  discount_percent : option Decimal;
  value : option Decimal;
  min_order_amount : option Decimal;
  max_uses : option Z;
  current_uses : Z;
  is_active : bool;
  expires_at : option datetime;
  per_user_limit : option Z;
  created_by : option Z
}.

(** *** Backward-compatible alias properties *)

Definition active (p : t) : bool := is_active p.

Definition set_active (p : t) (v : bool) : t :=
  mk (id p) (code p) (kind p) (discount_percent p) (value p)
     (min_order_amount p) (max_uses p) (current_uses p) v
     (expires_at p) (per_user_limit p) (created_by p).

Definition used_count (p : t) : Z := current_uses p.

Definition max_redemptions (p : t) : option Z := max_uses p.

Definition set_max_redemptions (p : t) (v : option Z) : t :=
  mk (id p) (code p) (kind p) (discount_percent p) (value p)
     (min_order_amount p) v (current_uses p) (is_active p)
     (expires_at p) (per_user_limit p) (created_by p).

(** [min_subtotal] reads [float(self.min_order_amount)]; the evaluator then
    goes back through [Decimal(str(...))].  For a [Numeric(10, 2)] amount (at
    most ten significant digits) that round trip keeps the numerical value,
    and the evaluator only compares it, so the amount itself is returned. *)
Definition min_subtotal (p : t) : option Decimal := min_order_amount p.

Definition set_min_subtotal (p : t) (v : option Decimal) : t :=
  mk (id p) (code p) (kind p) (discount_percent p) (value p)
     v (max_uses p) (current_uses p) (is_active p)
     (expires_at p) (per_user_limit p) (created_by p).

Definition valid_to (p : t) : option datetime := expires_at p.

Definition set_valid_to (p : t) (v : option datetime) : t :=
  mk (id p) (code p) (kind p) (discount_percent p) (value p)
     (min_order_amount p) (max_uses p) (current_uses p) (is_active p)
     v (per_user_limit p) (created_by p).

(** "valid_from placeholder (not persisted in current schema)": the getter
    returns [None], the setter is a no-op. *)
Definition valid_from (p : t) : option datetime := None.

Definition set_valid_from (p : t) (v : option datetime) : t := p.

Definition set_per_user_limit (p : t) (v : option Z) : t :=
  mk (id p) (code p) (kind p) (discount_percent p) (value p)
     (min_order_amount p) (max_uses p) (current_uses p) (is_active p)
     (expires_at p) v (created_by p).

End Promocode.

(** The body of [PromoGenerateRequest] ([app/schemas/admin.py]); [value] and
    [min_subtotal] are given as the database stores them. *)
Record PromoGenerateRequest : Type := mk_PromoGenerateRequest {
  req_kind : string;
  req_value : Decimal;
  req_active : bool;
  req_valid_from : option datetime;
  req_valid_to : option datetime;
  req_max_redemptions : option Z;
  req_per_user_limit : option Z;
  req_min_subtotal : option Decimal
}.

(** The row [generate_promo] ([admin_promo.py]) builds for one code: the
    keyword arguments of [models.Promocode(...)] go through the attribute
    setters, aliases included. *)
Definition generated_promocode
    (row_id : Z) (code : string) (req : PromoGenerateRequest) (admin_id : Z)
    : Promocode.t :=
  let p0 := Promocode.mk row_id code (req_kind req) None (Some (req_value req))
              None None 0 true None None (Some admin_id) in
  let p1 := Promocode.set_active p0 (req_active req) in
  let p2 := Promocode.set_valid_from p1 (req_valid_from req) in
  let p3 := Promocode.set_valid_to p2 (req_valid_to req) in
  let p4 := Promocode.set_max_redemptions p3 (req_max_redemptions req) in
  let p5 := Promocode.set_per_user_limit p4 (req_per_user_limit req) in
  Promocode.set_min_subtotal p5 (req_min_subtotal req).

(** ** The promo rule evaluator ([app/services/promo/validator.py]) *)

Module PromoValidator.

Record PromoValidationResult : Type := mk_PromoValidationResult {
  valid : bool;
  discount : Decimal;
  reason : option string
}.

(** [Decimal(str(x))] for a nullable numeric column: [str(None)] is not a
    number and the constructor raises [InvalidOperation]. *)
Definition Decimal_of_column (x : option Decimal) : outcome Decimal :=
  match x with
  | Some d => Return d
  | None => Raise InvalidOperation
  end.

(** [db.query(Promocode).filter(Promocode.code == code).first()]. *)
Definition query_promocode (promocodes : list Promocode.t) (code : string)
    : option Promocode.t :=
  List.find (fun p => String.eqb (Promocode.code p) code) promocodes.

(** Truthiness of an optional string: [None] and the empty string are falsy. *)
Definition truthy (s : option string) : option string :=
  match s with
  | Some c => if String.eqb c "" then None else Some c
  | None => None
  end.

Definition rejected (why : string) : PromoValidationResult :=
  mk_PromoValidationResult false Decimal.zero1 (Some why).

(** The discount before clamping (lines 39-43). *)
Definition raw_discount (promo : Promocode.t) (subtotal : Decimal)
    : outcome Decimal :=
  if String.eqb (Promocode.kind promo) "percent" then
    v ← Decimal_of_column (Promocode.value promo);
    q ← Decimal.truediv (Decimal.mul subtotal v) Decimal.hundred;
    Decimal.quantize q Decimal.cent
  else if String.eqb (Promocode.kind promo) "amount" then
    Decimal_of_column (Promocode.value promo)
  else Return Decimal.zero1.

(** [calculate_discount(db, code, subtotal, user_id)]; [now] stands for the
    [datetime.utcnow()] it reads.  [user_id] is accepted and never used. *)
Definition calculate_discount
    (promocodes : list Promocode.t) (code : option string)
    (subtotal : Decimal) (now : datetime) : outcome PromoValidationResult :=
  match truthy code with
  | None => Return (mk_PromoValidationResult true Decimal.zero1 None)
  | Some c =>
      match query_promocode promocodes c with
      | None => Return (rejected "invalid_or_inactive")
      | Some promo =>
          if negb (Promocode.is_active promo) then
            Return (rejected "invalid_or_inactive")
          else if match Promocode.valid_from promo with
                  | Some t => datetime_ltb now t
                  | None => false
                  end then
            Return (rejected "not_started")
          else if match Promocode.valid_to promo with
                  | Some t => datetime_ltb t now
                  | None => false
                  end then
            Return (rejected "expired")
          else if match Promocode.min_subtotal promo with
                  | Some m => Decimal.ltb subtotal m
                  | None => false
                  end then
            Return (rejected "min_subtotal_not_met")
          else
            d ← raw_discount promo subtotal;
            Return (mk_PromoValidationResult true (Decimal.min d subtotal) None)
      end
  end.

End PromoValidator.

(** ** The business hours gate ([app/services/business/hours.py]) *)

Module Hours.

Record BusinessHours : Type := mk_BusinessHours {
  day : Z;
  open_time : option time;
  close_time : option time;
  is_closed : bool
}.

Record BusinessHoursValidationResult : Type := mk_result {
  is_open : bool;
  reason : option string;
  next_open_time : option datetime
}.

(** The service object: the weekday dictionary it mutates in place and the
    fixed UTC offset of the business timezone (in microseconds). *)
Record BusinessHoursService : Type := mk_service {
  default_hours : gmap Z BusinessHours;
  timezone : Z
}.

Definition at_ (h m : Z) : time := mk_time h m 0 0.

Definition microseconds_per_day : Z := 86400000000.

(** [BusinessHoursService.__init__]. *)
Definition init : BusinessHoursService :=
  mk_service
    (<[0 := mk_BusinessHours 0 (Some (at_ 9 0)) (Some (at_ 22 0)) false]>
     (<[1 := mk_BusinessHours 1 (Some (at_ 9 0)) (Some (at_ 22 0)) false]>
     (<[2 := mk_BusinessHours 2 (Some (at_ 9 0)) (Some (at_ 22 0)) false]>
     (<[3 := mk_BusinessHours 3 (Some (at_ 9 0)) (Some (at_ 22 0)) false]>
     (<[4 := mk_BusinessHours 4 (Some (at_ 9 0)) (Some (at_ 22 0)) false]>
     (<[5 := mk_BusinessHours 5 (Some (at_ 10 0)) (Some (at_ 23 0)) false]>
     (<[6 := mk_BusinessHours 6 (Some (at_ 10 0)) (Some (at_ 21 0)) false]>
      ∅)))))))
    (5 * 3600 * 1000000).

Definition time_of_microseconds (us : Z) : time :=
  mk_time (us / 3600000000) ((us / 60000000) mod 60)
          ((us / 1000000) mod 60) (us mod 1000000).

(** [dt.astimezone(tz)] for an aware datetime with UTC offset [off]. *)
Definition astimezone (dt : datetime) (off tz : Z) : datetime :=
  let total :=
    ordinal dt * microseconds_per_day + time_key (clock dt) + (tz - off) in
  mk_datetime (total / microseconds_per_day)
              (time_of_microseconds (total mod microseconds_per_day))
              (Some tz).

(** Lines 57-60: bring [check_time] into the business timezone. *)
Definition to_business_time (self : BusinessHoursService) (check_time : datetime)
    : datetime :=
  match tzinfo check_time with
  | None => mk_datetime (ordinal check_time) (clock check_time)
                        (Some (timezone self))
  | Some off =>
      if off =? timezone self then check_time
      else astimezone check_time off (timezone self)
  end.

(** [datetime.combine(date, time, tz)]. *)
Definition combine (date : Z) (t : time) (tz : Z) : datetime :=
  mk_datetime date t (Some tz).

(** The [for i in range(1, 8)] loop of [_get_next_open_time], over the
    remaining offsets. *)
Fixpoint scan_forward (self : BusinessHoursService) (check_date : Z)
    (offsets : list Z) : option datetime :=
  match offsets with
  | [] => None
  | i :: rest =>
      let next_date := check_date + i in
      match default_hours self !! weekday_of_ordinal next_date with
      | Some next_hours =>
          match is_closed next_hours, open_time next_hours with
          | false, Some o => Some (combine next_date o (timezone self))
          | _, _ => scan_forward self check_date rest
          end
      | None => scan_forward self check_date rest
      end
  end.

Definition _get_next_open_time (self : BusinessHoursService)
    (from_time : datetime) : option datetime :=
  let check_date := ordinal from_time in
  let current_time := clock from_time in
  let today :=
    match default_hours self !! weekday_of_ordinal check_date with
    | Some today_hours =>
        match is_closed today_hours, open_time today_hours with
        | false, Some o =>
            if time_ltb current_time o then Some o else None
        | _, _ => None
        end
    | None => None
    end in
  match today with
  | Some o => Some (combine check_date o (timezone self))
  | None => scan_forward self check_date [1; 2; 3; 4; 5; 6; 7]
  end.

Definition is_open_at_time (self : BusinessHoursService) (check_time : datetime)
    : BusinessHoursValidationResult :=
  let check_time := to_business_time self check_time in
  let weekday := weekday_of_ordinal (ordinal check_time) in
  let current_time := clock check_time in
  match default_hours self !! weekday with
  | None => mk_result false (Some "no_hours_defined") None
  | Some business_hours =>
      if is_closed business_hours then
        mk_result false (Some "closed_today")
                  (_get_next_open_time self check_time)
      else
        match open_time business_hours, close_time business_hours with
        | Some o, Some c =>
            if time_leb o current_time && time_leb current_time c then
              mk_result true None None
            else
              mk_result false
                (Some (if time_ltb current_time o
                       then "before_opening" else "after_closing"))
                (_get_next_open_time self check_time)
        | _, _ => mk_result false (Some "hours_not_configured") None
        end
  end.

Definition get_hours_for_day (self : BusinessHoursService) (weekday : Z)
    : option BusinessHours :=
  default_hours self !! weekday.

(** [update_hours_for_day]: [ValueError] outside [range(7)]. *)
Definition update_hours_for_day (self : BusinessHoursService) (weekday : Z)
    (o c : option time) (closed : bool) : option BusinessHoursService :=
  if (0 <=? weekday) && (weekday <? 7) then
    Some (mk_service
            (<[weekday := mk_BusinessHours weekday o c closed]>
               (default_hours self))
            (timezone self))
  else None.

(** [validate_business_hours()]: [now] is [datetime.now(self.timezone)]. *)
Definition validate_business_hours (self : BusinessHoursService) (now : datetime)
    : BusinessHoursValidationResult :=
  is_open_at_time self now.

End Hours.

(** ** The administrator's schedule update
       ([app/api/v1/routers/admin_business_hours.py]) *)

Module AdminBusinessHours.

(** [BusinessHoursUpdate] after the "HH:MM" strings, which the schema's
    pattern guarantees to parse, have been turned into [time(hour, minute)]. *)
Record BusinessHoursUpdate : Type := mk_update {
  open_time : option time;
  close_time : option time;
  is_closed : option bool
}.

(** [update_day_hours] (PUT /admin/business-hours/day/{day_name}) for the
    weekday that [day_name] maps to.  The order of opening and closing time
    is checked only when the payload carries both. *)
Definition update_day_hours (self : Hours.BusinessHoursService) (weekday : Z)
    (payload : BusinessHoursUpdate) : outcome Hours.BusinessHoursService :=
  if match open_time payload, close_time payload with
     | Some o, Some c => time_leb c o
     | _, _ => false
     end then
    Raise (HTTPException 400 "Opening time must be before closing time")
  else
    match Hours.get_hours_for_day self weekday with
    | None => Raise (HTTPException 500 "Failed to get current hours")
    | Some current_hours =>
        let new_open_time :=
          match open_time payload with
          | Some o => Some o
          | None => Hours.open_time current_hours
          end in
        let new_close_time :=
          match close_time payload with
          | Some c => Some c
          | None => Hours.close_time current_hours
          end in
        let new_is_closed :=
          match is_closed payload with
          | Some b => b
          | None => Hours.is_closed current_hours
          end in
        match Hours.update_hours_for_day self weekday new_open_time
                                         new_close_time new_is_closed with
        | Some self' => Return self'
        | None => Raise (HTTPException 500 "Internal Server Error")
        end
    end.

(** One round of the loops of [emergency_close] and [emergency_open]: the
    weekday keeps its times and gets the closed flag.  [update_hours_for_day]
    raises only outside [range(7)], which the loops do not leave. *)
Definition set_closed (closed : bool) (self : Hours.BusinessHoursService)
    (weekday : Z) : Hours.BusinessHoursService :=
  match Hours.get_hours_for_day self weekday with
  | Some current_hours =>
      default self
        (Hours.update_hours_for_day self weekday
           (Hours.open_time current_hours) (Hours.close_time current_hours)
           closed)
  | None => self
  end.

(** [emergency_close] (POST /admin/business-hours/emergency-close). *)
Definition emergency_close (self : Hours.BusinessHoursService)
    : Hours.BusinessHoursService :=
  foldl (set_closed true) self [0; 1; 2; 3; 4; 5; 6].

(** [emergency_open] (POST /admin/business-hours/emergency-open). *)
Definition emergency_open (self : Hours.BusinessHoursService)
    : Hours.BusinessHoursService :=
  foldl (set_closed false) self [0; 1; 2; 3; 4; 5; 6].

(** [WeeklyHoursUpdate]: one optional update per day name. *)
Record WeeklyHoursUpdate : Type := mk_weekly {
  monday : option BusinessHoursUpdate;
  tuesday : option BusinessHoursUpdate;
  wednesday : option BusinessHoursUpdate;
  thursday : option BusinessHoursUpdate;
  friday : option BusinessHoursUpdate;
  saturday : option BusinessHoursUpdate;
  sunday : option BusinessHoursUpdate
}.

(** [enumerate(days)] paired with [getattr(payload, day_name)]. *)
Definition day_updates (payload : WeeklyHoursUpdate)
    : list (Z * string * option BusinessHoursUpdate) :=
  [(0, "monday", monday payload); (1, "tuesday", tuesday payload);
   (2, "wednesday", wednesday payload); (3, "thursday", thursday payload);
   (4, "friday", friday payload); (5, "saturday", saturday payload);
   (6, "sunday", sunday payload)].

(** The loop of [update_weekly_hours].  The service object is mutated in
    place, so the schedule reached when a later day is refused is part of
    the result: the first component is the schedule after the call, whether
    it returned or raised. *)
Fixpoint weekly_loop (self : Hours.BusinessHoursService)
    (todo : list (Z * string * option BusinessHoursUpdate))
    (updated_days : list string)
    : Hours.BusinessHoursService * outcome (list string) :=
  match todo with
  | [] => (self, Return updated_days)
  | (i, day_name, None) :: rest => weekly_loop self rest updated_days
  | (i, day_name, Some day_update) :: rest =>
      if match open_time day_update, close_time day_update with
         | Some o, Some c => time_leb c o
         | _, _ => false
         end then
        (self,
         Raise (HTTPException 400
                  ("Opening time must be before closing time for "
                   +:+ day_name)))
      else
        match Hours.get_hours_for_day self i with
        | None => weekly_loop self rest updated_days
        | Some current_hours =>
            let new_open_time :=
              match open_time day_update with
              | Some o => Some o
              | None => Hours.open_time current_hours
              end in
            let new_close_time :=
              match close_time day_update with
              | Some c => Some c
              | None => Hours.close_time current_hours
              end in
            let new_is_closed :=
              match is_closed day_update with
              | Some b => b
              | None => Hours.is_closed current_hours
              end in
            weekly_loop
              (default self
                 (Hours.update_hours_for_day self i new_open_time
                                             new_close_time new_is_closed))
              rest (updated_days ++ [day_name])
        end
  end.

(** [update_weekly_hours] (PUT /admin/business-hours/weekly). *)
Definition update_weekly_hours (self : Hours.BusinessHoursService)
    (payload : WeeklyHoursUpdate)
    : Hours.BusinessHoursService * outcome (list string) :=
  weekly_loop self (day_updates payload) [].

End AdminBusinessHours.

(** ** The rows the endpoints read and write ([app/models/models.py]) *)

Module MenuItem.
Record t : Type := mk {
  id : Z;
  name : string;
  price : Decimal;
  is_active : bool
}.
End MenuItem.

Module ModificationType.
Record t : Type := mk {
  id : Z;
  is_active : bool
}.
End ModificationType.

Module User.
Record t : Type := mk {
  id : Z;
  full_name : string;
  role : string
}.
End User.

Module Order.
Record t : Type := mk {
  number : string;
  user_id : option Z;
  status : string;
  subtotal : Decimal;
  discount : Decimal;
  total : Decimal;
  promocode_code : option string;
  paid : bool;
  payment_method : string;
  updated_at : option datetime
}.

Definition with_status (o : t) (s : string) (now : option datetime) : t :=
  mk (number o) (user_id o) s (subtotal o) (discount o) (total o)
     (promocode_code o) (paid o) (payment_method o) now.
End Order.

(** The part of the database session the modelled endpoints touch. *)
Record Session : Type := mk_Session {
  menu_items : gmap Z MenuItem.t;
  modification_types : gmap Z ModificationType.t;
  promocodes : list Promocode.t;
  orders : gmap Z Order.t
}.

Definition with_orders (db : Session) (os : gmap Z Order.t) : Session :=
  mk_Session (menu_items db) (modification_types db) (promocodes db) os.

(** ** Order creation and cancellation ([app/api/v1/routers/orders.py]) *)

Module Orders.

Record OrderItemModificationIn : Type := mk_modification {
  modification_type_id : Z;
  action : string
}.

Record OrderItemIn : Type := mk_item {
  item_id : Z;
  qty : Z;
  modifications : list OrderItemModificationIn
}.

Record OrderCreateRequest : Type := mk_request {
  items : list OrderItemIn;
  pickup_or_delivery : string;
  promocode : option string;
  payment_method : option string
}.

(** One entry of [lines]: [(mi, it.qty, unit_price, it.modifications)]. *)
Definition line : Type :=
  (MenuItem.t * Z * Decimal * list OrderItemModificationIn)%type.

(** [items_map]: the menu rows whose id is among the requested ones. *)
Definition items_map (db : Session) (item_ids : list Z) : gmap Z MenuItem.t :=
  filter (fun kv => kv.1 ∈ item_ids) (menu_items db).

(** [modification_types_map]: the active modification types among [ids]. *)
Definition modification_types_map (db : Session) (ids : list Z)
    : gmap Z ModificationType.t :=
  filter (fun kv => kv.1 ∈ ids ∧ ModificationType.is_active kv.2 = true)
         (modification_types db).

(** Lines 62-82: every requested modification type must exist and be
    active. *)
Definition check_modifications (db : Session) (payload : OrderCreateRequest)
    : outcome unit :=
  let all_mod_ids :=
    items payload ≫= (fun it => modification_type_id <$> modifications it) in
  let types := modification_types_map db all_mod_ids in
  match List.find (fun id => negb (bool_decide (is_Some (types !! id))))
                  all_mod_ids with
  | Some id =>
      Raise (HTTPException 400 ("Invalid modification type: " +:+ pretty id))
  | None => Return tt
  end.

(** The loop of lines 84-95. *)
Fixpoint price_lines (items_map : gmap Z MenuItem.t) (its : list OrderItemIn)
    (subtotal : Decimal) (lines : list line) : outcome (Decimal * list line) :=
  match its with
  | [] => Return (subtotal, lines)
  | it :: rest =>
      match items_map !! item_id it with
      | None =>
          Raise (HTTPException 400 ("Invalid item: " +:+ pretty (item_id it)))
      | Some mi =>
          if negb (MenuItem.is_active mi) then
            Raise (HTTPException 400 ("Invalid item: " +:+ pretty (item_id it)))
          else if qty it <=? 0 then
            Raise (HTTPException 400 "Quantity must be positive")
          else
            let unit_price := MenuItem.price mi in
            line_total ← Decimal.quantize
                           (Decimal.mul unit_price (Decimal.of_int (qty it)))
                           Decimal.cent;
            price_lines items_map rest (Decimal.add subtotal line_total)
                        (lines ++ [(mi, qty it, unit_price, modifications it)])
      end
  end.

(** Line 98: an invalid promo contributes no discount. *)
Definition applied_discount (promo_res : PromoValidator.PromoValidationResult)
    : Decimal :=
  if PromoValidator.valid promo_res
  then PromoValidator.discount promo_res else Decimal.zero1.

(** Line 99: [max(Decimal('0.0'), subtotal - discount).quantize(...)]. *)
Definition order_total (subtotal discount : Decimal) : outcome Decimal :=
  Decimal.quantize (Decimal.max Decimal.zero1 (Decimal.sub subtotal discount))
                   Decimal.cent.

(** The message of the 400 raised while the business is closed. *)
Definition closed_message (strftime : datetime -> string)
    (v : Hours.BusinessHoursValidationResult) : string :=
  let error_msg :=
    match Hours.reason v with
    | Some "before_opening" | Some "after_closing" =>
        "We are closed. Orders can only be placed during business hours."
    | Some "closed_today" => "We are closed today."
    | Some "hours_not_configured" | Some "no_hours_defined" =>
        "Service temporarily unavailable."
    | _ => "We are currently closed."
    end in
  match Hours.next_open_time v with
  | Some t => error_msg +:+ " We will be open again at " +:+ strftime t +:+ "."
  | None => error_msg
  end.

(** [create_order] up to the [models.Order(...)] it builds (lines 39-119).
    [strftime] renders [next_open_time] with the format '%Y-%m-%d %H:%M',
    [hours] is the process-wide [business_hours_service], [local_now] the
    [datetime.now(tz)] read by the gate, [utcnow] the clock of the promo
    evaluator and [number] the generated order number. *)
Definition create_order (strftime : datetime -> string)
    (hours : Hours.BusinessHoursService) (local_now utcnow : datetime)
    (number : string) (payload : OrderCreateRequest) (db : Session)
    (user : User.t) : outcome (Order.t * list line) :=
  match items payload with
  | [] => Raise (HTTPException 400 "Items required")
  | _ =>
      let hours_validation := Hours.validate_business_hours hours local_now in
      if negb (Hours.is_open hours_validation) then
        Raise (HTTPException 400 (closed_message strftime hours_validation))
      else
        let item_ids := item_id <$> items payload in
        let items_map := items_map db item_ids in
        _ ← check_modifications db payload;
        '(subtotal, lines) ← price_lines items_map (items payload)
                                          Decimal.zero1 [];
        promo_res ← PromoValidator.calculate_discount
                      (promocodes db) (promocode payload) subtotal utcnow;
        let discount := applied_discount promo_res in
        total ← order_total subtotal discount;
        Return
          (Order.mk number (Some (User.id user)) "NEW" subtotal discount total
             (if PromoValidator.valid promo_res
              then PromoValidator.truthy (promocode payload) else None)
             false
             (match PromoValidator.truthy (payment_method payload) with
              | Some m => m
              | None => "cod"
              end)
             None,
           lines)
  end.

(** [cancel_order]: the customer (or an admin) cancels an order. *)
Definition cancel_order (utcnow : datetime) (order_id : Z) (db : Session)
    (user : User.t) : outcome (Session * Order.t) :=
  match orders db !! order_id with
  | None => Raise (HTTPException 404 "Order not found")
  | Some order =>
      if negb (bool_decide (Order.user_id order = Some (User.id user)))
         && negb (String.eqb (User.role user) "admin") then
        Raise (HTTPException 403 "Access denied")
      else
        let cancellable_statuses := ["NEW"; "PENDING"; "CONFIRMED"] in
        if negb (bool_decide (Order.status order ∈ cancellable_statuses)) then
          Raise (HTTPException 400
                   ("Cannot cancel order with status: " +:+ Order.status order))
        else
          let order' := Order.with_status order "CANCELLED" (Some utcnow) in
          Return (with_orders db (<[order_id := order']> (orders db)), order')
  end.

(** [get_order] (GET /orders/{order_id}): a missing order and an order of
    somebody else give the same 404.  The localisation loop that follows
    renames the menu items and modification types of the order's lines and
    leaves the order row as it is. *)
Definition get_order (order_id : Z) (db : Session) (user : User.t)
    : outcome Order.t :=
  match orders db !! order_id with
  | None => Raise (HTTPException 404 "Order not found")
  | Some order =>
      if negb (bool_decide (Order.user_id order = Some (User.id user))) then
        Raise (HTTPException 404 "Order not found")
      else Return order
  end.

End Orders.

(** ** The legacy price endpoint ([app/api/v1/routers/cart.py]) *)

Module Cart.

Record CartItem : Type := mk_item { item_id : Z; qty : Z }.

Record PriceRequest : Type := mk_request {
  items : list CartItem;
  promocode : option string
}.

Record PriceDetailsLine : Type := mk_line {
  line_item_id : Z;
  line_name : string;
  line_qty : Z;
  unit_price : Decimal;
  line_total : Decimal
}.

(** [PriceResponse]; the amounts are kept as the [Decimal]s that the
    endpoint converts with [float(...)] on the way out. *)
Record PriceResponse : Type := mk_response {
  subtotal : Decimal;
  discount : Decimal;
  total : Decimal;
  details : list PriceDetailsLine
}.

Fixpoint price_lines (items_map : gmap Z MenuItem.t) (cis : list CartItem)
    (subtotal : Decimal) (details : list PriceDetailsLine)
    : outcome (Decimal * list PriceDetailsLine) :=
  match cis with
  | [] => Return (subtotal, details)
  | ci :: rest =>
      match items_map !! item_id ci with
      | None =>
          Raise (HTTPException 400
                   ("Invalid item in cart: " +:+ pretty (item_id ci)))
      | Some mi =>
          if negb (MenuItem.is_active mi) then
            Raise (HTTPException 400
                     ("Invalid item in cart: " +:+ pretty (item_id ci)))
          else if qty ci <=? 0 then
            Raise (HTTPException 400 "Quantity must be positive")
          else
            let unit_price := MenuItem.price mi in
            line_total ← Decimal.quantize
                           (Decimal.mul unit_price (Decimal.of_int (qty ci)))
                           Decimal.cent;
            price_lines items_map rest (Decimal.add subtotal line_total)
              (details ++ [mk_line (item_id ci) (MenuItem.name mi) (qty ci)
                                   unit_price line_total])
      end
  end.

(** [calculate_price] (POST /cart/price-legacy). *)
Definition calculate_price (utcnow : datetime) (payload : PriceRequest)
    (db : Session) : outcome PriceResponse :=
  match items payload with
  | [] => Return (mk_response Decimal.zero1 Decimal.zero1 Decimal.zero1 [])
  | _ =>
      let item_ids := item_id <$> items payload in
      let items := Orders.items_map db item_ids in
      '(subtotal, details) ← price_lines items (Cart.items payload)
                                         Decimal.zero1 [];
      promo_res ← PromoValidator.calculate_discount
                    (promocodes db) (promocode payload) subtotal utcnow;
      let discount :=
        if PromoValidator.valid promo_res
        then PromoValidator.discount promo_res else Decimal.zero1 in
      total ← Decimal.quantize
                (Decimal.max Decimal.zero1 (Decimal.sub subtotal discount))
                Decimal.cent;
      Return (mk_response subtotal discount total details)
  end.

End Cart.

(** ** The courier's status update ([app/api/v1/routers/courier.py]) *)

Module Courier.

(** The pydantic validator of [OrderStatusUpdate] ([app/schemas/orders.py]). *)
Definition OrderStatusUpdate (status : string) : outcome string :=
  let valid_statuses := ["NEW"; "COOKING"; "ON_WAY"; "DELIVERED"; "CANCELLED"] in
  if bool_decide (status ∈ valid_statuses) then Return status
  else Raise (RequestValidationError
                ("Status must be one of: " +:+
                 "NEW, COOKING, ON_WAY, DELIVERED, CANCELLED")).

Definition valid_courier_statuses : list string :=
  ["COOKING"; "ON_WAY"; "DELIVERED"; "CANCELLED"].

Definition valid_transitions : gmap string (list string) :=
  <["NEW" := ["COOKING"; "CANCELLED"]]>
  (<["COOKING" := ["ON_WAY"; "CANCELLED"]]>
  (<["ON_WAY" := ["DELIVERED"; "CANCELLED"]]>
  (<["DELIVERED" := []]>
  (<["CANCELLED" := []]> ∅)))).

(** The guard of lines 123-146 on a pair (current, requested). *)
Definition check_transition (current_status new_status : string)
    : outcome string :=
  if negb (bool_decide (new_status ∈ valid_courier_statuses)) then
    Raise (HTTPException 400
             ("Invalid status. Couriers can only set: " +:+
              "COOKING, ON_WAY, DELIVERED, CANCELLED"))
  else if negb (bool_decide
                  (new_status ∈ default [] (valid_transitions !! current_status)))
  then
    Raise (HTTPException 400
             ("Invalid status transition from " +:+ current_status +:+
              " to " +:+ new_status))
  else Return new_status.

(** [update_order_status] (PATCH /courier/orders/{order_id}/status). *)
Definition update_order_status (utcnow : datetime) (order_id : Z)
    (status_update : string) (db : Session) : outcome (Session * Order.t) :=
  requested ← OrderStatusUpdate status_update;
  match orders db !! order_id with
  | None => Raise (HTTPException 404 "Order not found")
  | Some order =>
      new_status ← check_transition (Order.status order) requested;
      let order' := Order.with_status order new_status (Some utcnow) in
      Return (with_orders db (<[order_id := order']> (orders db)), order')
  end.

End Courier.

(** ** The administrator's status update
       ([app/api/v1/routers/admin_orders.py]) *)

Module AdminOrders.

Definition ALLOWED_STATUSES : gset string :=
  {[ "NEW"; "COOKING"; "ON_WAY"; "DELIVERED"; "CANCELLED" ]}.

(** [update_order_status] (PUT /admin/orders/{order_id}/status).  The
    handler assigns [order.status] and commits.  When the status differs
    from the stored one, the UPDATE also stamps [updated_at] through the
    column's [onupdate=now] ([utcnow] stands for that clock); when it is the
    same, no UPDATE is emitted and the row stays as it is.  The last
    component tells whether the customer is notified
    ([old_status != payload.status and order.user]). *)
Definition update_order_status (utcnow : datetime) (order_id : Z)
    (status : string) (db : Session) : outcome (Session * Order.t * bool) :=
  if negb (bool_decide (status ∈ ALLOWED_STATUSES)) then
    Raise (HTTPException 400 "Invalid status")
  else
    match orders db !! order_id with
    | None => Raise (HTTPException 404 "Order not found")
    | Some order =>
        let old_status := Order.status order in
        let order' :=
          if String.eqb old_status status then order
          else Order.with_status order status (Some utcnow) in
        Return (with_orders db (<[order_id := order']> (orders db)), order',
                negb (String.eqb old_status status)
                && bool_decide (is_Some (Order.user_id order)))
    end.

End AdminOrders.

(** ** Role guards ([app/core/security.py]) *)

Module Security.

Definition require_admin (user : User.t) : outcome User.t :=
  if negb (String.eqb (User.role user) "admin") then
    Raise (HTTPException 403 "admin only")
  else Return user.

Definition require_manager (user : User.t) : outcome User.t :=
  if negb (bool_decide (User.role user ∈ ["admin"; "manager"])) then
    Raise (HTTPException 403 "Manager access required")
  else Return user.

Definition require_courier (user : User.t) : outcome User.t :=
  if negb (bool_decide (User.role user ∈ ["admin"; "manager"; "courier"])) then
    Raise (HTTPException 403 "Courier access required")
  else Return user.

End Security.

(** ** Promo code deletion ([app/api/v1/routers/admin_promo.py]) *)

Module AdminPromo.

Definition with_promocodes (db : Session) (ps : list Promocode.t) : Session :=
  mk_Session (menu_items db) (modification_types db) ps (orders db).

(** [delete_promocode] (DELETE /admin/promo/{code}); [db.delete(promo)]
    removes the row with the primary key of [promo]. *)
Definition delete_promocode (code : string) (db : Session) : outcome Session :=
  match PromoValidator.query_promocode (promocodes db) code with
  | None => Raise (HTTPException 404 "Promocode not found")
  | Some promo =>
      if 0 <? Promocode.used_count promo then
        Raise (HTTPException 400
                 ("Cannot delete promocode that has been used. "
                  +:+ "Consider deactivating instead."))
      else
        Return (with_promocodes db
                  (List.filter
                     (fun p => negb (Promocode.id p =? Promocode.id promo))
                     (promocodes db)))
  end.

End AdminPromo.

(** * Specification-side vocabulary *)

(** The five order states and the edge set of the transition guard, as the
    specification words them. *)
Definition five_states : list string :=
  ["NEW"; "COOKING"; "ON_WAY"; "DELIVERED"; "CANCELLED"].

Definition spec_edges : list (string * string) :=
  [("NEW", "COOKING"); ("NEW", "CANCELLED");
   ("COOKING", "ON_WAY"); ("COOKING", "CANCELLED");
   ("ON_WAY", "DELIVERED"); ("ON_WAY", "CANCELLED")].

Definition spec_edge (current requested : string) : bool :=
  bool_decide ((current, requested) ∈ spec_edges).

(** * Concrete data used by the examples below *)

Definition zero_amount : Decimal := Decimal.mk 0 (-2).

(** An order that has been delivered, stored under primary key 1. *)
Definition delivered_order : Order.t :=
  Order.mk "ORD-240101120000001" (Some 7) "DELIVERED"
           (Decimal.mk 250000 (-2)) zero_amount (Decimal.mk 250000 (-2))
           None false "cod" None.

Definition new_order : Order.t :=
  Order.mk "ORD-240101120000002" (Some 7) "NEW"
           (Decimal.mk 250000 (-2)) zero_amount (Decimal.mk 250000 (-2))
           None false "cod" None.

Definition db_orders : Session :=
  mk_Session ∅ ∅ [] (<[1 := delivered_order]> (<[2 := new_order]> ∅)).


(** Monday 2024-01-01, 07:00 UTC (naive) and 12:00 in the business timezone;
    Thursday 2024-02-01, 00:00. *)
Definition utc_2024_01_01 : datetime :=
  mk_datetime 738886 (mk_time 7 0 0 0) None.

Definition noon_2024_01_01 : datetime :=
  mk_datetime 738886 (mk_time 12 0 0 0) (Some (5 * 3600 * 1000000)).

Definition utc_2024_02_01 : datetime :=
  mk_datetime 738917 (mk_time 0 0 0 0) None.

(** A 10 percent promo for which [valid_from] one month ahead was requested,
    as [generate_promo] builds it; POST /admin/promo/create followed by
    PUT /admin/promo/{code} with that [valid_from] stores the same row. *)
Definition early_request : PromoGenerateRequest :=
  mk_PromoGenerateRequest "percent" (Decimal.mk 1000 (-2)) true
    (Some utc_2024_02_01) None None None None.

Definition early_promo : Promocode.t :=
  generated_promocode 1 "EARLY10" early_request 1.

(** A deactivated promo, a promo whose kind is neither percent nor amount,
    a fixed-amount promo and the SAVE10 promo of the specification. *)
Definition old_promo : Promocode.t :=
  Promocode.mk 2 "OLD10" "percent" None (Some (Decimal.mk 1000 (-2)))
               None None 0 false None None None.

Definition bogus_promo : Promocode.t :=
  Promocode.mk 3 "BOGUS" "bogus" None (Some (Decimal.mk 1000 (-2)))
               None None 0 true None None None.

Definition gift_promo : Promocode.t :=
  Promocode.mk 4 "GIFT5000" "amount" None (Some (Decimal.mk 500000 (-2)))
               None None 0 true None None None.

Definition save10 : Promocode.t :=
  Promocode.mk 5 "SAVE10" "percent" None (Some (Decimal.mk 1000 (-2)))
               (Some zero_amount) None 0 true None None None.

Definition promo_table : list Promocode.t :=
  [early_promo; old_promo; bogus_promo; gift_promo; save10].

(** The menu, the order and the customer of the specification's end-to-end
    example: two items at 1000 and one at 500 with the promo SAVE10. *)
Definition spec_menu : gmap Z MenuItem.t :=
  <[1 := MenuItem.mk 1 "Burger" (Decimal.mk 100000 (-2)) true]>
  (<[2 := MenuItem.mk 2 "Fries" (Decimal.mk 50000 (-2)) true]> ∅).

(** NEG10: the row that POST /admin/promo/create stores for
    [discount_percent = -10] (kind percent, value -10.00, active, no
    bounds); [generate_promo] builds the same row for [value = -10]. *)
Definition neg10 : Promocode.t :=
  generated_promocode 6 "NEG10"
    (mk_PromoGenerateRequest "percent" (Decimal.mk (-1000) (-2)) true
                             None None None None None) 1.

Definition spec_db : Session :=
  mk_Session spec_menu ∅ (promo_table ++ [neg10]) ∅.

Definition spec_payload : Orders.OrderCreateRequest :=
  Orders.mk_request [Orders.mk_item 1 2 []; Orders.mk_item 2 1 []]
                    "pickup" (Some "SAVE10") None.

Definition empty_payload : Orders.OrderCreateRequest :=
  Orders.mk_request [] "pickup" None None.

Definition neg10_payload : Orders.OrderCreateRequest :=
  Orders.mk_request [Orders.mk_item 1 1 []] "pickup" (Some "NEG10") None.

Definition customer : User.t := User.mk 7 "Aigerim" "user".

(** What one item of an order contributes: its line total, when the item is
    on the menu, active and ordered in a positive quantity. *)
Definition line_total_of (menu : gmap Z MenuItem.t) (it : Orders.OrderItemIn)
    (line_total : Decimal) : Prop :=
  exists mi, menu !! Orders.item_id it = Some mi
    /\ MenuItem.is_active mi = true
    /\ 0 < Orders.qty it
    /\ Decimal.quantize
         (Decimal.mul (MenuItem.price mi) (Decimal.of_int (Orders.qty it)))
         Decimal.cent = Return line_total.

(** The subtotal in hundredths as the specification computes it: the sum,
    over the line items, of price times quantity. *)
Definition line_cents (menu : gmap Z MenuItem.t) (it : Orders.OrderItemIn)
    : Z :=
  match menu !! Orders.item_id it with
  | Some mi => Decimal.coef (MenuItem.price mi) * Orders.qty it
  | None => 0
  end.

Definition subtotal_cents (menu : gmap Z MenuItem.t)
    (its : list Orders.OrderItemIn) : Z :=
  foldr (fun it acc => line_cents menu it + acc) 0 its.

(** A menu as the [Numeric(10, 2)] price column stores it: every price is a
    non-negative number of hundredths. *)
Definition priced_in_cents (menu : gmap Z MenuItem.t) : Prop :=
  forall k mi, menu !! k = Some mi ->
    Decimal.exp (MenuItem.price mi) = -2
    /\ 0 <= Decimal.coef (MenuItem.price mi).

(** The opening instant of a calendar day, when the schedule has a
    non-closed entry with an opening time for its weekday. *)
Definition opening_on (self : Hours.BusinessHoursService) (date : Z)
    : option datetime :=
  match Hours.default_hours self !! weekday_of_ordinal date with
  | Some h =>
      if Hours.is_closed h then None
      else (fun o => Hours.combine date o (Hours.timezone self))
             <$> Hours.open_time h
  | None => None
  end.

(** The schedule after an administrator moved Monday's opening to 23:00
    without touching its closing time (22:00), and Monday 2024-01-01 at
    22:30, 08:59 and 23:00 in the business timezone. *)
Definition late_monday : AdminBusinessHours.BusinessHoursUpdate :=
  AdminBusinessHours.mk_update (Some (Hours.at_ 23 0)) None None.

Definition inverted_hours : Hours.BusinessHoursService :=
  Hours.mk_service
    (<[0 := Hours.mk_BusinessHours 0 (Some (Hours.at_ 23 0))
                                   (Some (Hours.at_ 22 0)) false]>
       (Hours.default_hours Hours.init))
    (Hours.timezone Hours.init).

Definition monday_at (h m : Z) : datetime :=
  mk_datetime 738886 (mk_time h m 0 0) (Some (5 * 3600 * 1000000)).

(** How far an order has come: NEW, COOKING, ON_WAY, then the terminal
    states (and anything else). *)
Definition status_rank (status : string) : Z :=
  if String.eqb status "NEW" then 0
  else if String.eqb status "COOKING" then 1
  else if String.eqb status "ON_WAY" then 2
  else 3.

(** A courier sending one status update after the other for the same order;
    the run stops at the first update that is refused. *)
Fixpoint courier_updates (utcnow : datetime) (order_id : Z)
    (requests : list string) (db : Session) : outcome Session :=
  match requests with
  | [] => Return db
  | requested :: rest =>
      '(db', _) ← Courier.update_order_status utcnow order_id requested db;
      courier_updates utcnow order_id rest db'
  end.

(** A schedule that has an entry for each of the seven weekdays. *)
Definition complete_week (self : Hours.BusinessHoursService) : Prop :=
  forall weekday, 0 <= weekday < 7 ->
    is_Some (Hours.default_hours self !! weekday).

(** The cart line that asks the price of an order line. *)
Definition cart_item_of (it : Orders.OrderItemIn) : Cart.CartItem :=
  Cart.mk_item (Orders.item_id it) (Orders.qty it).

(** The unique constraints of [promocodes]: primary key and code. *)
Definition unique_promocodes (table : list Promocode.t) : Prop :=
  NoDup (Promocode.id <$> table) /\ NoDup (Promocode.code <$> table).

(** Promo values as the [Numeric(10, 2)] column stores them, when none is
    negative: a number of hundredths with at most ten digits. *)
Definition promo_values_in_cents (table : list Promocode.t) : Prop :=
  forall p v, p ∈ table -> Promocode.value p = Some v ->
    Decimal.exp v = -2 /\ 0 <= Decimal.coef v < 10 ^ 10.

(** Rounding as the specification words it: [q] is the quotient of [n] by
    [10 ^ k] rounded to the nearest integer, a tie going to the even one. *)
Definition nearest_even (n k q : Z) : Prop :=
  2 * Z.abs (n - q * 10 ^ k) <= 10 ^ k
  /\ (2 * Z.abs (n - q * 10 ^ k) = 10 ^ k -> Z.even q = true).


(** * Order status transitions *)

Ltac five_cases H :=
  unfold five_states in H; set_unfold in H;
  destruct H as [-> | [-> | [-> | [-> | [-> | []]]]]].

(** The courier guard on a pair of the five states, as a total function. *)
Lemma check_transition_five (current requested : string) :
  current ∈ five_states -> requested ∈ five_states ->
  Courier.check_transition current requested =
    if spec_edge current requested then Return requested
    else Raise (HTTPException 400
           (if String.eqb requested "NEW"
            then "Invalid status. Couriers can only set: COOKING, ON_WAY, DELIVERED, CANCELLED"
            else "Invalid status transition from " +:+ current +:+
                 " to " +:+ requested)).
Proof.
  intros Hc Hr. five_cases Hc; five_cases Hr; vm_compute; reflexivity.
Qed.

(** A status the courier guard lets through is always the head of an edge,
    whatever string the stored status is. *)
Lemma check_transition_sound (current requested new_status : string) :
  Courier.check_transition current requested = Return new_status ->
  new_status = requested /\ (current, requested) ∈ spec_edges.
Proof.
  unfold Courier.check_transition.
  destruct (bool_decide (requested ∈ Courier.valid_courier_statuses)); simpl;
    [ | discriminate].
  destruct (bool_decide
    (requested ∈ default [] (Courier.valid_transitions !! current))) eqn:E;
    simpl; [ | discriminate].
  intros [= <-]. split; [reflexivity | ].
  apply bool_decide_eq_true in E.
  unfold Courier.valid_transitions in E.
  destruct (decide (current = "NEW")) as [-> | n1];
    [ rewrite lookup_insert_eq in E | rewrite lookup_insert_ne in E by congruence;
  destruct (decide (current = "COOKING")) as [-> | n2];
    [ rewrite lookup_insert_eq in E | rewrite lookup_insert_ne in E by congruence;
  destruct (decide (current = "ON_WAY")) as [-> | n3];
    [ rewrite lookup_insert_eq in E | rewrite lookup_insert_ne in E by congruence;
  destruct (decide (current = "DELIVERED")) as [-> | n4];
    [ rewrite lookup_insert_eq in E | rewrite lookup_insert_ne in E by congruence;
  destruct (decide (current = "CANCELLED")) as [-> | n5];
    [ rewrite lookup_insert_eq in E
    | rewrite lookup_insert_ne, lookup_empty in E by congruence ]]]]];
  simpl in E; set_unfold in E;
  repeat match type of E with
         | _ \/ _ => destruct E as [E | E]
         | False => destruct E
         | requested = _ => subst requested
         end;
  apply (bool_decide_unpack _); vm_compute; exact I.
Qed.


Ltac by_computation := apply (bool_decide_unpack _); vm_compute; exact I.

(** C2.  On a pair (current, requested) of the five states the courier's
    transition guard succeeds, returning the requested status, exactly when
    the pair is one of the six edges NEW->COOKING, NEW->CANCELLED,
    COOKING->ON_WAY, COOKING->CANCELLED, ON_WAY->DELIVERED,
    ON_WAY->CANCELLED; on every other pair it raises an HTTP 400.  In
    particular it raises for every request from DELIVERED or CANCELLED, for
    every self-transition and for the skipping pair (NEW, ON_WAY). *)
Theorem courier_guard_matches_edge_set (current requested : string) :
  current ∈ five_states -> requested ∈ five_states ->
  ((current, requested) ∈ spec_edges <->
     Courier.check_transition current requested = Return requested)
  /\ ((current, requested) ∉ spec_edges <->
        exists detail, Courier.check_transition current requested =
                         Raise (HTTPException 400 detail))
  /\ (current = "DELIVERED" \/ current = "CANCELLED" \/ current = requested
      \/ (current = "NEW" /\ requested = "ON_WAY") ->
      returns (Courier.check_transition current requested) = false).
Proof.
  intros Hc Hr.
  pose proof (check_transition_five current requested Hc Hr) as E.
  unfold spec_edge in E.
  destruct (bool_decide ((current, requested) ∈ spec_edges)) eqn:D.
  - apply bool_decide_eq_true in D. rewrite E.
    split; [ | split].
    + split; [reflexivity | intros _; exact D].
    + split; [intros N; contradiction | intros [detail [=]]].
    + intros C. exfalso. revert D.
      five_cases Hc; five_cases Hr;
        destruct C as [C | [C | [C | [C1 C2]]]]; try discriminate;
        intros D; apply (bool_decide_pack _) in D; vm_compute in D;
        exact D.
  - apply bool_decide_eq_false in D. rewrite E.
    split; [ | split].
    + split; [intros I; contradiction | intros [=]].
    + split; [intros _; eexists; reflexivity | intros _; exact D].
    + intros _. reflexivity.
Qed.

Lemma courier_guard_matches_edge_set_witness :
  Courier.check_transition "NEW" "COOKING" = Return "COOKING"
  /\ returns (Courier.check_transition "NEW" "ON_WAY") = false.
Proof.
  split.
  - apply (courier_guard_matches_edge_set "NEW" "COOKING");
      by_computation.
  - apply (courier_guard_matches_edge_set "NEW" "ON_WAY");
      [by_computation | by_computation | ].
    right. right. right. split; reflexivity.
Defined.




(** * Decimal arithmetic below the context precision *)

Module DecimalFacts.
Import Decimal.

Lemma ndigits_aux_pos (fuel : nat) (n : Z) : 1 <= ndigits_aux fuel n.
Proof.
  revert n. induction fuel as [ | f IH]; intros n; simpl; [lia | ].
  destruct (n <? 10); [lia | ]. specialize (IH (n / 10)). lia.
Qed.

Lemma ndigits_aux_le (fuel : nat) :
  forall n k, 0 <= n < 10 ^ (Z.of_nat fuel + 1) -> 1 <= k ->
    (ndigits_aux fuel n <= k <-> n < 10 ^ k).
Proof.
  induction fuel as [ | f IH]; intros n k Hn Hk.
  - simpl in *. change (10 ^ 1) with 10 in Hn.
    assert (10 ^ 1 <= 10 ^ k) by (apply Z.pow_le_mono_r; lia).
    change (10 ^ 1) with 10 in *. lia.
  - cbn [ndigits_aux]. destruct (Z.ltb_spec n 10) as [Hlt | Hge].
    + assert (10 ^ 1 <= 10 ^ k) by (apply Z.pow_le_mono_r; lia).
      change (10 ^ 1) with 10 in *. lia.
    + replace (Z.of_nat (S f) + 1) with (Z.succ (Z.of_nat f + 1)) in Hn by lia.
      rewrite Z.pow_succ_r in Hn by lia.
      assert (Hdiv : 0 <= n / 10 < 10 ^ (Z.of_nat f + 1)).
      { split; [apply Z.div_pos; lia | ].
        apply Z.div_lt_upper_bound; lia. }
      pose proof (ndigits_aux_pos f (n / 10)) as Hpos.
      destruct (Z.eq_dec k 1) as [-> | Hk1].
      * change (10 ^ 1) with 10. lia.
      * specialize (IH (n / 10) (k - 1) Hdiv ltac:(lia)).
        replace k with (Z.succ (k - 1)) at 2 by lia.
        rewrite Z.pow_succ_r by lia.
        assert (n / 10 < 10 ^ (k - 1) <-> n < 10 * 10 ^ (k - 1)).
        { split; intros H.
          - pose proof (Z.div_mod n 10 ltac:(lia)).
            pose proof (Z.mod_pos_bound n 10 ltac:(lia)). lia.
          - apply Z.div_lt_upper_bound; lia. }
        lia.
Qed.

(** A coefficient has at most [k] digits exactly when its magnitude is below
    [10 ^ k]. *)
Lemma ndigits_le (c k : Z) : 1 <= k -> (ndigits c <= k <-> Z.abs c < 10 ^ k).
Proof.
  intros Hk. unfold ndigits. apply ndigits_aux_le; [ | exact Hk].
  split; [lia | ].
  rewrite Z2Nat.id by apply Z.log2_nonneg.
  destruct (Z.eq_dec (Z.abs c) 0) as [-> | Hnz]; [reflexivity | ].
  pose proof (Z.log2_spec (Z.abs c) ltac:(lia)) as [_ Hup].
  assert (2 ^ Z.succ (Z.log2 (Z.abs c)) <= 10 ^ Z.succ (Z.log2 (Z.abs c))).
  { apply Z.pow_le_mono_l. lia. }
  replace (Z.log2 (Z.abs c) + 1) with (Z.succ (Z.log2 (Z.abs c))) by lia.
  lia.
Qed.

Lemma fix_fits (c e : Z) : fits c -> fix_ (mk c e) = mk c e.
Proof.
  intros H. unfold fix_. cbn [coef].
  destruct (Z.leb_spec (ndigits c) prec) as [_ | Hgt]; [reflexivity | ].
  apply (ndigits_le c prec) in H; [lia | unfold prec; lia].
Qed.

Lemma mul_fits (a b : t) :
  fits (coef a * coef b) -> mul a b = mk (coef a * coef b) (exp a + exp b).
Proof. intros H. unfold mul. apply fix_fits, H. Qed.

(** Adding two amounts that carry the same exponent. *)
Lemma add_same_exp (x y e : Z) :
  fits (x + y) -> add (mk x e) (mk y e) = mk (x + y) e.
Proof.
  intros H. unfold add. cbn [coef exp].
  rewrite Z.min_id, Z.sub_diag. change (10 ^ 0) with 1.
  rewrite !Z.mul_1_r. apply fix_fits, H.
Qed.

(** [Decimal('0.0') + x] for an amount in hundredths. *)
Lemma add_zero1_cents (y : Z) :
  fits y -> add zero1 (mk y (-2)) = mk y (-2).
Proof.
  intros H. unfold add, zero1. cbn [coef exp].
  change (Z.min (-1) (-2)) with (-2). change (-2 - -2) with 0.
  change (10 ^ 0) with 1. rewrite Z.mul_1_r. simpl (0 * _ + y).
  apply fix_fits, H.
Qed.

(** Quantizing an amount that already is in hundredths changes nothing. *)
Lemma quantize_cents (c : Z) :
  fits c -> quantize (mk c (-2)) cent = Return (mk c (-2)).
Proof.
  intros H. unfold quantize, cent. cbn [coef exp].
  destruct (Z.eqb_spec c 0) as [-> | Hnz]; [reflexivity | ].
  assert (Hd : ndigits c <= prec) by (apply ndigits_le; [unfold prec; lia | exact H]).
  destruct (Z.ltb_spec prec (ndigits c + -2 - -2)) as [Hbad | _]; [lia | ].
  unfold rescale. cbn [coef exp]. change (-2 <=? -2) with true.
  cbn iota. change (-2 - -2) with 0. change (10 ^ 0) with 1.
  rewrite Z.mul_1_r. cbn [coef].
  destruct (Z.ltb_spec prec (ndigits c)) as [Hbad | _]; [lia | reflexivity].
Qed.

Lemma round_half_even_nat_bounds (n k : Z) :
  0 <= n -> 1 <= k -> 0 <= round_half_even_nat n k <= n.
Proof.
  intros Hn Hk. unfold round_half_even_nat.
  assert (Hm : 10 <= 10 ^ k).
  { change 10 with (10 ^ 1) at 1. apply Z.pow_le_mono_r; lia. }
  pose proof (Z.div_mod n (10 ^ k) ltac:(lia)) as Hdm.
  pose proof (Z.mod_pos_bound n (10 ^ k) ltac:(lia)) as Hr.
  assert (0 <= n / 10 ^ k) by (apply Z.div_pos; lia).
  destruct ((10 ^ k <? 2 * (n mod 10 ^ k))
            || ((2 * (n mod 10 ^ k) =? 10 ^ k) && Z.odd (n / 10 ^ k))) eqn:E.
  - apply orb_true_iff in E as [E | E].
    + apply Z.ltb_lt in E. nia.
    + apply andb_true_iff in E as [E _]. apply Z.eqb_eq in E. nia.
  - nia.
Qed.

(** Trailing zeros that are dropped together with the rounded digits do not
    change the rounding. *)
Lemma round_half_even_nat_scale (n i k : Z) :
  0 <= n -> 0 <= i -> 0 <= k ->
  round_half_even_nat (n * 10 ^ i) (k + i) = round_half_even_nat n k.
Proof.
  intros Hn Hi Hk. unfold round_half_even_nat.
  rewrite Z.pow_add_r by lia.
  assert (0 < 10 ^ i) by (apply Z.pow_pos_nonneg; lia).
  assert (0 < 10 ^ k) by (apply Z.pow_pos_nonneg; lia).
  rewrite Z.div_mul_cancel_r by lia.
  rewrite Z.mul_mod_distr_r by lia.
  set (q := n / 10 ^ k). set (r := n mod 10 ^ k).
  replace (10 ^ k * 10 ^ i <? 2 * (r * 10 ^ i)) with (10 ^ k <? 2 * r).
  2:{ destruct (Z.ltb_spec (10 ^ k) (2 * r));
      destruct (Z.ltb_spec (10 ^ k * 10 ^ i) (2 * (r * 10 ^ i)));
      try reflexivity; nia. }
  replace (2 * (r * 10 ^ i) =? 10 ^ k * 10 ^ i) with (2 * r =? 10 ^ k).
  2:{ destruct (Z.eqb_spec (2 * r) (10 ^ k));
      destruct (Z.eqb_spec (2 * (r * 10 ^ i)) (10 ^ k * 10 ^ i));
      try reflexivity; nia. }
  reflexivity.
Qed.

Lemma round_half_even_scale (c i k : Z) :
  0 <= i -> 0 <= k ->
  round_half_even (c * 10 ^ i) (k + i) = round_half_even c k.
Proof.
  intros Hi Hk. unfold round_half_even.
  assert (0 < 10 ^ i) by (apply Z.pow_pos_nonneg; lia).
  rewrite Z.abs_mul, (Z.abs_eq (10 ^ i)) by lia.
  rewrite round_half_even_nat_scale by lia.
  f_equal. rewrite Z.sgn_mul, (Z.sgn_pos (10 ^ i)) by lia. lia.
Qed.

Lemma round_half_even_fits (c k : Z) :
  1 <= k -> fits c -> fits (round_half_even c k).
Proof.
  unfold fits, round_half_even. intros Hk Hc.
  pose proof (round_half_even_nat_bounds (Z.abs c) k ltac:(lia) Hk).
  rewrite Z.abs_mul. destruct (Z.sgn_spec c) as [[_ ->] | [[_ ->] | [_ ->]]];
    simpl (Z.abs _) at 1; lia.
Qed.

(** Quantizing a finer amount to hundredths rounds it half to even. *)
Lemma quantize_round (c e : Z) :
  fits c -> e < -2 ->
  quantize (mk c e) cent = Return (mk (round_half_even c (-2 - e)) (-2)).
Proof.
  intros Hc He. unfold quantize, cent. cbn [coef exp].
  destruct (Z.eqb_spec c 0) as [-> | Hnz].
  { unfold round_half_even. reflexivity. }
  assert (Hd : ndigits c <= prec)
    by (apply ndigits_le; [unfold prec; lia | exact Hc]).
  destruct (Z.ltb_spec prec (ndigits c + e - -2)) as [Hbad | _]; [lia | ].
  unfold rescale. cbn [coef exp].
  destruct (Z.leb_spec (-2) e) as [Hbad | _]; [lia | ]. cbn [coef].
  assert (Hr : ndigits (round_half_even c (-2 - e)) <= prec).
  { apply ndigits_le; [unfold prec; lia | ].
    apply round_half_even_fits; [lia | exact Hc]. }
  destruct (Z.ltb_spec prec (ndigits (round_half_even c (-2 - e))))
    as [Hbad | _]; [lia | reflexivity].
Qed.

(** The zeros [__truediv__] pads the dividend with are all dropped again
    when the quotient is exact. *)
Lemma strip_zeros_pad (j : nat) :
  forall (fuel : nat) (n e ideal : Z),
    (j <= fuel)%nat -> e + Z.of_nat j <= ideal ->
    strip_zeros fuel (n * 10 ^ Z.of_nat j) e ideal =
      strip_zeros (fuel - j) n (e + Z.of_nat j) ideal.
Proof.
  induction j as [ | j IH]; intros fuel n e ideal Hf He.
  - change (10 ^ Z.of_nat 0) with 1. rewrite Z.mul_1_r, Z.add_0_r.
    f_equal. lia.
  - destruct fuel as [ | f]; [lia | ]. cbn [strip_zeros].
    rewrite Nat2Z.inj_succ, Z.pow_succ_r by lia.
    replace (n * (10 * 10 ^ Z.of_nat j)) with ((n * 10 ^ Z.of_nat j) * 10) by lia.
    rewrite Z.mod_mul, Z.div_mul by lia.
    destruct (Z.ltb_spec e ideal) as [_ | Hbad]; [ | lia].
    cbn [andb]. change (0 =? 0) with true. cbn iota.
    rewrite IH by lia. f_equal; lia.
Qed.

Lemma strip_zeros_two (n e : Z) :
  exists c' i, 0 <= i <= 2 /\ strip_zeros 2 n e (e + 2) = mk c' (e + i)
               /\ n = c' * 10 ^ i.
Proof.
  cbn [strip_zeros].
  destruct (Z.ltb_spec e (e + 2)) as [_ | Hbad]; [ | lia]. cbn [andb].
  destruct (Z.eqb_spec (n mod 10) 0) as [H1 | H1].
  - destruct (Z.ltb_spec (e + 1) (e + 2)) as [_ | Hbad]; [ | lia]. cbn [andb].
    pose proof (Z.div_mod n 10 ltac:(lia)) as D1.
    destruct (Z.eqb_spec ((n / 10) mod 10) 0) as [H2 | H2].
    + pose proof (Z.div_mod (n / 10) 10 ltac:(lia)) as D2.
      exists (n / 10 / 10), 2. split; [lia | split].
      * f_equal. lia.
      * change (10 ^ 2) with 100. lia.
    + exists (n / 10), 1. split; [lia | split]; [reflexivity | ].
      change (10 ^ 1) with 10. lia.
  - exists n, 0. split; [lia | split].
    + f_equal. lia.
    + change (10 ^ 0) with 1. lia.
Qed.

(** Dividing by [Decimal('100')] is exact: the quotient keeps the digits of
    the dividend, up to two trailing zeros. *)
Lemma truediv_hundred (c e : Z) :
  fits c -> c <> 0 ->
  exists c' i, 0 <= i <= 2
    /\ truediv (mk c e) hundred = Return (mk c' (e - 2 + i))
    /\ c = c' * 10 ^ i.
Proof.
  intros Hc Hnz. unfold truediv, hundred. cbn [coef exp].
  change (100 =? 0) with false. cbn iota.
  destruct (Z.eqb_spec c 0) as [Hz | _]; [contradiction | ].
  change (ndigits 100) with 3. change (Z.abs 100) with 100.
  change (Z.sgn 100) with 1. rewrite Z.mul_1_r.
  assert (Hd : 1 <= ndigits c <= prec).
  { split; [apply ndigits_aux_pos | ].
    apply ndigits_le; [unfold prec; lia | exact Hc]. }
  set (shift := 3 - ndigits c + prec + 1).
  assert (Hs : 4 <= shift) by (unfold shift, prec in *; lia).
  destruct (Z.leb_spec 0 shift) as [_ | Hbad]; [ | lia].
  assert (Hpow : 10 ^ shift = 10 ^ (shift - 2) * 100).
  { replace shift with ((shift - 2) + 2) at 1 by lia.
    rewrite Z.pow_add_r by lia. reflexivity. }
  rewrite Hpow, Z.mul_assoc, Z.mod_mul, Z.div_mul by lia.
  change (0 =? 0) with true. cbn iota.
  replace (e - 0 - (e - 0 - shift)) with shift by lia.
  replace (shift - 2) with (Z.of_nat (Z.to_nat (shift - 2))) by lia.
  rewrite strip_zeros_pad by lia.
  replace (Z.to_nat shift - Z.to_nat (shift - 2))%nat with 2%nat by lia.
  replace (e - 0 - shift + Z.of_nat (Z.to_nat (shift - 2))) with (e - 2) by lia.
  replace (e - 0) with (e - 2 + 2) by lia.
  destruct (strip_zeros_two (Z.abs c) (e - 2)) as (c' & i & Hi & -> & Habs).
  cbn [coef exp].
  assert (0 < 10 ^ i) by (apply Z.pow_pos_nonneg; lia).
  exists (Z.sgn c * c'), i. split; [exact Hi | split].
  - f_equal. apply fix_fits. unfold fits in *.
    rewrite Z.abs_mul. 
    assert (0 <= c') by nia.
    destruct (Z.sgn_spec c) as [[_ ->] | [[_ ->] | [_ ->]]];
      simpl (Z.abs _) at 1; nia.
  - rewrite <- Z.mul_assoc, <- Habs. destruct c; reflexivity.
Qed.

(** The percent formula on exact operands: the product divided by one
    hundred and quantized is the product rounded half to even at the
    hundredths. *)
Lemma percent_exact (a b : t) :
  fits (coef a * coef b) -> exp a + exp b <= -3 ->
  (q ← truediv (mul a b) hundred; quantize q cent) =
    Return (mk (round_half_even (coef a * coef b) (- (exp a + exp b))) (-2)).
Proof.
  intros Hf He. rewrite mul_fits by exact Hf.
  set (c := coef a * coef b) in *. set (e := exp a + exp b) in *.
  destruct (Z.eq_dec c 0) as [Hz | Hnz].
  - rewrite Hz. unfold truediv, hundred. cbn [coef exp].
    change (100 =? 0) with false. change (0 =? 0) with true. cbn iota.
    rewrite fix_fits by (unfold fits, prec; simpl; lia).
    reflexivity.
  - destruct (truediv_hundred c e Hf Hnz) as (c' & i & Hi & -> & Hc).
    assert (0 < 10 ^ i) by (apply Z.pow_pos_nonneg; lia).
    assert (fits c') by (unfold fits in *; rewrite Hc in Hf;
                         rewrite Z.abs_mul in Hf; nia).
    change (mbind ?f (Return ?x)) with (f x). cbv beta.
    rewrite quantize_round by (try assumption; lia).
    do 2 f_equal. rewrite Hc.
    replace (- e) with ((-2 - (e - 2 + i)) + i) by lia.
    rewrite round_half_even_scale by lia. reflexivity.
Qed.

(** A line total: a price in hundredths times an integer quantity. *)
Lemma line_total_exact (price : t) (qty : Z) :
  exp price = -2 -> fits (coef price * qty) ->
  quantize (mul price (of_int qty)) cent = Return (mk (coef price * qty) (-2)).
Proof.
  intros He Hf. rewrite mul_fits by exact Hf.
  unfold of_int. cbn [coef exp]. rewrite He. apply quantize_cents, Hf.
Qed.

(** Signs and order: none of the operations turns a non-negative amount
    negative, and [min] never exceeds its second argument. *)
Lemma round_half_even_nonneg (c k : Z) :
  0 <= c -> 1 <= k -> 0 <= round_half_even c k.
Proof.
  intros Hc Hk. unfold round_half_even.
  pose proof (round_half_even_nat_bounds (Z.abs c) k ltac:(lia) Hk).
  pose proof (Z.sgn_nonneg c). nia.
Qed.

Lemma fix_nonneg (d : t) : 0 <= coef d -> 0 <= coef (fix_ d).
Proof.
  intros Hd. unfold fix_.
  destruct (Z.leb_spec (ndigits (coef d)) prec) as [_ | Hgt]; [exact Hd | ].
  pose proof (round_half_even_nonneg (coef d) (ndigits (coef d) - prec) Hd
                ltac:(lia)) as Hr.
  destruct (prec <? ndigits _); cbn [coef]; [ | exact Hr].
  apply Z.quot_pos; lia.
Qed.

Lemma mul_nonneg (a b : t) :
  0 <= coef a -> 0 <= coef b -> 0 <= coef (mul a b).
Proof. intros Ha Hb. apply fix_nonneg. cbn [coef]. nia. Qed.

Lemma add_nonneg (a b : t) :
  0 <= coef a -> 0 <= coef b -> 0 <= coef (add a b).
Proof.
  intros Ha Hb. apply fix_nonneg. cbn [coef].
  pose proof (Z.pow_nonneg 10 (exp a - Z.min (exp a) (exp b)) ltac:(lia)).
  pose proof (Z.pow_nonneg 10 (exp b - Z.min (exp a) (exp b)) ltac:(lia)).
  nia.
Qed.

Lemma quantize_nonneg (d q r : t) :
  quantize d q = Return r -> 0 <= coef d -> 0 <= coef r.
Proof.
  unfold quantize. intros H Hd.
  destruct (coef d =? 0); [injection H as <-; simpl; lia | ].
  destruct (prec <? ndigits (coef d) + exp d - exp q); [discriminate | ].
  destruct (prec <? ndigits (coef (rescale d (exp q)))); [discriminate | ].
  injection H as <-. unfold rescale.
  destruct (Z.leb_spec (exp q) (exp d)) as [Hle | Hlt]; cbn [coef].
  - pose proof (Z.pow_nonneg 10 (exp d - exp q) ltac:(lia)). nia.
  - apply round_half_even_nonneg; lia.
Qed.

Lemma strip_zeros_nonneg (fuel : nat) :
  forall c e ideal, 0 <= c -> 0 <= coef (strip_zeros fuel c e ideal).
Proof.
  induction fuel as [ | f IH]; intros c e ideal Hc; cbn [strip_zeros];
    [exact Hc | ].
  destruct ((e <? ideal) && (c mod 10 =? 0)); [ | exact Hc].
  apply IH, Z.div_pos; lia.
Qed.

Lemma truediv_nonneg (a b r : t) :
  truediv a b = Return r -> 0 <= coef a -> 0 <= coef b -> 0 <= coef r.
Proof.
  unfold truediv. intros H Ha Hb.
  destruct (coef b =? 0); [destruct (coef a =? 0); discriminate | ].
  destruct (coef a =? 0).
  { injection H as <-. apply fix_nonneg. simpl. lia. }
  injection H as <-. apply fix_nonneg. cbn [coef].
  pose proof (Z.sgn_nonneg (coef a)). pose proof (Z.sgn_nonneg (coef b)).
  apply Z.mul_nonneg_nonneg; [nia | ].
  set (shift := ndigits (coef b) - ndigits (coef a) + prec + 1).
  set (num := if 0 <=? shift then Z.abs (coef a) * 10 ^ shift else Z.abs (coef a)).
  set (den := if 0 <=? shift then Z.abs (coef b)
              else Z.abs (coef b) * 10 ^ (- shift)).
  assert (Hnum : 0 <= num).
  { unfold num. pose proof (Z.pow_nonneg 10 shift ltac:(lia)).
    destruct (0 <=? shift); nia. }
  assert (Hden : 0 <= den).
  { unfold den. pose proof (Z.pow_nonneg 10 (- shift) ltac:(lia)).
    destruct (0 <=? shift); nia. }
  assert (Hq : 0 <= num / den) by (apply Z_div_nonneg_nonneg; assumption).
  fold shift num den.
  destruct (num mod den =? 0).
  - apply strip_zeros_nonneg, Hq.
  - cbn [coef]. destruct (num / den mod 5 =? 0); lia.
Qed.

Lemma compare_antisym (a b : t) : compare a b = CompOpp (compare b a).
Proof.
  unfold compare. rewrite (Z.min_comm (exp b) (exp a)). apply Z.compare_antisym.
Qed.

Lemma compare_refl (a : t) : compare a a = Eq.
Proof. unfold compare. apply Z.compare_refl. Qed.

Lemma leb_min_r (d s : t) : leb (min d s) s = true.
Proof.
  unfold min, ltb, leb. destruct (compare s d) eqn:E.
  - rewrite compare_antisym, E. reflexivity.
  - rewrite compare_refl. reflexivity.
  - rewrite compare_antisym, E. reflexivity.
Qed.

Lemma min_nonneg (d s : t) :
  0 <= coef d -> 0 <= coef s -> 0 <= coef (min d s).
Proof. intros Hd Hs. unfold min. destruct (ltb s d); assumption. Qed.

Lemma leb_zero1 (x : t) : leb zero1 x = true <-> 0 <= coef x.
Proof.
  unfold leb, compare, zero1. cbn [coef exp]. rewrite Z.mul_0_l.
  assert (0 < 10 ^ (exp x - Z.min (-1) (exp x)))
    by (apply Z.pow_pos_nonneg; lia).
  destruct (Z.compare_spec 0 (coef x * 10 ^ (exp x - Z.min (-1) (exp x))));
    split; intros; try reflexivity; try discriminate; nia.
Qed.

(** ** Rounding to the nearest hundredth *)



(** The two conditions determine the quotient. *)
Lemma nearest_even_unique (n k q q' : Z) :
  0 <= k -> nearest_even n k q -> nearest_even n k q' -> q = q'.
Proof.
  intros Hk [Hq Hqe] [Hq' Hqe'].
  assert (Hm : 0 < 10 ^ k) by (apply Z.pow_pos_nonneg; lia).
  set (m := 10 ^ k) in *.
  assert (Hd : -1 <= q - q' <= 1) by nia.
  assert (Hcases : q - q' = 0 \/ q - q' = 1 \/ q - q' = -1) by lia.
  destruct Hcases as [H0 | [H1 | H1]]; [lia | exfalso | exfalso].
  - assert (Z.even q = true) by (apply Hqe; nia).
    assert (Z.even q' = true) by (apply Hqe'; nia).
    replace q with (Z.succ q') in * by lia.
    rewrite Z.even_succ, <- Z.negb_even in *.
    destruct (Z.even q'); discriminate.
  - assert (Z.even q = true) by (apply Hqe; nia).
    assert (Z.even q' = true) by (apply Hqe'; nia).
    replace q' with (Z.succ q) in * by lia.
    rewrite Z.even_succ, <- Z.negb_even in *.
    destruct (Z.even q); discriminate.
Qed.






End DecimalFacts.

(** * The promo rule evaluator *)

Import PromoValidator.






(** C8 as stated, refuted.  EARLY10 was generated with [valid_from] set to
    2024-02-01; evaluated on 2024-01-01, before that instant, it is accepted
    with a 10 percent discount instead of being rejected as not started. *)
Lemma generated_valid_from_is_dropped :
  req_valid_from early_request = Some utc_2024_02_01
  /\ query_promocode promo_table "EARLY10" =
       Some (generated_promocode 1 "EARLY10" early_request 1)
  /\ datetime_ltb utc_2024_01_01 utc_2024_02_01 = true
  /\ calculate_discount promo_table (Some "EARLY10") (Decimal.mk 250000 (-2))
                        utc_2024_01_01 =
       Return (mk_PromoValidationResult true (Decimal.mk 25000 (-2)) None)
  /\ calculate_discount promo_table (Some "EARLY10") (Decimal.mk 250000 (-2))
                        utc_2024_01_01 <>
       Return (rejected "not_started").
Proof.
  repeat split; try (vm_compute; reflexivity).
  vm_compute. discriminate.
Qed.

(** C8, amended.  [valid_from] is not persisted: whatever instant is assigned
    to it, the promo model reads it back as unset, and therefore no
    evaluation, of any promo table at any time, returns the reason
    not_started. *)
Theorem not_started_never_returned
    (table : list Promocode.t) (code : option string) (subtotal : Decimal)
    (now : datetime) (r : PromoValidationResult) :
  calculate_discount table code subtotal now = Return r ->
  reason r <> Some "not_started"
  /\ (forall (p : Promocode.t) (t : datetime),
        Promocode.valid_from (Promocode.set_valid_from p (Some t)) = None).
Proof.
  intros H. split; [ | reflexivity].
  unfold calculate_discount in H.
  destruct (truthy code) as [c | ]; [ | injection H as <-; discriminate].
  destruct (query_promocode table c) as [promo | ];
    [ | injection H as <-; discriminate].
  destruct (negb (Promocode.is_active promo));
    [injection H as <-; discriminate | ].
  cbn [Promocode.valid_from] in H.
  destruct (match Promocode.valid_to promo with
            | Some t => datetime_ltb t now
            | None => false
            end); [injection H as <-; discriminate | ].
  destruct (match Promocode.min_subtotal promo with
            | Some m => Decimal.ltb subtotal m
            | None => false
            end); [injection H as <-; discriminate | ].
  destruct (raw_discount promo subtotal) as [d | e]; simpl in H;
    [injection H as <-; discriminate | discriminate].
Qed.

Lemma not_started_never_returned_witness :
  reason (mk_PromoValidationResult true (Decimal.mk 25000 (-2)) None)
    <> Some "not_started".
Proof.
  apply (not_started_never_returned promo_table (Some "EARLY10")
           (Decimal.mk 250000 (-2)) utc_2024_01_01).
  vm_compute. reflexivity.
Defined.

(** C9 as stated, refuted.  NOPE matches no promo record and OLD10 is an
    existing record with [is_active = false]; the evaluator answers both with
    the same result, reason invalid_or_inactive. *)
Lemma missing_and_inactive_same_reason :
  query_promocode promo_table "NOPE" = None
  /\ query_promocode promo_table "OLD10" = Some old_promo
  /\ Promocode.is_active old_promo = false
  /\ calculate_discount promo_table (Some "NOPE") (Decimal.mk 250000 (-2))
                        utc_2024_01_01 =
       Return (rejected "invalid_or_inactive")
  /\ calculate_discount promo_table (Some "OLD10") (Decimal.mk 250000 (-2))
                        utc_2024_01_01 =
       Return (rejected "invalid_or_inactive").
Proof. repeat split; vm_compute; reflexivity. Qed.

(** C9, amended.  The evaluator does not distinguish a nonexistent code from
    a deactivated one: for every non-empty code with no matching promo record
    and for every matching record with [is_active = false] it returns
    invalid with the one reason invalid_or_inactive. *)
Theorem not_found_and_inactive_rejected_alike
    (table : list Promocode.t) (code : option string) (c : string)
    (subtotal : Decimal) (now : datetime) :
  truthy code = Some c ->
  (query_promocode table c = None ->
   calculate_discount table code subtotal now =
     Return (rejected "invalid_or_inactive"))
  /\ (forall promo, query_promocode table c = Some promo ->
        Promocode.is_active promo = false ->
        calculate_discount table code subtotal now =
          Return (rejected "invalid_or_inactive")).
Proof.
  intros Hc. unfold calculate_discount. rewrite Hc. split.
  - intros ->. reflexivity.
  - intros promo -> ->. reflexivity.
Qed.

Lemma not_found_and_inactive_rejected_alike_witness :
  calculate_discount promo_table (Some "OLD10") zero_amount utc_2024_01_01 =
    Return (rejected "invalid_or_inactive").
Proof.
  destruct (not_found_and_inactive_rejected_alike promo_table (Some "OLD10")
              "OLD10" zero_amount utc_2024_01_01 eq_refl) as [_ Hinactive].
  apply (Hinactive old_promo); reflexivity.
Defined.




(** * Order pricing *)

(** The pricing loop, when it completes: every item contributed its line
    total, and the subtotal is the running [+=] over them. *)
Lemma price_lines_returns (menu : gmap Z MenuItem.t) :
  forall (its : list Orders.OrderItemIn) (subtotal0 subtotal : Decimal)
         (lines0 lines : list Orders.line),
    Orders.price_lines menu its subtotal0 lines0 = Return (subtotal, lines) ->
    exists line_totals,
      Forall2 (line_total_of menu) its line_totals
      /\ subtotal = fold_left Decimal.add line_totals subtotal0.
Proof.
  induction its as [ | it rest IH]; intros subtotal0 subtotal lines0 lines H.
  - injection H as <- <-. exists []. split; [constructor | reflexivity].
  - cbn [Orders.price_lines] in H.
    destruct (menu !! Orders.item_id it) as [mi | ] eqn:Em; [ | discriminate].
    destruct (MenuItem.is_active mi) eqn:Ea; cbn [negb] in H; [ | discriminate].
    destruct (Z.leb_spec (Orders.qty it) 0) as [Hq | Hq]; [discriminate | ].
    destruct (Decimal.quantize
                (Decimal.mul (MenuItem.price mi)
                             (Decimal.of_int (Orders.qty it)))
                Decimal.cent) as [line_total | e] eqn:Eq;
      simpl in H; [ | discriminate].
    apply IH in H as (line_totals & Hall & ->).
    exists (line_total :: line_totals). split; [ | reflexivity].
    constructor; [ | exact Hall].
    exists mi. repeat split; assumption.
Qed.

Lemma items_map_lookup (db : Session) (item_ids : list Z) (k : Z) :
  k ∈ item_ids -> Orders.items_map db item_ids !! k = menu_items db !! k.
Proof.
  intros Hk. unfold Orders.items_map. apply option_eq. intros mi.
  rewrite map_lookup_filter_Some. simpl. tauto.
Qed.

Lemma line_total_of_items_map (db : Session) (ids : list Z)
    (it : Orders.OrderItemIn) (line_total : Decimal) :
  line_total_of (Orders.items_map db ids) it line_total ->
  line_total_of (menu_items db) it line_total.
Proof.
  intros (mi & Hget & Hrest). exists mi. split; [ | exact Hrest].
  unfold Orders.items_map in Hget.
  apply map_lookup_filter_Some in Hget as [Hget _]. exact Hget.
Qed.

(** C4 as stated, refuted.  Order creation does not price an empty list of
    line items: with no promo code it raises HTTP 400 "Items required". *)
Lemma empty_order_is_rejected :
  Orders.items empty_payload = []
  /\ Orders.promocode empty_payload = None
  /\ (forall strftime number,
        Orders.create_order strftime Hours.init noon_2024_01_01 utc_2024_01_01
                            number empty_payload spec_db customer =
          Raise (HTTPException 400 "Items required")).
Proof. repeat split. Qed.

(** ** The subtotal as a number *)

(** Each completed line contributed a non-negative amount. *)
Lemma subtotal_cents_nonneg (menu : gmap Z MenuItem.t) :
  priced_in_cents menu ->
  forall (its : list Orders.OrderItemIn) (subtotal0 subtotal : Decimal)
         (lines0 lines : list Orders.line),
    Orders.price_lines menu its subtotal0 lines0 = Return (subtotal, lines) ->
    0 <= subtotal_cents menu its.
Proof.
  intros Hmenu its subtotal0 subtotal lines0 lines H.
  apply price_lines_returns in H as (line_totals & Hall & _).
  induction Hall as [ | it t its ts (mi & Hget & _ & Hq & _) _ IH];
    cbn [subtotal_cents foldr]; [lia | ].
  fold (subtotal_cents menu its). unfold line_cents. rewrite Hget.
  destruct (Hmenu _ _ Hget) as [_ Hc]. nia.
Qed.

Lemma price_lines_exact (menu : gmap Z MenuItem.t) :
  priced_in_cents menu ->
  forall (its : list Orders.OrderItemIn) (acc : Z) (subtotal : Decimal)
         (lines0 lines : list Orders.line),
    0 <= acc ->
    Decimal.fits (acc + subtotal_cents menu its) ->
    Orders.price_lines menu its (Decimal.mk acc (-2)) lines0 =
      Return (subtotal, lines) ->
    subtotal = Decimal.mk (acc + subtotal_cents menu its) (-2).
Proof.
  intros Hmenu. induction its as [ | it rest IH];
    intros acc subtotal lines0 lines Hacc Hfits H.
  - injection H as <- <-. simpl. f_equal. lia.
  - pose proof (subtotal_cents_nonneg menu Hmenu _ _ _ _ _ H) as Hall.
    cbn [Orders.price_lines] in H.
    cbn [subtotal_cents foldr] in *. fold (subtotal_cents menu rest) in *.
    unfold line_cents in *.
    destruct (menu !! Orders.item_id it) as [mi | ] eqn:Em; [ | discriminate].
    destruct (negb (MenuItem.is_active mi)); [discriminate | ].
    destruct (Z.leb_spec (Orders.qty it) 0) as [Hq | Hq]; [discriminate | ].
    destruct (Hmenu _ _ Em) as [Hexp Hcoef].
    set (lt := Decimal.coef (MenuItem.price mi) * Orders.qty it) in *.
    assert (Hlt : 0 <= lt) by (unfold lt; nia).
    destruct (Decimal.quantize _ Decimal.cent) as [line_total | e] eqn:Eq;
      simpl in H; [ | discriminate].
    pose proof (subtotal_cents_nonneg menu Hmenu _ _ _ _ _ H) as Hrest.
    unfold Decimal.fits in *.
    rewrite DecimalFacts.line_total_exact in Eq
      by (try assumption; unfold Decimal.fits; fold lt; lia).
    injection Eq as <-. fold lt in H.
    rewrite DecimalFacts.add_same_exp in H by (unfold Decimal.fits; lia).
    apply IH in H; [ | lia | lia].
    rewrite H. f_equal. lia.
Qed.

(** The first [+=] starts from [Decimal('0.0')]. *)
Lemma price_lines_exact_from_zero (menu : gmap Z MenuItem.t) :
  priced_in_cents menu ->
  forall (its : list Orders.OrderItemIn) (subtotal : Decimal)
         (lines : list Orders.line),
    its <> [] ->
    Decimal.fits (subtotal_cents menu its) ->
    Orders.price_lines menu its Decimal.zero1 [] = Return (subtotal, lines) ->
    subtotal = Decimal.mk (subtotal_cents menu its) (-2).
Proof.
  intros Hmenu [ | it rest] subtotal lines Hne Hfits H; [contradiction | ].
  pose proof (subtotal_cents_nonneg menu Hmenu _ _ _ _ _ H) as Hall.
  cbn [Orders.price_lines] in H.
  cbn [subtotal_cents foldr] in *. fold (subtotal_cents menu rest) in *.
  unfold line_cents in *.
  destruct (menu !! Orders.item_id it) as [mi | ] eqn:Em; [ | discriminate].
  destruct (negb (MenuItem.is_active mi)); [discriminate | ].
  destruct (Z.leb_spec (Orders.qty it) 0) as [Hq | Hq]; [discriminate | ].
  destruct (Hmenu _ _ Em) as [Hexp Hcoef].
  set (lt := Decimal.coef (MenuItem.price mi) * Orders.qty it) in *.
  assert (Hlt : 0 <= lt) by (unfold lt; nia).
  destruct (Decimal.quantize _ Decimal.cent) as [line_total | e] eqn:Eq;
    simpl in H; [ | discriminate].
  pose proof (subtotal_cents_nonneg menu Hmenu _ _ _ _ _ H) as Hrest.
  unfold Decimal.fits in *.
  rewrite DecimalFacts.line_total_exact in Eq
    by (try assumption; unfold Decimal.fits; fold lt; lia).
  injection Eq as <-. fold lt in H.
  rewrite DecimalFacts.add_zero1_cents in H by (unfold Decimal.fits; lia).
  apply (price_lines_exact menu Hmenu) in H;
    [exact H | lia | unfold Decimal.fits; lia].
Qed.

Lemma subtotal_cents_items_map (db : Session) (ids : list Z) :
  forall its : list Orders.OrderItemIn,
    (forall it, it ∈ its -> Orders.item_id it ∈ ids) ->
    subtotal_cents (Orders.items_map db ids) its =
      subtotal_cents (menu_items db) its.
Proof.
  induction its as [ | it rest IH]; intros Hids; [reflexivity | ].
  cbn [subtotal_cents foldr]. fold (subtotal_cents (menu_items db) rest).
  fold (subtotal_cents (Orders.items_map db ids) rest).
  rewrite IH by (intros it' Hin; apply Hids, list_elem_of_further, Hin).
  unfold line_cents.
  rewrite items_map_lookup by apply Hids, list_elem_of_here. reflexivity.
Qed.

Lemma priced_in_cents_items_map (db : Session) (ids : list Z) :
  priced_in_cents (menu_items db) ->
  priced_in_cents (Orders.items_map db ids).
Proof.
  intros Hmenu k mi Hk. unfold Orders.items_map in Hk.
  apply map_lookup_filter_Some in Hk as [Hk _]. eapply Hmenu, Hk.
Qed.

(** What a successful [create_order] went through. *)
Lemma create_order_returns
    (strftime : datetime -> string) (hours : Hours.BusinessHoursService)
    (local_now utcnow : datetime) (number : string)
    (payload : Orders.OrderCreateRequest) (db : Session) (user : User.t)
    (order : Order.t) (lines : list Orders.line) :
  Orders.create_order strftime hours local_now utcnow number payload db user =
    Return (order, lines) ->
  Orders.items payload <> []
  /\ Hours.is_open (Hours.validate_business_hours hours local_now) = true
  /\ exists promo_res,
       Orders.price_lines
         (Orders.items_map db (Orders.item_id <$> Orders.items payload))
         (Orders.items payload) Decimal.zero1 [] =
         Return (Order.subtotal order, lines)
       /\ calculate_discount (promocodes db) (Orders.promocode payload)
                             (Order.subtotal order) utcnow = Return promo_res
       /\ Order.discount order = Orders.applied_discount promo_res
       /\ Orders.order_total (Order.subtotal order) (Order.discount order) =
            Return (Order.total order)
       /\ Order.status order = "NEW".
Proof.
  unfold Orders.create_order.
  destruct (Orders.items payload) as [ | it0 rest] eqn:Eits; [discriminate | ].
  rewrite <- Eits.
  destruct (Hours.is_open (Hours.validate_business_hours hours local_now));
    cbn [negb]; [ | discriminate].
  destruct (Orders.check_modifications db payload) as [[] | e1]; simpl;
    [ | discriminate].
  destruct (Orders.price_lines _ (Orders.items payload) Decimal.zero1 [])
    as [[subtotal lines'] | e2]; simpl; [ | discriminate].
  destruct (calculate_discount (promocodes db) (Orders.promocode payload)
                               subtotal utcnow) as [promo_res | e3] eqn:Ep;
    simpl; [ | discriminate].
  destruct (Orders.order_total subtotal (Orders.applied_discount promo_res))
    as [total | e4] eqn:Et; simpl; [ | discriminate].
  intros [= <- <-]. cbn [Order.subtotal Order.discount Order.total Order.status].
  split; [rewrite Eits; discriminate | split; [reflexivity | ]].
  exists promo_res. repeat split; assumption.
Qed.

(** The modification check passes exactly when every requested modification
    type has an active record. *)
Lemma check_modifications_returns
    (db : Session) (payload : Orders.OrderCreateRequest) :
  Orders.check_modifications db payload = Return tt <->
  (forall it m,
     it ∈ Orders.items payload -> m ∈ Orders.modifications it ->
     exists mt,
       modification_types db !! Orders.modification_type_id m = Some mt
       /\ ModificationType.is_active mt = true).
Proof.
  unfold Orders.check_modifications.
  set (ids := Orders.items payload ≫=
                (fun it => Orders.modification_type_id <$> Orders.modifications it)).
  split.
  - destruct (find _ ids) as [id | ] eqn:Ef; [discriminate | ].
    intros _ it m Hit Hm.
    assert (Hin : Orders.modification_type_id m ∈ ids).
    { apply list_elem_of_bind. exists it. split; [ | exact Hit].
      apply list_elem_of_fmap_2, Hm. }
    apply list_elem_of_In in Hin.
    pose proof (find_none _ _ Ef _ Hin) as Hf. cbv beta in Hf.
    apply negb_false_iff, bool_decide_eq_true in Hf as [mt Hmt].
    unfold Orders.modification_types_map in Hmt.
    apply map_lookup_filter_Some in Hmt as [Hmt [_ Ha]].
    exists mt. split; [exact Hmt | exact Ha].
  - intros Hall.
    destruct (find _ ids) as [id | ] eqn:Ef; [exfalso | reflexivity].
    apply find_some in Ef as [Hin Hmiss].
    apply list_elem_of_In in Hin. pose proof Hin as Hin'. unfold ids in Hin.
    apply list_elem_of_bind in Hin as (it & Hid & Hit).
    apply list_elem_of_fmap in Hid as (m & -> & Hm).
    destruct (Hall it m Hit Hm) as (mt & Hmt & Ha).
    apply negb_true_iff, bool_decide_eq_false in Hmiss. apply Hmiss.
    exists mt. unfold Orders.modification_types_map.
    apply map_lookup_filter_Some. split; [exact Hmt | ].
    simpl. split; [exact Hin' | exact Ha].
Qed.

(** The pricing loop goes through the lines it can price. *)
Lemma price_lines_prefix (menu : gmap Z MenuItem.t) (rest : list Orders.OrderItemIn) :
  forall (pre : list Orders.OrderItemIn) (subtotal : Decimal)
         (lines : list Orders.line),
    (forall it, it ∈ pre -> exists t, line_total_of menu it t) ->
    exists subtotal' lines',
      Orders.price_lines menu (pre ++ rest) subtotal lines =
        Orders.price_lines menu rest subtotal' lines'.
Proof.
  induction pre as [ | it pre IH]; intros subtotal lines Hpre.
  - exists subtotal, lines. reflexivity.
  - destruct (Hpre it (list_elem_of_here _ _)) as (t & mi & Hget & Ha & Hq & Ht).
    cbn [app Orders.price_lines]. rewrite Hget, Ha. cbn [negb].
    destruct (Z.leb_spec (Orders.qty it) 0) as [Hbad | _]; [lia | ].
    rewrite Ht. cbn [mbind outcome_bind].
    apply IH. intros it' Hin. apply Hpre, list_elem_of_further, Hin.
Qed.

Lemma line_total_of_to_items_map (db : Session) (ids : list Z)
    (it : Orders.OrderItemIn) (line_total : Decimal) :
  Orders.item_id it ∈ ids ->
  line_total_of (menu_items db) it line_total ->
  line_total_of (Orders.items_map db ids) it line_total.
Proof.
  intros Hin (mi & Hget & Hrest). exists mi. split; [ | exact Hrest].
  rewrite items_map_lookup by exact Hin. exact Hget.
Qed.

(** C4, amended.  Order creation does not price an empty list of line items:
    it raises HTTP 400 "Items required", whatever the promo code, the
    schedule and the database.  A non-empty order placed while the business
    is closed raises HTTP 400 with the closed message.  An order is created
    only if the list is not empty, the business is open, every requested
    modification type has an active record and every line item refers to an
    existing, active menu item with a quantity above zero.  On an open
    business with valid modifications, the first line that cannot be priced
    decides the error: HTTP 400 "Invalid item: <id>" when its menu item is
    missing or inactive, HTTP 400 "Quantity must be positive" when the item
    is fine and the quantity is not.  The legacy price endpoint prices an
    empty list as subtotal = discount = total = 0, whatever the promo
    code. *)
Theorem order_creation_checks
    (strftime : datetime -> string) (hours : Hours.BusinessHoursService)
    (local_now utcnow : datetime) (number : string)
    (payload : Orders.OrderCreateRequest) (db : Session) (user : User.t) :
  (Orders.items payload = [] ->
   Orders.create_order strftime hours local_now utcnow number payload db user =
     Raise (HTTPException 400 "Items required"))
  /\ (Orders.items payload <> [] ->
      Hours.is_open (Hours.validate_business_hours hours local_now) = false ->
      Orders.create_order strftime hours local_now utcnow number payload db
                          user =
        Raise (HTTPException 400
                 (Orders.closed_message strftime
                    (Hours.validate_business_hours hours local_now))))
  /\ (forall order lines,
        Orders.create_order strftime hours local_now utcnow number payload db
                            user = Return (order, lines) ->
        Orders.items payload <> []
        /\ Hours.is_open (Hours.validate_business_hours hours local_now) = true
        /\ (forall it m,
              it ∈ Orders.items payload -> m ∈ Orders.modifications it ->
              exists mt,
                modification_types db !! Orders.modification_type_id m
                  = Some mt
                /\ ModificationType.is_active mt = true)
        /\ (forall it,
              it ∈ Orders.items payload ->
              exists mi,
                menu_items db !! Orders.item_id it = Some mi
                /\ MenuItem.is_active mi = true
                /\ 0 < Orders.qty it))
  /\ (forall pre it post,
        Orders.items payload = pre ++ it :: post ->
        Hours.is_open (Hours.validate_business_hours hours local_now) = true ->
        (forall it' m,
           it' ∈ Orders.items payload -> m ∈ Orders.modifications it' ->
           exists mt,
             modification_types db !! Orders.modification_type_id m = Some mt
             /\ ModificationType.is_active mt = true) ->
        (forall it', it' ∈ pre ->
           exists line_total, line_total_of (menu_items db) it' line_total) ->
        (menu_items db !! Orders.item_id it = None
         \/ (exists mi, menu_items db !! Orders.item_id it = Some mi
                        /\ MenuItem.is_active mi = false) ->
         Orders.create_order strftime hours local_now utcnow number payload db
                             user =
           Raise (HTTPException 400
                    ("Invalid item: " +:+ pretty (Orders.item_id it))))
        /\ ((exists mi, menu_items db !! Orders.item_id it = Some mi
                        /\ MenuItem.is_active mi = true) ->
            Orders.qty it <= 0 ->
            Orders.create_order strftime hours local_now utcnow number payload
                                db user =
              Raise (HTTPException 400 "Quantity must be positive")))
  /\ (forall promocode,
        Cart.calculate_price utcnow (Cart.mk_request [] promocode) db =
          Return (Cart.mk_response Decimal.zero1 Decimal.zero1
                                   Decimal.zero1 [])).
Proof.
  split; [ | split; [ | split; [ | split]]].
  - intros Hempty. unfold Orders.create_order. rewrite Hempty. reflexivity.
  - intros Hne Hclosed. unfold Orders.create_order.
    destruct (Orders.items payload); [contradiction | ].
    rewrite Hclosed. reflexivity.
  - intros order lines H.
    pose proof (create_order_returns _ _ _ _ _ _ _ _ _ _ H)
      as (Hne & Hopen & promo_res & Hlines & _).
    split; [exact Hne | split; [exact Hopen | split]].
    + apply check_modifications_returns.
      revert H. unfold Orders.create_order.
      destruct (Orders.items payload); [contradiction | ].
      rewrite Hopen. cbn [negb].
      destruct (Orders.check_modifications db payload) as [[] | e];
        [reflexivity | discriminate].
    + intros it Hin.
      apply price_lines_returns in Hlines as (line_totals & Hall & _).
      apply list_elem_of_lookup in Hin as [i Hi].
      destruct (Forall2_lookup_l _ _ _ _ _ Hall Hi) as (t & _ & Hline).
      apply line_total_of_items_map in Hline
        as (mi & Hget & Ha & Hq & _).
      exists mi. split; [exact Hget | split; [exact Ha | exact Hq]].
  - intros pre it post Hsplit Hopen Hmods Hpre.
    assert (Hids : forall it', it' ∈ Orders.items payload ->
              Orders.item_id it' ∈ Orders.item_id <$> Orders.items payload)
      by (intros it' Hin; apply list_elem_of_fmap_2, Hin).
    assert (Hit : it ∈ Orders.items payload).
    { rewrite Hsplit. apply elem_of_app. right. apply list_elem_of_here. }
    assert (Hstart :
      exists subtotal' lines',
        Orders.create_order strftime hours local_now utcnow number payload db
                            user =
          ('(subtotal, lines) ← Orders.price_lines
                                  (Orders.items_map db
                                     (Orders.item_id <$> Orders.items payload))
                                  (it :: post) subtotal' lines';
           promo_res ← calculate_discount (promocodes db)
                         (Orders.promocode payload) subtotal utcnow;
           total ← Orders.order_total subtotal
                     (Orders.applied_discount promo_res);
           Return
             (Order.mk number (Some (User.id user)) "NEW" subtotal
                (Orders.applied_discount promo_res) total
                (if valid promo_res
                 then truthy (Orders.promocode payload) else None)
                false
                (match truthy (Orders.payment_method payload) with
                 | Some m => m
                 | None => "cod"
                 end)
                None,
              lines))).
    { unfold Orders.create_order.
      destruct (Orders.items payload) as [ | it0 rest] eqn:Eits.
      { destruct pre; discriminate. }
      rewrite <- Eits in *. rewrite Hopen. cbn [negb].
      rewrite (proj2 (check_modifications_returns db payload) Hmods).
      cbn [mbind outcome_bind].
      destruct (price_lines_prefix
                  (Orders.items_map db (Orders.item_id <$> Orders.items payload))
                  (it :: post) pre Decimal.zero1 [])
        as (subtotal' & lines' & Hpref).
      { intros it' Hin. destruct (Hpre it' Hin) as [t Ht]. exists t.
        apply line_total_of_to_items_map; [ | exact Ht].
        apply Hids. rewrite Hsplit. apply elem_of_app. left. exact Hin. }
      exists subtotal', lines'. rewrite Hsplit at 2. rewrite Hpref.
      reflexivity. }
    destruct Hstart as (subtotal' & lines' & ->).
    cbn [Orders.price_lines]. rewrite items_map_lookup by (apply Hids, Hit).
    split.
    + intros [Hnone | (mi & Hget & Ha)].
      * rewrite Hnone. reflexivity.
      * rewrite Hget, Ha. reflexivity.
    + intros (mi & Hget & Ha) Hq. rewrite Hget, Ha. cbn [negb].
      destruct (Z.leb_spec (Orders.qty it) 0) as [_ | Hbad]; [ | lia].
      reflexivity.
  - intros promocode. reflexivity.
Qed.

Lemma order_creation_checks_witness :
  Orders.create_order (fun _ => "") Hours.init noon_2024_01_01 utc_2024_01_01
    "ORD-240101070000001"
    (Orders.mk_request [Orders.mk_item 1 2 []; Orders.mk_item 99 1 []]
                       "pickup" None None)
    spec_db customer =
    Raise (HTTPException 400 "Invalid item: 99").
Proof.
  destruct (order_creation_checks (fun _ => "") Hours.init noon_2024_01_01
              utc_2024_01_01 "ORD-240101070000001"
              (Orders.mk_request
                 [Orders.mk_item 1 2 []; Orders.mk_item 99 1 []]
                 "pickup" None None)
              spec_db customer) as (_ & _ & _ & Hfirst & _).
  destruct (Hfirst [Orders.mk_item 1 2 []] (Orders.mk_item 99 1 []) [])
    as [Hinvalid _].
  - reflexivity.
  - vm_compute. reflexivity.
  - intros it' m Hit Hm. exfalso. cbn [Orders.items] in Hit.
    apply elem_of_cons in Hit as [-> | Hit];
      [apply elem_of_nil in Hm as [] | ].
    apply elem_of_cons in Hit as [-> | Hit];
      [apply elem_of_nil in Hm as [] | apply elem_of_nil in Hit as []].
  - intros it' Hin. apply elem_of_cons in Hin as [-> | Hin];
      [ | apply elem_of_nil in Hin as []].
    exists (Decimal.mk 200000 (-2)).
    exists (MenuItem.mk 1 "Burger" (Decimal.mk 100000 (-2)) true).
    split; [reflexivity | split; [reflexivity | split; [reflexivity | ]]].
    vm_compute. reflexivity.
  - rewrite Hinvalid; [reflexivity | ]. left. reflexivity.
Defined.

(** C5.  For every list of line items that [create_order] prices, each line
    total is [unit_price * qty] quantized to 0.01, and the subtotal is the
    sum, taken in order from [Decimal('0.0')], of these already rounded line
    totals (the sum itself is not quantized again); when the menu prices
    are non-negative amounts in hundredths and the exact sum of price times
    quantity fits the decimal context, the subtotal is exactly that sum, in
    hundredths.  On the order of two
    items at 1000 and one at 500 with the active 10 percent promo SAVE10
    (min_subtotal 0, no date bounds) the result is subtotal 2500.00,
    discount 250.00 and total 2250.00. *)
Theorem subtotal_sums_rounded_lines
    (strftime : datetime -> string) (hours : Hours.BusinessHoursService)
    (local_now utcnow : datetime) (number : string)
    (payload : Orders.OrderCreateRequest) (db : Session) (user : User.t)
    (order : Order.t) (lines : list Orders.line) :
  Orders.create_order strftime hours local_now utcnow number payload db user =
    Return (order, lines) ->
  (exists line_totals,
     Forall2 (line_total_of (menu_items db)) (Orders.items payload) line_totals
     /\ Order.subtotal order = fold_left Decimal.add line_totals Decimal.zero1)
  /\ (priced_in_cents (menu_items db) ->
      Decimal.fits (subtotal_cents (menu_items db) (Orders.items payload)) ->
      Order.subtotal order =
        Decimal.mk (subtotal_cents (menu_items db) (Orders.items payload)) (-2))
  /\ Orders.create_order strftime Hours.init noon_2024_01_01 utc_2024_01_01
       number spec_payload spec_db user =
       Return
         (Order.mk number (Some (User.id user)) "NEW"
                   (Decimal.mk 250000 (-2)) (Decimal.mk 25000 (-2))
                   (Decimal.mk 225000 (-2)) (Some "SAVE10") false "cod" None,
          [(MenuItem.mk 1 "Burger" (Decimal.mk 100000 (-2)) true, 2,
            Decimal.mk 100000 (-2), []);
           (MenuItem.mk 2 "Fries" (Decimal.mk 50000 (-2)) true, 1,
            Decimal.mk 50000 (-2), [])]).
Proof.
  intros H. split; [ | split; [ | vm_compute; reflexivity]].
  - apply create_order_returns in H as (_ & _ & promo_res & Hlines & _).
    apply price_lines_returns in Hlines as (line_totals & Hall & Hsum).
    exists line_totals. split; [ | exact Hsum].
    eapply Forall2_impl; [exact Hall | ].
    intros it t. apply line_total_of_items_map.
  - intros Hmenu Hfits.
    apply create_order_returns in H as (Hne & _ & promo_res & Hlines & _).
    assert (Hids : forall it, it ∈ Orders.items payload ->
              Orders.item_id it ∈ Orders.item_id <$> Orders.items payload)
      by (intros it Hin; apply list_elem_of_fmap_2, Hin).
    apply price_lines_exact_from_zero in Hlines.
    + rewrite Hlines, subtotal_cents_items_map by exact Hids. reflexivity.
    + apply priced_in_cents_items_map, Hmenu.
    + exact Hne.
    + rewrite subtotal_cents_items_map by exact Hids. exact Hfits.
Qed.

Lemma subtotal_sums_rounded_lines_witness :
  exists line_totals,
    Forall2 (line_total_of spec_menu) (Orders.items spec_payload) line_totals
    /\ Decimal.mk 250000 (-2) = fold_left Decimal.add line_totals Decimal.zero1.
Proof.
  apply (subtotal_sums_rounded_lines (fun _ => "") Hours.init noon_2024_01_01
           utc_2024_01_01 "ORD-240101070000001" spec_payload spec_db customer
           (Order.mk "ORD-240101070000001" (Some 7) "NEW"
                     (Decimal.mk 250000 (-2)) (Decimal.mk 25000 (-2))
                     (Decimal.mk 225000 (-2)) (Some "SAVE10") false "cod" None)
           [(MenuItem.mk 1 "Burger" (Decimal.mk 100000 (-2)) true, 2,
             Decimal.mk 100000 (-2), []);
            (MenuItem.mk 2 "Fries" (Decimal.mk 50000 (-2)) true, 1,
             Decimal.mk 50000 (-2), [])]).
  vm_compute. reflexivity.
Defined.

(** C7 at its failing input.  NEG10 is a percent promo stored with the
    value -10.00 (POST /admin/promo/create, like POST /admin/promo/generate,
    does not check the sign that PUT /admin/promo/{code} rejects).  One item at 1000.00 ordered with it
    is priced with discount -100.00 and total 1100.00: the discount is
    negative and the total exceeds the subtotal. *)
Theorem negative_promo_value_discount :
  (forall strftime number,
     Orders.create_order strftime Hours.init noon_2024_01_01 utc_2024_01_01
                         number neg10_payload spec_db customer =
       Return
         (Order.mk number (Some 7) "NEW"
                   (Decimal.mk 100000 (-2)) (Decimal.mk (-10000) (-2))
                   (Decimal.mk 110000 (-2)) (Some "NEG10") false "cod" None,
          [(MenuItem.mk 1 "Burger" (Decimal.mk 100000 (-2)) true, 1,
            Decimal.mk 100000 (-2), [])]))
  /\ Decimal.ltb (Decimal.mk (-10000) (-2)) Decimal.zero1 = true
  /\ Decimal.ltb (Decimal.mk 100000 (-2)) (Decimal.mk 110000 (-2)) = true.
Proof.
  split; [intros strftime number; vm_compute; reflexivity | ].
  split; vm_compute; reflexivity.
Qed.

(** * The business hours gate *)

(** The forward scan returns the opening of the first offset whose day
    opens, and nothing when none of the offsets does. *)
Lemma scan_forward_first (self : Hours.BusinessHoursService) (date : Z) :
  forall offsets : list Z,
    match Hours.scan_forward self date offsets with
    | Some dt =>
        exists before i after,
          offsets = before ++ i :: after
          /\ Forall (fun j => opening_on self (date + j) = None) before
          /\ opening_on self (date + i) = Some dt
    | None => Forall (fun j => opening_on self (date + j) = None) offsets
    end.
Proof.
  induction offsets as [ | i rest IH]; cbn [Hours.scan_forward].
  - constructor.
  - assert (Hstep :
      opening_on self (date + i) = None ->
      match Hours.scan_forward self date rest with
      | Some dt =>
          exists before i0 after,
            i :: rest = before ++ i0 :: after
            /\ Forall (fun j => opening_on self (date + j) = None) before
            /\ opening_on self (date + i0) = Some dt
      | None => Forall (fun j => opening_on self (date + j) = None) (i :: rest)
      end).
    { intros Hnone. destruct (Hours.scan_forward self date rest) as [dt | ].
      - destruct IH as (before & i0 & after & -> & Hb & Hi).
        exists (i :: before), i0, after.
        split; [reflexivity | split; [constructor; assumption | exact Hi]].
      - constructor; assumption. }
    unfold opening_on in Hstep at 1.
    destruct (Hours.default_hours self !! weekday_of_ordinal (date + i))
      as [h | ] eqn:Eh; [ | apply Hstep; reflexivity].
    destruct (Hours.is_closed h) eqn:Ec; [apply Hstep; reflexivity | ].
    destruct (Hours.open_time h) as [o | ] eqn:Eo; [ | apply Hstep; reflexivity].
    exists [], i, rest. split; [reflexivity | split; [constructor | ]].
    unfold opening_on. rewrite Eh, Ec, Eo. reflexivity.
Qed.

(** C6 as stated, refuted.  After PUT /admin/business-hours/day/monday with
    only open_time = 23:00, Monday's entry is not closed and has both times
    configured (23:00 and 22:00).  At 22:30 the gate reports closed, and
    although 22:30 is later than the closing time its reason is
    before_opening, not after_closing. *)
Lemma after_closing_reported_as_before_opening :
  AdminBusinessHours.update_day_hours Hours.init 0 late_monday =
    Return inverted_hours
  /\ Hours.default_hours inverted_hours !! 0 =
       Some (Hours.mk_BusinessHours 0 (Some (Hours.at_ 23 0))
                                    (Some (Hours.at_ 22 0)) false)
  /\ weekday_of_ordinal (ordinal (monday_at 22 30)) = 0
  /\ time_ltb (Hours.at_ 22 0) (clock (monday_at 22 30)) = true
  /\ Hours.is_open_at_time inverted_hours (monday_at 22 30) =
       Hours.mk_result false (Some "before_opening")
         (Some (monday_at 23 0)).
Proof. repeat split; vm_compute; reflexivity. Qed.

(** C6, amended.  For a weekday whose schedule entry is not closed and has
    both times configured, with [now] the checked instant in the business
    timezone: the gate reports open exactly when
    open_time <= now.time() <= close_time (both ends included) and then
    gives no reason; otherwise it reports closed, with reason before_opening
    and next_open_time today's opening instant when now.time() < open_time,
    and else (in which case now.time() > close_time) with reason
    after_closing and next_open_time the opening instant of the first of the
    next seven days that opens, if any. *)
Theorem business_hours_check
    (self : Hours.BusinessHoursService) (check_time : datetime)
    (entry : Hours.BusinessHours) (o c : time) :
  let now := Hours.to_business_time self check_time in
  let result := Hours.is_open_at_time self check_time in
  Hours.default_hours self !! weekday_of_ordinal (ordinal now) = Some entry ->
  Hours.is_closed entry = false ->
  Hours.open_time entry = Some o ->
  Hours.close_time entry = Some c ->
  (Hours.is_open result = true <->
     time_leb o (clock now) = true /\ time_leb (clock now) c = true)
  /\ (Hours.is_open result = true -> result = Hours.mk_result true None None)
  /\ (Hours.is_open result = false -> time_ltb (clock now) o = true ->
      result = Hours.mk_result false (Some "before_opening")
                 (Some (Hours.combine (ordinal now) o (Hours.timezone self))))
  /\ (Hours.is_open result = false -> time_ltb (clock now) o = false ->
      time_ltb c (clock now) = true
      /\ result = Hours.mk_result false (Some "after_closing")
                    (Hours.scan_forward self (ordinal now)
                                        [1; 2; 3; 4; 5; 6; 7])
      /\ match Hours.next_open_time result with
         | Some dt =>
             exists before i after,
               [1; 2; 3; 4; 5; 6; 7] = before ++ i :: after
               /\ Forall (fun j => opening_on self (ordinal now + j) = None)
                         before
               /\ opening_on self (ordinal now + i) = Some dt
         | None =>
             Forall (fun j => opening_on self (ordinal now + j) = None)
                    [1; 2; 3; 4; 5; 6; 7]
         end).
Proof.
  intros now result Hentry Hclosed Ho Hc.
  assert (Hres : result =
    if time_leb o (clock now) && time_leb (clock now) c
    then Hours.mk_result true None None
    else Hours.mk_result false
           (Some (if time_ltb (clock now) o
                  then "before_opening" else "after_closing"))
           (Hours._get_next_open_time self now)).
  { unfold result, Hours.is_open_at_time. fold now.
    rewrite Hentry, Hclosed, Ho, Hc. reflexivity. }
  assert (Hnext : Hours._get_next_open_time self now =
    if time_ltb (clock now) o
    then Some (Hours.combine (ordinal now) o (Hours.timezone self))
    else Hours.scan_forward self (ordinal now) [1; 2; 3; 4; 5; 6; 7]).
  { unfold Hours._get_next_open_time. rewrite Hentry, Hclosed, Ho.
    destruct (time_ltb (clock now) o); reflexivity. }
  rewrite Hnext in Hres. clear Hnext. rewrite Hres. clear Hres.
  unfold time_leb.
  destruct (time_ltb (clock now) o) eqn:E1;
    destruct (time_ltb c (clock now)) eqn:E2;
    cbn [negb andb Hours.is_open Hours.next_open_time].
  - repeat split; try discriminate; intros [? ?]; discriminate.
  - repeat split; try discriminate; intros [? ?]; discriminate.
  - split; [split; [discriminate | intros [_ ?]; discriminate] | ].
    split; [discriminate | split; [discriminate | ]].
    intros _ _. split; [reflexivity | split; [reflexivity | ]].
    apply scan_forward_first.
  - repeat split; discriminate.
Qed.

Lemma business_hours_check_witness :
  Hours.is_open_at_time Hours.init (monday_at 8 59) =
    Hours.mk_result false (Some "before_opening") (Some (monday_at 9 0)).
Proof.
  apply (business_hours_check Hours.init (monday_at 8 59)
           (Hours.mk_BusinessHours 0 (Some (Hours.at_ 9 0))
                                   (Some (Hours.at_ 22 0)) false)
           (Hours.at_ 9 0) (Hours.at_ 22 0));
    reflexivity.
Defined.

(** * What the pricing result does satisfy *)

(** The subtotal of a priced order is not negative when no menu price is. *)
Lemma price_lines_nonneg (menu : gmap Z MenuItem.t) :
  (forall k mi, menu !! k = Some mi -> 0 <= Decimal.coef (MenuItem.price mi)) ->
  forall (its : list Orders.OrderItemIn) (subtotal0 subtotal : Decimal)
         (lines0 lines : list Orders.line),
    0 <= Decimal.coef subtotal0 ->
    Orders.price_lines menu its subtotal0 lines0 = Return (subtotal, lines) ->
    0 <= Decimal.coef subtotal.
Proof.
  intros Hmenu. induction its as [ | it rest IH];
    intros subtotal0 subtotal lines0 lines H0 H.
  - injection H as <- <-. exact H0.
  - cbn [Orders.price_lines] in H.
    destruct (menu !! Orders.item_id it) as [mi | ] eqn:Em; [ | discriminate].
    destruct (negb (MenuItem.is_active mi)); [discriminate | ].
    destruct (Z.leb_spec (Orders.qty it) 0) as [Hq | Hq]; [discriminate | ].
    destruct (Decimal.quantize _ Decimal.cent) as [line_total | e] eqn:Eq;
      simpl in H; [ | discriminate].
    eapply IH; [ | exact H].
    apply DecimalFacts.add_nonneg; [exact H0 | ].
    eapply DecimalFacts.quantize_nonneg; [exact Eq | ].
    apply DecimalFacts.mul_nonneg; [eapply Hmenu, Em | simpl; lia].
Qed.

(** The evaluator's answer on a non-negative subtotal, when no stored promo
    value is negative: the discount lies between zero and the subtotal. *)
Lemma calculate_discount_bounds
    (table : list Promocode.t) (code : option string) (subtotal : Decimal)
    (now : datetime) (r : PromoValidationResult) :
  (forall p v, p ∈ table -> Promocode.value p = Some v -> 0 <= Decimal.coef v) ->
  0 <= Decimal.coef subtotal ->
  calculate_discount table code subtotal now = Return r ->
  0 <= Decimal.coef (discount r)
  /\ Decimal.leb (discount r) subtotal = true.
Proof.
  intros Hvalues Hs H.
  assert (Hzero : 0 <= Decimal.coef Decimal.zero1
                  /\ Decimal.leb Decimal.zero1 subtotal = true).
  { split; [simpl; lia | apply DecimalFacts.leb_zero1, Hs]. }
  unfold calculate_discount in H.
  destruct (truthy code) as [c | ]; [ | injection H as <-; exact Hzero].
  destruct (query_promocode table c) as [promo | ] eqn:Eq;
    [ | injection H as <-; exact Hzero].
  destruct (negb (Promocode.is_active promo));
    [injection H as <-; exact Hzero | ].
  cbn [Promocode.valid_from] in H.
  destruct (match Promocode.valid_to promo with
            | Some t => datetime_ltb t now
            | None => false
            end); [injection H as <-; exact Hzero | ].
  destruct (match Promocode.min_subtotal promo with
            | Some m => Decimal.ltb subtotal m
            | None => false
            end); [injection H as <-; exact Hzero | ].
  destruct (raw_discount promo subtotal) as [d | e] eqn:Er; simpl in H;
    [ | discriminate].
  injection H as <-. cbn [discount].
  split; [ | apply DecimalFacts.leb_min_r].
  apply DecimalFacts.min_nonneg; [ | exact Hs].
  assert (Hin : promo ∈ table).
  { apply find_some in Eq as [Hin _]. apply list_elem_of_In, Hin. }
  unfold raw_discount in Er.
  destruct (String.eqb (Promocode.kind promo) "percent").
  - destruct (Promocode.value promo) as [v | ] eqn:Ev; simpl in Er;
      [ | discriminate].
    destruct (Decimal.truediv (Decimal.mul subtotal v) Decimal.hundred)
      as [q | e] eqn:Ed; simpl in Er; [ | discriminate].
    eapply DecimalFacts.quantize_nonneg; [exact Er | ].
    eapply DecimalFacts.truediv_nonneg; [exact Ed | | simpl; lia].
    apply DecimalFacts.mul_nonneg; [exact Hs | eapply Hvalues; eassumption].
  - destruct (String.eqb (Promocode.kind promo) "amount").
    + destruct (Promocode.value promo) as [v | ] eqn:Ev; simpl in Er;
        [ | discriminate].
      injection Er as <-. eapply Hvalues; eassumption.
    + injection Er as <-. simpl. lia.
Qed.

(** Every order that [create_order] prices from a menu without negative
    prices and a promo table without negative values satisfies
    0 <= discount <= subtotal and total = quantize(max(0, subtotal -
    discount), 0.01) >= 0. *)
Lemma pricing_invariant
    (strftime : datetime -> string) (hours : Hours.BusinessHoursService)
    (local_now utcnow : datetime) (number : string)
    (payload : Orders.OrderCreateRequest) (db : Session) (user : User.t)
    (order : Order.t) (lines : list Orders.line) :
  (forall k mi, menu_items db !! k = Some mi ->
                0 <= Decimal.coef (MenuItem.price mi)) ->
  (forall p v, p ∈ promocodes db -> Promocode.value p = Some v ->
               0 <= Decimal.coef v) ->
  Orders.create_order strftime hours local_now utcnow number payload db user =
    Return (order, lines) ->
  Decimal.leb Decimal.zero1 (Order.discount order) = true
  /\ Decimal.leb (Order.discount order) (Order.subtotal order) = true
  /\ Orders.order_total (Order.subtotal order) (Order.discount order) =
       Return (Order.total order)
  /\ Decimal.leb Decimal.zero1 (Order.total order) = true.
Proof.
  intros Hmenu Hvalues H.
  apply create_order_returns in H
    as (_ & _ & promo_res & Hlines & Hpromo & Hdisc & Htotal & _).
  assert (Hs : 0 <= Decimal.coef (Order.subtotal order)).
  { eapply (price_lines_nonneg _ ) with (subtotal0 := Decimal.zero1);
      [ | simpl; lia | exact Hlines].
    intros k mi Hk. unfold Orders.items_map in Hk.
    apply map_lookup_filter_Some in Hk as [Hk _]. eapply Hmenu, Hk. }
  pose proof (calculate_discount_bounds _ _ _ _ _ Hvalues Hs Hpromo)
    as [Hd0 Hd1].
  assert (Hdisc' : 0 <= Decimal.coef (Order.discount order)
                   /\ Decimal.leb (Order.discount order) (Order.subtotal order)
                      = true).
  { rewrite Hdisc. unfold Orders.applied_discount.
    destruct (valid promo_res); [split; assumption | ].
    split; [simpl; lia | apply DecimalFacts.leb_zero1, Hs]. }
  destruct Hdisc' as [Hd Hle].
  split; [apply DecimalFacts.leb_zero1, Hd | ].
  split; [exact Hle | split; [exact Htotal | ]].
  apply DecimalFacts.leb_zero1.
  unfold Orders.order_total in Htotal.
  eapply DecimalFacts.quantize_nonneg; [exact Htotal | ].
  unfold Decimal.max.
  destruct (Decimal.ltb Decimal.zero1 _) eqn:El; [ | simpl; lia].
  unfold Decimal.ltb in El.
  destruct (Decimal.compare Decimal.zero1 _) eqn:Ec; try discriminate.
  apply DecimalFacts.leb_zero1. unfold Decimal.leb. rewrite Ec. reflexivity.
Qed.

(** * More on the status endpoints *)

Lemma edge_advances (current requested : string) :
  (current, requested) ∈ spec_edges ->
  status_rank current < status_rank requested.
Proof.
  unfold spec_edges. intros H. set_unfold in H.
  repeat match type of H with
         | _ \/ _ => destruct H as [H | H]
         | False => destruct H
         | _ = _ => injection H as -> ->
         end; vm_compute; reflexivity.
Qed.

Lemma status_rank_bounds (status : string) : 0 <= status_rank status <= 3.
Proof.
  unfold status_rank.
  repeat match goal with |- context [if ?b then _ else _] => destruct b end;
    lia.
Qed.

(** What one successful courier update does to the table. *)
Lemma courier_update_returns
    (utcnow : datetime) (order_id : Z) (requested : string)
    (db db' : Session) (order order' : Order.t) :
  orders db !! order_id = Some order ->
  Courier.update_order_status utcnow order_id requested db =
    Return (db', order') ->
  (Order.status order, requested) ∈ spec_edges
  /\ order' = Order.with_status order requested (Some utcnow)
  /\ db' = with_orders db (<[order_id := order']> (orders db)).
Proof.
  intros Hget. unfold Courier.update_order_status.
  destruct (Courier.OrderStatusUpdate requested) as [r | e] eqn:Er;
    simpl; [ | discriminate].
  assert (r = requested) as ->.
  { unfold Courier.OrderStatusUpdate in Er.
    destruct (bool_decide _); [congruence | discriminate]. }
  rewrite Hget.
  destruct (Courier.check_transition (Order.status order) requested)
    as [s | e] eqn:Ec; simpl; [ | discriminate].
  apply check_transition_sound in Ec as [-> Hedge].
  intros [= <- <-]. repeat split. exact Hedge.
Qed.

(** X1.  A courier can move an order forward at most three times: every
    accepted courier update strictly advances the order (NEW, COOKING,
    ON_WAY, terminal), so a run of updates that are all accepted has at most
    three steps, and as many steps as it has, so far the order has come. *)
Theorem courier_updates_at_most_three
    (utcnow : datetime) (order_id : Z) (requests : list string)
    (db db' : Session) :
  courier_updates utcnow order_id requests db = Return db' ->
  (length requests <= 3)%nat
  /\ (forall order, orders db !! order_id = Some order ->
        exists order', orders db' !! order_id = Some order'
          /\ status_rank (Order.status order) + Z.of_nat (length requests)
             <= status_rank (Order.status order')).
Proof.
  intros H.
  assert (Hmain : forall order, orders db !! order_id = Some order ->
            exists order', orders db' !! order_id = Some order'
              /\ status_rank (Order.status order) + Z.of_nat (length requests)
                 <= status_rank (Order.status order')).
  { revert db H. induction requests as [ | r rest IH]; intros db H order Hget.
    - injection H as <-. exists order. split; [exact Hget | simpl; lia].
    - cbn [courier_updates] in H.
      destruct (Courier.update_order_status utcnow order_id r db)
        as [[db1 order1] | e] eqn:E1; simpl in H; [ | discriminate].
      destruct (courier_update_returns _ _ _ _ _ _ _ Hget E1)
        as (Hedge & Ho & Hdb).
      assert (Hget1 : orders db1 !! order_id = Some order1).
      { rewrite Hdb. simpl. apply lookup_insert_eq. }
      destruct (IH db1 H order1 Hget1) as (order' & Hget' & Hrank).
      exists order'. split; [exact Hget' | ].
      apply edge_advances in Hedge.
      rewrite Ho in Hrank. simpl Order.status in Hrank.
      rewrite length_cons, Nat2Z.inj_succ. lia. }
  split; [ | exact Hmain].
  destruct requests as [ | r rest]; [simpl; lia | ].
  destruct (orders db !! order_id) as [order | ] eqn:Hget.
  - destruct (Hmain order eq_refl) as (order' & _ & Hrank).
    pose proof (status_rank_bounds (Order.status order)).
    pose proof (status_rank_bounds (Order.status order')). lia.
  - exfalso. cbn [courier_updates] in H.
    unfold Courier.update_order_status in H.
    destruct (Courier.OrderStatusUpdate r); simpl in H; [ | discriminate].
    rewrite Hget in H. discriminate.
Qed.

Lemma courier_updates_at_most_three_witness :
  (length ["COOKING"; "ON_WAY"; "DELIVERED"] <= 3)%nat.
Proof.
  apply (courier_updates_at_most_three utc_2024_01_01 2
           ["COOKING"; "ON_WAY"; "DELIVERED"] db_orders
           (with_orders db_orders
              (<[2 := Order.with_status new_order "DELIVERED"
                        (Some utc_2024_01_01)]> (orders db_orders)))).
  vm_compute. reflexivity.
Defined.

(** X2.  An accepted courier update touches nothing but the status and the
    update time of the one order: menu, modification types and promo codes
    stay as they are, every other order is unchanged, and the order keeps
    its number, customer, amounts, promo code and payment data. *)
Theorem courier_update_frame
    (utcnow : datetime) (order_id : Z) (requested : string)
    (db db' : Session) (order order' : Order.t) :
  orders db !! order_id = Some order ->
  Courier.update_order_status utcnow order_id requested db =
    Return (db', order') ->
  menu_items db' = menu_items db
  /\ modification_types db' = modification_types db
  /\ promocodes db' = promocodes db
  /\ (forall other, other <> order_id ->
        orders db' !! other = orders db !! other)
  /\ orders db' !! order_id = Some order'
  /\ Order.status order' = requested
  /\ Order.updated_at order' = Some utcnow
  /\ Order.number order' = Order.number order
  /\ Order.user_id order' = Order.user_id order
  /\ Order.subtotal order' = Order.subtotal order
  /\ Order.discount order' = Order.discount order
  /\ Order.total order' = Order.total order
  /\ Order.promocode_code order' = Order.promocode_code order
  /\ Order.paid order' = Order.paid order
  /\ Order.payment_method order' = Order.payment_method order.
Proof.
  intros Hget H.
  destruct (courier_update_returns _ _ _ _ _ _ _ Hget H) as (_ & -> & ->).
  repeat split; try reflexivity.
  - intros other Hne. simpl. apply lookup_insert_ne. congruence.
  - simpl. apply lookup_insert_eq.
Qed.

Lemma courier_update_frame_witness :
  orders (with_orders db_orders
            (<[2 := Order.with_status new_order "COOKING"
                      (Some utc_2024_01_01)]> (orders db_orders))) !! 1 =
    orders db_orders !! 1.
Proof.
  destruct (courier_update_frame utc_2024_01_01 2 "COOKING" db_orders
              (with_orders db_orders
                 (<[2 := Order.with_status new_order "COOKING"
                           (Some utc_2024_01_01)]> (orders db_orders)))
              new_order
              (Order.with_status new_order "COOKING" (Some utc_2024_01_01)))
    as (_ & _ & _ & Hother & _); [reflexivity | reflexivity | ].
  apply Hother. discriminate.
Defined.

(** What a successful cancel went through. *)
Lemma cancel_order_returns
    (utcnow : datetime) (order_id : Z) (db db' : Session) (user : User.t)
    (order' : Order.t) :
  Orders.cancel_order utcnow order_id db user = Return (db', order') ->
  exists order,
    orders db !! order_id = Some order
    /\ (Order.user_id order = Some (User.id user) \/ User.role user = "admin")
    /\ Order.status order ∈ ["NEW"; "PENDING"; "CONFIRMED"]
    /\ order' = Order.with_status order "CANCELLED" (Some utcnow)
    /\ db' = with_orders db (<[order_id := order']> (orders db)).
Proof.
  unfold Orders.cancel_order.
  destruct (orders db !! order_id) as [order | ]; [ | discriminate].
  destruct (bool_decide (Order.user_id order = Some (User.id user))) eqn:Eo;
    destruct (String.eqb (User.role user) "admin") eqn:Er;
    cbn [negb andb]; try discriminate;
    (destruct (bool_decide
                 (Order.status order ∈ ["NEW"; "PENDING"; "CONFIRMED"]))
       eqn:Es; cbn [negb]; [ | discriminate]);
    intros [= <- <-]; exists order;
    apply bool_decide_eq_true in Es;
    (split; [reflexivity | split; [ | split; [exact Es | split; reflexivity]]]).
  - left. apply bool_decide_eq_true in Eo. exact Eo.
  - left. apply bool_decide_eq_true in Eo. exact Eo.
  - right. apply String.eqb_eq, Er.
Qed.

(** X3.  Only the customer who placed an order, or an admin, can cancel it:
    a successful cancel implies that the caller owns the order or has the
    role admin and that the order was NEW, PENDING or CONFIRMED; any other
    caller gets HTTP 403 for an existing order, whatever its status, and a
    missing order gives HTTP 404 to everybody. *)
Theorem cancel_order_access
    (utcnow : datetime) (order_id : Z) (db : Session) (user : User.t) :
  (orders db !! order_id = None ->
   Orders.cancel_order utcnow order_id db user =
     Raise (HTTPException 404 "Order not found"))
  /\ (forall order, orders db !! order_id = Some order ->
        Order.user_id order <> Some (User.id user) ->
        User.role user <> "admin" ->
        Orders.cancel_order utcnow order_id db user =
          Raise (HTTPException 403 "Access denied"))
  /\ (forall db' order',
        Orders.cancel_order utcnow order_id db user = Return (db', order') ->
        exists order,
          orders db !! order_id = Some order
          /\ (Order.user_id order = Some (User.id user)
              \/ User.role user = "admin")
          /\ Order.status order ∈ ["NEW"; "PENDING"; "CONFIRMED"]
          /\ order' = Order.with_status order "CANCELLED" (Some utcnow)
          /\ db' = with_orders db (<[order_id := order']> (orders db))).
Proof.
  unfold Orders.cancel_order. split; [ | split].
  - intros ->. reflexivity.
  - intros order -> Hown Hrole.
    rewrite bool_decide_eq_false_2 by exact Hown.
    apply String.eqb_neq in Hrole. rewrite Hrole. reflexivity.
  - intros db' order'. apply cancel_order_returns.
Qed.

Lemma cancel_order_access_witness :
  Orders.cancel_order utc_2024_01_01 2 db_orders (User.mk 8 "Bolat" "user") =
    Raise (HTTPException 403 "Access denied").
Proof.
  destruct (cancel_order_access utc_2024_01_01 2 db_orders
              (User.mk 8 "Bolat" "user")) as (_ & Hdenied & _).
  apply (Hdenied new_order); [reflexivity | discriminate | discriminate].
Defined.

(** X4.  A cancelled order stays cancelled for customers and couriers: after
    a successful cancel, a second cancel by the same caller is refused with
    HTTP 400 and every courier update of that order is refused with HTTP
    400, whatever status is requested. *)
Theorem cancelled_order_is_final
    (utcnow later : datetime) (order_id : Z) (db db' : Session)
    (user : User.t) (order' : Order.t) :
  Orders.cancel_order utcnow order_id db user = Return (db', order') ->
  Orders.cancel_order later order_id db' user =
    Raise (HTTPException 400 "Cannot cancel order with status: CANCELLED")
  /\ (forall requested,
        requested ∈ five_states ->
        exists detail,
          Courier.update_order_status later order_id requested db' =
            Raise (HTTPException 400 detail)).
Proof.
  intros H.
  destruct (cancel_order_returns _ _ _ _ _ _ H)
    as (order & Hget & Hwho & _ & Ho & Hdb).
  assert (Hget' : orders db' !! order_id = Some order').
  { rewrite Hdb. simpl. apply lookup_insert_eq. }
  assert (Hst : Order.status order' = "CANCELLED") by (rewrite Ho; reflexivity).
  assert (Hid : Order.user_id order' = Order.user_id order)
    by (rewrite Ho; reflexivity).
  split.
  - unfold Orders.cancel_order. rewrite Hget', Hid, Hst.
    destruct Hwho as [Hown | Hadmin].
    + rewrite bool_decide_eq_true_2 by exact Hown. reflexivity.
    + rewrite Hadmin. rewrite andb_false_r. reflexivity.
  - intros requested Hreq. unfold Courier.update_order_status.
    assert (Courier.OrderStatusUpdate requested = Return requested) as ->.
    { five_cases Hreq; reflexivity. }
    simpl. rewrite Hget', Hst.
    rewrite (check_transition_five "CANCELLED" requested)
      by (first [exact Hreq | by_computation]).
    assert (spec_edge "CANCELLED" requested = false) as ->.
    { five_cases Hreq; vm_compute; reflexivity. }
    eexists. reflexivity.
Qed.

Lemma cancelled_order_is_final_witness :
  Orders.cancel_order utc_2024_02_01 2
    (with_orders db_orders
       (<[2 := Order.with_status new_order "CANCELLED"
                 (Some utc_2024_01_01)]> (orders db_orders)))
    customer =
    Raise (HTTPException 400 "Cannot cancel order with status: CANCELLED").
Proof.
  apply (cancelled_order_is_final utc_2024_01_01 utc_2024_02_01 2 db_orders
           (with_orders db_orders
              (<[2 := Order.with_status new_order "CANCELLED"
                        (Some utc_2024_01_01)]> (orders db_orders)))
           customer
           (Order.with_status new_order "CANCELLED" (Some utc_2024_01_01))).
  vm_compute. reflexivity.
Defined.

(** X5.  The administrator's status update accepts a repeated request
    silently: sending the same status again succeeds, leaves the table
    exactly as it is and notifies nobody. *)
Theorem admin_update_repeated
    (utcnow later : datetime) (order_id : Z) (status : string)
    (db db' : Session) (order' : Order.t) (notified : bool) :
  AdminOrders.update_order_status utcnow order_id status db =
    Return (db', order', notified) ->
  AdminOrders.update_order_status later order_id status db' =
    Return (db', order', false).
Proof.
  unfold AdminOrders.update_order_status.
  destruct (negb (bool_decide (status ∈ AdminOrders.ALLOWED_STATUSES)));
    [discriminate | ].
  destruct (orders db !! order_id) as [order | ]; [ | discriminate].
  intros [= <- <- _]. simpl orders. rewrite lookup_insert_eq.
  assert (Hst : String.eqb
                  (Order.status
                     (if String.eqb (Order.status order) status then order
                      else Order.with_status order status (Some utcnow)))
                  status = true).
  { destruct (String.eqb (Order.status order) status) eqn:E;
      [exact E | apply String.eqb_refl]. }
  rewrite Hst. cbn [negb andb].
  unfold with_orders. simpl. rewrite insert_insert_eq. reflexivity.
Qed.

Lemma admin_update_repeated_witness :
  AdminOrders.update_order_status utc_2024_02_01 1 "NEW"
    (with_orders db_orders
       (<[1 := Order.with_status delivered_order "NEW"
                                 (Some utc_2024_01_01)]>
          (orders db_orders))) =
    Return (with_orders db_orders
              (<[1 := Order.with_status delivered_order "NEW"
                                        (Some utc_2024_01_01)]>
                 (orders db_orders)),
            Order.with_status delivered_order "NEW" (Some utc_2024_01_01),
            false).
Proof.
  apply (admin_update_repeated utc_2024_01_01 utc_2024_02_01 1 "NEW"
           db_orders _ _ true).
  vm_compute. reflexivity.
Defined.

(** X6.  The role guards are nested: whoever passes the admin guard passes
    the manager guard, whoever passes the manager guard passes the courier
    guard, and a caller whose role is user passes none of them. *)
Theorem role_guards_nested (user : User.t) :
  (Security.require_admin user = Return user ->
   Security.require_manager user = Return user)
  /\ (Security.require_manager user = Return user ->
      Security.require_courier user = Return user)
  /\ (User.role user = "user" ->
      Security.require_admin user = Raise (HTTPException 403 "admin only")
      /\ Security.require_manager user =
           Raise (HTTPException 403 "Manager access required")
      /\ Security.require_courier user =
           Raise (HTTPException 403 "Courier access required")).
Proof.
  unfold Security.require_admin, Security.require_manager,
    Security.require_courier.
  split; [ | split].
  - destruct (String.eqb (User.role user) "admin") eqn:E; [ | discriminate].
    intros _. apply String.eqb_eq in E. rewrite E. reflexivity.
  - destruct (bool_decide (User.role user ∈ ["admin"; "manager"])) eqn:E;
      [ | discriminate].
    intros _. apply bool_decide_eq_true in E.
    rewrite bool_decide_eq_true_2; [reflexivity | ].
    set_unfold in E. set_unfold. tauto.
  - intros ->. repeat split.
Qed.

Lemma role_guards_nested_witness :
  Security.require_manager (User.mk 1 "Dana" "admin") =
    Return (User.mk 1 "Dana" "admin").
Proof.
  apply (role_guards_nested (User.mk 1 "Dana" "admin")). reflexivity.
Defined.

(** * More on the business hours schedule *)

Lemma weekday_of_ordinal_range (o : Z) : 0 <= weekday_of_ordinal o < 7.
Proof. unfold weekday_of_ordinal. apply Z.mod_pos_bound. lia. Qed.

(** The entry written by [emergency_close] and [emergency_open]. *)
Lemma set_closed_lookup (closed : bool) (self : Hours.BusinessHoursService)
    (k weekday : Z) :
  0 <= k < 7 ->
  Hours.default_hours (AdminBusinessHours.set_closed closed self k) !! weekday =
    (if decide (weekday = k)
     then (fun h => Hours.mk_BusinessHours k (Hours.open_time h)
                      (Hours.close_time h) closed)
            <$> Hours.default_hours self !! k
     else Hours.default_hours self !! weekday)
  /\ Hours.timezone (AdminBusinessHours.set_closed closed self k) =
       Hours.timezone self.
Proof.
  intros Hk. unfold AdminBusinessHours.set_closed, Hours.get_hours_for_day,
    Hours.update_hours_for_day.
  destruct (Hours.default_hours self !! k) as [h | ] eqn:Eh.
  - assert ((0 <=? k) && (k <? 7) = true) as -> by lia. simpl.
    split; [ | reflexivity].
    destruct (decide (weekday = k)) as [-> | Hne].
    + apply lookup_insert_eq.
    + apply lookup_insert_ne. congruence.
  - split; [ | reflexivity].
    destruct (decide (weekday = k)) as [-> | Hne]; [exact Eh | reflexivity].
Qed.

Lemma set_closed_all_lookup (closed : bool) (ks : list Z) :
  Forall (fun k => 0 <= k < 7) ks ->
  forall (self : Hours.BusinessHoursService) (weekday : Z),
    Hours.default_hours (foldl (AdminBusinessHours.set_closed closed) self ks)
      !! weekday =
      (if decide (weekday ∈ ks)
       then (fun h => Hours.mk_BusinessHours weekday (Hours.open_time h)
                        (Hours.close_time h) closed)
              <$> Hours.default_hours self !! weekday
       else Hours.default_hours self !! weekday)
    /\ Hours.timezone (foldl (AdminBusinessHours.set_closed closed) self ks) =
         Hours.timezone self.
Proof.
  induction 1 as [ | k ks Hk _ IH]; intros self weekday.
  - simpl. split; reflexivity.
  - cbn [foldl].
    destruct (IH (AdminBusinessHours.set_closed closed self k) weekday)
      as [Hl Ht].
    destruct (set_closed_lookup closed self k weekday Hk) as [Hl1 Ht1].
    rewrite Hl, Ht, Hl1, Ht1. split; [ | reflexivity].
    destruct (decide (weekday = k)) as [-> | Hne].
    + rewrite (decide_True (P := k ∈ k :: ks)) by apply list_elem_of_here.
      destruct (decide (k ∈ ks));
        destruct (Hours.default_hours self !! k); reflexivity.
    + destruct (decide (weekday ∈ ks)) as [Hin | Hnin].
      * rewrite decide_True by (apply list_elem_of_further, Hin). reflexivity.
      * rewrite decide_False; [reflexivity | ].
        intros [-> | Hin]%elem_of_cons; [congruence | contradiction].
Qed.

Lemma week_days_range : Forall (fun k => 0 <= k < 7) [0; 1; 2; 3; 4; 5; 6].
Proof. repeat constructor; lia. Qed.

Lemma in_week_days (weekday : Z) :
  weekday ∈ [0; 1; 2; 3; 4; 5; 6] <-> 0 <= weekday < 7.
Proof. set_unfold. lia. Qed.

(** The schedule after [emergency_close] or [emergency_open]. *)
Lemma emergency_lookup (closed : bool) (self : Hours.BusinessHoursService)
    (weekday : Z) :
  Hours.default_hours
    (foldl (AdminBusinessHours.set_closed closed) self [0; 1; 2; 3; 4; 5; 6])
    !! weekday =
    if decide (0 <= weekday < 7)
    then (fun h => Hours.mk_BusinessHours weekday (Hours.open_time h)
                     (Hours.close_time h) closed)
           <$> Hours.default_hours self !! weekday
    else Hours.default_hours self !! weekday.
Proof.
  destruct (set_closed_all_lookup closed _ week_days_range self weekday)
    as [-> _].
  destruct (decide (0 <= weekday < 7)) as [Hr | Hr].
  - rewrite decide_True by (apply in_week_days, Hr). reflexivity.
  - rewrite decide_False by (rewrite in_week_days; exact Hr). reflexivity.
Qed.

Lemma scan_forward_all_closed (self : Hours.BusinessHoursService) (date : Z) :
  (forall weekday h, 0 <= weekday < 7 ->
     Hours.default_hours self !! weekday = Some h ->
     Hours.is_closed h = true) ->
  forall offsets, Hours.scan_forward self date offsets = None.
Proof.
  intros Hall. induction offsets as [ | i rest IH]; [reflexivity | ].
  cbn [Hours.scan_forward].
  destruct (Hours.default_hours self !! weekday_of_ordinal (date + i))
    as [h | ] eqn:Eh; [ | exact IH].
  rewrite (Hall _ _ (weekday_of_ordinal_range _) Eh). exact IH.
Qed.

(** The gate on a schedule whose days are all closed. *)
Lemma all_closed_gate (self : Hours.BusinessHoursService)
    (check_time : datetime) :
  (forall weekday h, 0 <= weekday < 7 ->
     Hours.default_hours self !! weekday = Some h ->
     Hours.is_closed h = true) ->
  Hours.is_open (Hours.is_open_at_time self check_time) = false
  /\ Hours.next_open_time (Hours.is_open_at_time self check_time) = None.
Proof.
  intros Hall. unfold Hours.is_open_at_time.
  set (now := Hours.to_business_time self check_time).
  destruct (Hours.default_hours self !! weekday_of_ordinal (ordinal now))
    as [h | ] eqn:Eh; [ | split; reflexivity].
  rewrite (Hall _ _ (weekday_of_ordinal_range _) Eh).
  split; [reflexivity | ]. cbn [Hours.next_open_time].
  unfold Hours._get_next_open_time. rewrite Eh.
  rewrite (Hall _ _ (weekday_of_ordinal_range _) Eh).
  apply scan_forward_all_closed, Hall.
Qed.

Lemma emergency_close_all_closed (self : Hours.BusinessHoursService) :
  forall weekday h, 0 <= weekday < 7 ->
    Hours.default_hours (AdminBusinessHours.emergency_close self) !! weekday
      = Some h ->
    Hours.is_closed h = true.
Proof.
  intros weekday h Hr. unfold AdminBusinessHours.emergency_close.
  rewrite emergency_lookup, decide_True by exact Hr.
  destruct (Hours.default_hours self !! weekday); [ | discriminate].
  intros [= <-]. reflexivity.
Qed.

(** X7.  After an emergency close the gate is closed at every instant and
    announces no next opening, whatever the schedule was before. *)
Theorem emergency_close_closes
    (self : Hours.BusinessHoursService) (check_time : datetime) :
  Hours.is_open
    (Hours.is_open_at_time (AdminBusinessHours.emergency_close self)
                           check_time) = false
  /\ Hours.next_open_time
       (Hours.is_open_at_time (AdminBusinessHours.emergency_close self)
                              check_time) = None.
Proof. apply all_closed_gate, emergency_close_all_closed. Qed.

Lemma service_eq (a b : Hours.BusinessHoursService) :
  Hours.default_hours a = Hours.default_hours b ->
  Hours.timezone a = Hours.timezone b -> a = b.
Proof. destruct a, b. simpl. intros -> ->. reflexivity. Qed.

Lemma emergency_timezone (closed : bool) (self : Hours.BusinessHoursService) :
  Hours.timezone
    (foldl (AdminBusinessHours.set_closed closed) self [0; 1; 2; 3; 4; 5; 6]) =
    Hours.timezone self.
Proof.
  apply (set_closed_all_lookup closed _ week_days_range self 0).
Qed.

(** X8.  An emergency close keeps the configured times, so an emergency
    open brings the schedule back: opening after closing gives the same
    schedule as opening directly, and on a schedule that had no closed day
    (each entry filed under its own weekday) it restores the schedule
    exactly. *)
Theorem emergency_open_after_close (self : Hours.BusinessHoursService) :
  AdminBusinessHours.emergency_open (AdminBusinessHours.emergency_close self) =
    AdminBusinessHours.emergency_open self
  /\ ((forall weekday h, 0 <= weekday < 7 ->
         Hours.default_hours self !! weekday = Some h ->
         Hours.day h = weekday /\ Hours.is_closed h = false) ->
      AdminBusinessHours.emergency_open
        (AdminBusinessHours.emergency_close self) = self).
Proof.
  unfold AdminBusinessHours.emergency_open, AdminBusinessHours.emergency_close.
  split.
  - apply service_eq; [ | rewrite !emergency_timezone; reflexivity].
    apply map_eq. intros weekday. rewrite !emergency_lookup.
    destruct (decide (0 <= weekday < 7)); [ | reflexivity].
    destruct (Hours.default_hours self !! weekday); reflexivity.
  - intros Hplain.
    apply service_eq; [ | rewrite !emergency_timezone; reflexivity].
    apply map_eq. intros weekday. rewrite !emergency_lookup.
    destruct (decide (0 <= weekday < 7)) as [Hr | ]; [ | reflexivity].
    destruct (Hours.default_hours self !! weekday) as [h | ] eqn:Eh;
      [ | reflexivity].
    destruct (Hplain weekday h Hr Eh) as [Hday Hc].
    simpl. f_equal. destruct h as [d o c cl]. simpl in *. subst. reflexivity.
Qed.

Lemma emergency_open_after_close_witness :
  AdminBusinessHours.emergency_open
    (AdminBusinessHours.emergency_close Hours.init) = Hours.init.
Proof.
  apply (emergency_open_after_close Hours.init).
  intros weekday h Hr. unfold Hours.init. cbn [Hours.default_hours].
  assert (weekday = 0 \/ weekday = 1 \/ weekday = 2 \/ weekday = 3
          \/ weekday = 4 \/ weekday = 5 \/ weekday = 6) as Hc by lia.
  destruct Hc as [-> | [-> | [-> | [-> | [-> | [-> | ->]]]]]];
    vm_compute; intros [= <-]; split; reflexivity.
Defined.

(** X9.  While the emergency close is in force no order is created: every
    order request is refused with HTTP 400. *)
Theorem no_order_after_emergency_close
    (strftime : datetime -> string) (self : Hours.BusinessHoursService)
    (local_now utcnow : datetime) (number : string)
    (payload : Orders.OrderCreateRequest) (db : Session) (user : User.t) :
  exists detail,
    Orders.create_order strftime (AdminBusinessHours.emergency_close self)
                        local_now utcnow number payload db user =
      Raise (HTTPException 400 detail).
Proof.
  unfold Orders.create_order.
  destruct (Orders.items payload); [eexists; reflexivity | ].
  unfold Hours.validate_business_hours.
  destruct (all_closed_gate (AdminBusinessHours.emergency_close self) local_now
              (emergency_close_all_closed self)) as [-> _].
  eexists. reflexivity.
Qed.

Lemma update_hours_for_day_complete (self self' : Hours.BusinessHoursService)
    (weekday : Z) (o c : option time) (closed : bool) :
  complete_week self ->
  Hours.update_hours_for_day self weekday o c closed = Some self' ->
  complete_week self'.
Proof.
  intros Hc. unfold Hours.update_hours_for_day.
  destruct ((0 <=? weekday) && (weekday <? 7)); [ | discriminate].
  intros [= <-] k Hk. cbn [Hours.default_hours].
  apply lookup_insert_is_Some'. right. apply Hc, Hk.
Qed.

Lemma weekly_loop_complete :
  forall (todo : list (Z * string * option AdminBusinessHours.BusinessHoursUpdate))
         (self : Hours.BusinessHoursService) (updated : list string),
    complete_week self ->
    complete_week (AdminBusinessHours.weekly_loop self todo updated).1.
Proof.
  induction todo as [ | [[i name] [u | ]] rest IH]; intros self updated Hc;
    cbn [AdminBusinessHours.weekly_loop]; [exact Hc | | apply IH, Hc].
  destruct (match AdminBusinessHours.open_time u,
                  AdminBusinessHours.close_time u with
            | Some o, Some c => time_leb c o
            | _, _ => false
            end); [exact Hc | ].
  destruct (Hours.get_hours_for_day self i) as [h | ]; [ | apply IH, Hc].
  apply IH.
  destruct (Hours.update_hours_for_day self i _ _ _) as [self' | ] eqn:Eu;
    simpl; [ | exact Hc].
  eapply update_hours_for_day_complete; eassumption.
Qed.

Lemma emergency_complete (closed : bool) (self : Hours.BusinessHoursService) :
  complete_week self ->
  complete_week
    (foldl (AdminBusinessHours.set_closed closed) self [0; 1; 2; 3; 4; 5; 6]).
Proof.
  intros Hc k Hk. rewrite emergency_lookup, decide_True by exact Hk.
  destruct (Hc k Hk) as [h ->]. eexists. reflexivity.
Qed.

(** X10.  The schedule always has its seven weekdays: the initial schedule
    is complete, and the daily update, the weekly update (whether it returns
    or raises), the emergency close and the emergency open keep it complete;
    on a complete schedule the gate never answers no_hours_defined. *)
Theorem schedule_stays_complete (self : Hours.BusinessHoursService) :
  complete_week self ->
  (forall weekday payload self',
     AdminBusinessHours.update_day_hours self weekday payload = Return self' ->
     complete_week self')
  /\ (forall payload,
        complete_week (AdminBusinessHours.update_weekly_hours self payload).1)
  /\ complete_week (AdminBusinessHours.emergency_close self)
  /\ complete_week (AdminBusinessHours.emergency_open self)
  /\ (forall check_time,
        Hours.reason (Hours.is_open_at_time self check_time)
          <> Some "no_hours_defined")
  /\ complete_week Hours.init.
Proof.
  intros Hc. repeat split.
  - intros weekday payload self'. unfold AdminBusinessHours.update_day_hours.
    destruct (match AdminBusinessHours.open_time payload,
                    AdminBusinessHours.close_time payload with
              | Some o, Some c => time_leb c o
              | _, _ => false
              end); [discriminate | ].
    destruct (Hours.get_hours_for_day self weekday) as [h | ];
      [ | discriminate].
    destruct (Hours.update_hours_for_day self weekday _ _ _) as [s | ] eqn:Eu;
      [ | discriminate].
    intros [= <-]. eapply update_hours_for_day_complete; eassumption.
  - intros payload. apply weekly_loop_complete, Hc.
  - apply emergency_complete, Hc.
  - apply emergency_complete, Hc.
  - intros check_time. unfold Hours.is_open_at_time.
    set (now := Hours.to_business_time self check_time).
    destruct (Hc _ (weekday_of_ordinal_range (ordinal now))) as [h ->].
    destruct (Hours.is_closed h); [discriminate | ].
    destruct (Hours.open_time h), (Hours.close_time h); try discriminate.
    destruct (_ && _); [discriminate | ].
    destruct (time_ltb _ _); discriminate.
  - intros k Hk.
    assert (k = 0 \/ k = 1 \/ k = 2 \/ k = 3 \/ k = 4 \/ k = 5 \/ k = 6)
      as Hcases by lia.
    destruct Hcases as [-> | [-> | [-> | [-> | [-> | [-> | ->]]]]]];
      eexists; vm_compute; reflexivity.
Qed.

Lemma schedule_stays_complete_witness :
  complete_week (AdminBusinessHours.emergency_close Hours.init).
Proof.
  assert (Hinit : complete_week Hours.init).
  { intros k Hk.
    assert (k = 0 \/ k = 1 \/ k = 2 \/ k = 3 \/ k = 4 \/ k = 5 \/ k = 6)
      as Hcases by lia.
    destruct Hcases as [-> | [-> | [-> | [-> | [-> | [-> | ->]]]]]];
      eexists; vm_compute; reflexivity. }
  apply (schedule_stays_complete Hours.init Hinit).
Defined.

Lemma opening_on_ordinal (self : Hours.BusinessHoursService) (date : Z)
    (dt : datetime) :
  opening_on self date = Some dt -> ordinal dt = date.
Proof.
  unfold opening_on.
  destruct (Hours.default_hours self !! weekday_of_ordinal date) as [h | ];
    [ | discriminate].
  destruct (Hours.is_closed h); [discriminate | ].
  destruct (Hours.open_time h); [ | discriminate].
  intros [= <-]. reflexivity.
Qed.

Lemma get_next_open_time_future (self : Hours.BusinessHoursService)
    (now dt : datetime) :
  Hours._get_next_open_time self now = Some dt ->
  datetime_ltb now dt = true
  /\ opening_on self (ordinal dt) = Some dt
  /\ ordinal now <= ordinal dt <= ordinal now + 7.
Proof.
  unfold Hours._get_next_open_time.
  destruct (match Hours.default_hours self !! weekday_of_ordinal (ordinal now)
            with
            | Some today_hours =>
                match Hours.is_closed today_hours,
                      Hours.open_time today_hours with
                | false, Some o =>
                    if time_ltb (clock now) o then Some o else None
                | _, _ => None
                end
            | None => None
            end) as [o | ] eqn:Etoday.
  - intros [= <-]. cbn [ordinal Hours.combine].
    destruct (Hours.default_hours self !! weekday_of_ordinal (ordinal now))
      as [h | ] eqn:Eh; [ | discriminate].
    destruct (Hours.is_closed h) eqn:Ec; [discriminate | ].
    destruct (Hours.open_time h) as [o' | ] eqn:Eo; [ | discriminate].
    destruct (time_ltb (clock now) o') eqn:El; [ | discriminate].
    injection Etoday as <-.
    split; [ | split; [ | lia]].
    + unfold datetime_ltb. cbn [ordinal clock Hours.combine].
      rewrite Z.ltb_irrefl, Z.eqb_refl, El. reflexivity.
    + unfold opening_on. rewrite Eh, Ec, Eo. reflexivity.
  - intros Hscan.
    pose proof (scan_forward_first self (ordinal now) [1; 2; 3; 4; 5; 6; 7])
      as Hfirst.
    rewrite Hscan in Hfirst.
    destruct Hfirst as (before & i & after & Hsplit & _ & Hopen).
    assert (Hi : i ∈ [1; 2; 3; 4; 5; 6; 7]).
    { rewrite Hsplit. apply elem_of_app. right. apply list_elem_of_here. }
    assert (1 <= i <= 7) by (set_unfold in Hi; lia).
    pose proof (opening_on_ordinal _ _ _ Hopen) as Hord.
    split; [ | split; [rewrite Hord; exact Hopen | lia]].
    unfold datetime_ltb.
    assert ((ordinal now <? ordinal dt) = true) as -> by lia. reflexivity.
Qed.

(** X11.  A next opening announced by the gate is a real one and lies
    ahead: it is later than the checked instant (in business time), at most
    seven days later, and it is the opening instant of a day whose schedule
    entry is not closed. *)
Theorem next_open_time_is_ahead
    (self : Hours.BusinessHoursService) (check_time dt : datetime) :
  Hours.next_open_time (Hours.is_open_at_time self check_time) = Some dt ->
  datetime_ltb (Hours.to_business_time self check_time) dt = true
  /\ opening_on self (ordinal dt) = Some dt
  /\ (ordinal (Hours.to_business_time self check_time) <= ordinal dt
      /\ ordinal dt
         <= ordinal (Hours.to_business_time self check_time) + 7).
Proof.
  unfold Hours.is_open_at_time.
  set (now := Hours.to_business_time self check_time).
  destruct (Hours.default_hours self !! weekday_of_ordinal (ordinal now))
    as [h | ]; [ | discriminate].
  destruct (Hours.is_closed h).
  { cbn [Hours.next_open_time]. apply get_next_open_time_future. }
  destruct (Hours.open_time h), (Hours.close_time h); try discriminate.
  destruct (_ && _); [discriminate | ].
  cbn [Hours.next_open_time]. apply get_next_open_time_future.
Qed.

Lemma next_open_time_is_ahead_witness :
  datetime_ltb (Hours.to_business_time Hours.init (monday_at 23 0))
               (mk_datetime 738887 (mk_time 9 0 0 0)
                            (Some (5 * 3600 * 1000000))) = true.
Proof.
  apply (next_open_time_is_ahead Hours.init (monday_at 23 0)).
  vm_compute. reflexivity.
Defined.

(** X12.  The weekly update is not all-or-nothing: when Monday's update is
    acceptable and Tuesday's is refused for its opening time not being
    before its closing time, the call raises HTTP 400 for tuesday and the
    schedule is left as the daily endpoint would have left it after
    Monday's update alone. *)
Theorem weekly_update_keeps_earlier_days
    (self self1 : Hours.BusinessHoursService)
    (payload : AdminBusinessHours.WeeklyHoursUpdate)
    (mon tue : AdminBusinessHours.BusinessHoursUpdate) (o c : time) :
  AdminBusinessHours.monday payload = Some mon ->
  AdminBusinessHours.tuesday payload = Some tue ->
  AdminBusinessHours.update_day_hours self 0 mon = Return self1 ->
  AdminBusinessHours.open_time tue = Some o ->
  AdminBusinessHours.close_time tue = Some c ->
  time_leb c o = true ->
  AdminBusinessHours.update_weekly_hours self payload =
    (self1,
     Raise (HTTPException 400
              "Opening time must be before closing time for tuesday")).
Proof.
  intros Hmon Htue Hday Ho Hc Hbad.
  unfold AdminBusinessHours.update_weekly_hours, AdminBusinessHours.day_updates.
  rewrite Hmon, Htue. cbn [AdminBusinessHours.weekly_loop].
  unfold AdminBusinessHours.update_day_hours in Hday.
  destruct (match AdminBusinessHours.open_time mon,
                  AdminBusinessHours.close_time mon with
            | Some o0, Some c0 => time_leb c0 o0
            | _, _ => false
            end); [discriminate | ].
  destruct (Hours.get_hours_for_day self 0) as [h | ]; [ | discriminate].
  destruct (Hours.update_hours_for_day self 0 _ _ _) as [s | ];
    [ | discriminate].
  injection Hday as ->. simpl default.
  rewrite Ho, Hc, Hbad. reflexivity.
Qed.

Lemma weekly_update_keeps_earlier_days_witness :
  AdminBusinessHours.update_weekly_hours Hours.init
    (AdminBusinessHours.mk_weekly
       (Some late_monday)
       (Some (AdminBusinessHours.mk_update (Some (Hours.at_ 22 0))
                                           (Some (Hours.at_ 9 0)) None))
       None None None None None) =
    (inverted_hours,
     Raise (HTTPException 400
              "Opening time must be before closing time for tuesday")).
Proof.
  apply (weekly_update_keeps_earlier_days Hours.init inverted_hours _
           late_monday
           (AdminBusinessHours.mk_update (Some (Hours.at_ 22 0))
                                         (Some (Hours.at_ 9 0)) None)
           (Hours.at_ 22 0) (Hours.at_ 9 0));
    vm_compute; reflexivity.
Defined.

(** X13.  Hours written by the daily update are the hours the gate applies:
    after a successful update of a weekday with both times and the closed
    flag cleared, the gate is open on that weekday exactly from the new
    opening time to the new closing time, both included; and such an update
    succeeds only when the opening time is before the closing time. *)
Theorem updated_hours_are_applied
    (self self' : Hours.BusinessHoursService) (weekday : Z) (o c : time)
    (check_time : datetime) :
  AdminBusinessHours.update_day_hours self weekday
    (AdminBusinessHours.mk_update (Some o) (Some c) (Some false)) =
    Return self' ->
  weekday_of_ordinal (ordinal (Hours.to_business_time self' check_time))
    = weekday ->
  time_ltb o c = true
  /\ (Hours.is_open (Hours.is_open_at_time self' check_time) = true <->
      time_leb o (clock (Hours.to_business_time self' check_time)) = true
      /\ time_leb (clock (Hours.to_business_time self' check_time)) c = true).
Proof.
  unfold AdminBusinessHours.update_day_hours.
  cbn [AdminBusinessHours.open_time AdminBusinessHours.close_time
       AdminBusinessHours.is_closed].
  destruct (time_leb c o) eqn:Eoc; [discriminate | ].
  destruct (Hours.get_hours_for_day self weekday) as [h | ]; [ | discriminate].
  unfold Hours.update_hours_for_day.
  destruct ((0 <=? weekday) && (weekday <? 7)); [ | discriminate].
  intros [= <-] Hwd. split.
  { unfold time_leb in Eoc. apply negb_false_iff in Eoc. exact Eoc. }
  unfold Hours.is_open_at_time. rewrite Hwd.
  cbn [Hours.default_hours]. rewrite lookup_insert_eq.
  cbn [Hours.is_closed Hours.open_time Hours.close_time].
  destruct (time_leb o _) eqn:E1; destruct (time_leb _ c) eqn:E2;
    cbn [andb Hours.is_open]; split; try tauto; try discriminate;
    intros [? ?]; discriminate.
Qed.

Lemma updated_hours_are_applied_witness :
  time_ltb (Hours.at_ 8 0) (Hours.at_ 20 0) = true.
Proof.
  apply (updated_hours_are_applied Hours.init
           (Hours.mk_service
              (<[0 := Hours.mk_BusinessHours 0 (Some (Hours.at_ 8 0))
                                             (Some (Hours.at_ 20 0)) false]>
                 (Hours.default_hours Hours.init))
              (Hours.timezone Hours.init))
           0 (Hours.at_ 8 0) (Hours.at_ 20 0) (monday_at 8 30));
    vm_compute; reflexivity.
Defined.

(** * More on pricing *)

(** The two pricing loops compute the same subtotal. *)
Lemma cart_price_lines_agree (menu : gmap Z MenuItem.t) :
  forall (its : list Orders.OrderItemIn) (subtotal0 subtotal : Decimal)
         (lines0 lines : list Orders.line)
         (details0 : list Cart.PriceDetailsLine),
    Orders.price_lines menu its subtotal0 lines0 = Return (subtotal, lines) ->
    exists details,
      Cart.price_lines menu (cart_item_of <$> its) subtotal0 details0 =
        Return (subtotal, details).
Proof.
  induction its as [ | it rest IH];
    intros subtotal0 subtotal lines0 lines details0 H.
  - injection H as <- <-. eexists. reflexivity.
  - cbn [Orders.price_lines] in H. rewrite fmap_cons.
    cbn [Cart.price_lines cart_item_of Cart.item_id Cart.qty].
    destruct (menu !! Orders.item_id it) as [mi | ]; [ | discriminate].
    destruct (negb (MenuItem.is_active mi)); [discriminate | ].
    destruct (Orders.qty it <=? 0); [discriminate | ].
    destruct (Decimal.quantize _ Decimal.cent) as [line_total | e];
      simpl in H |- *; [ | discriminate].
    eapply IH, H.
Qed.

(** X14.  The legacy price endpoint quotes what the order will charge:
    whenever [create_order] succeeds, [calculate_price] on the same items
    and promo code, against the same database at the same time, succeeds
    with the order's subtotal, discount and total. *)
Theorem quote_matches_order
    (strftime : datetime -> string) (hours : Hours.BusinessHoursService)
    (local_now utcnow : datetime) (number : string)
    (payload : Orders.OrderCreateRequest) (db : Session) (user : User.t)
    (order : Order.t) (lines : list Orders.line) :
  Orders.create_order strftime hours local_now utcnow number payload db user =
    Return (order, lines) ->
  exists details,
    Cart.calculate_price utcnow
      (Cart.mk_request (cart_item_of <$> Orders.items payload)
                       (Orders.promocode payload)) db =
      Return (Cart.mk_response (Order.subtotal order) (Order.discount order)
                               (Order.total order) details).
Proof.
  intros H.
  apply create_order_returns in H
    as (Hne & _ & promo_res & Hlines & Hpromo & Hdisc & Htotal & _).
  unfold Cart.calculate_price. cbn [Cart.items Cart.promocode].
  destruct (cart_item_of <$> Orders.items payload) as [ | ci cis] eqn:Ecart.
  { destruct (Orders.items payload); [contradiction | discriminate]. }
  rewrite <- Ecart.
  assert (Hids : Cart.item_id <$> (cart_item_of <$> Orders.items payload) =
                 Orders.item_id <$> Orders.items payload).
  { rewrite <- list_fmap_compose. reflexivity. }
  rewrite Hids.
  destruct (cart_price_lines_agree _ _ _ _ _ _ [] Hlines) as [details ->].
  simpl. rewrite Hpromo. simpl.
  unfold Orders.order_total, Orders.applied_discount in *.
  rewrite Hdisc in Htotal. rewrite Htotal. simpl.
  exists details. rewrite Hdisc. reflexivity.
Qed.

Lemma quote_matches_order_witness :
  exists details,
    Cart.calculate_price utc_2024_01_01
      (Cart.mk_request (cart_item_of <$> Orders.items spec_payload)
                       (Some "SAVE10")) spec_db =
      Return (Cart.mk_response (Decimal.mk 250000 (-2)) (Decimal.mk 25000 (-2))
                               (Decimal.mk 225000 (-2)) details).
Proof.
  apply (quote_matches_order (fun _ => "") Hours.init noon_2024_01_01
           utc_2024_01_01 "ORD-240101070000001" spec_payload spec_db customer
           (Order.mk "ORD-240101070000001" (Some 7) "NEW"
                     (Decimal.mk 250000 (-2)) (Decimal.mk 25000 (-2))
                     (Decimal.mk 225000 (-2)) (Some "SAVE10") false "cod" None)
           [(MenuItem.mk 1 "Burger" (Decimal.mk 100000 (-2)) true, 2,
             Decimal.mk 100000 (-2), []);
            (MenuItem.mk 2 "Fries" (Decimal.mk 50000 (-2)) true, 1,
             Decimal.mk 50000 (-2), [])]).
  vm_compute. reflexivity.
Defined.

(** X15.  A promo code that the evaluator rejects never fails an order and
    leaves no trace on it: the order is built exactly as the same order
    without a promo code. *)
Theorem rejected_promo_is_ignored
    (strftime : datetime -> string) (hours : Hours.BusinessHoursService)
    (local_now utcnow : datetime) (number : string)
    (payload : Orders.OrderCreateRequest) (db : Session) (user : User.t)
    (order : Order.t) (lines : list Orders.line) (why : string) :
  Orders.create_order strftime hours local_now utcnow number
    (Orders.mk_request (Orders.items payload) (Orders.pickup_or_delivery payload)
                       None (Orders.payment_method payload))
    db user = Return (order, lines) ->
  calculate_discount (promocodes db) (Orders.promocode payload)
                     (Order.subtotal order) utcnow = Return (rejected why) ->
  Orders.create_order strftime hours local_now utcnow number payload db user =
    Return (order, lines).
Proof.
  destruct payload as [its pd pc pm].
  cbn [Orders.items Orders.pickup_or_delivery Orders.promocode
       Orders.payment_method].
  intros H Hrej.
  pose proof (create_order_returns _ _ _ _ _ _ _ _ _ _ H)
    as (_ & _ & promo_res & Hlines & _).
  cbn [Orders.items] in Hlines.
  revert H. unfold Orders.create_order, Orders.check_modifications.
  cbn [Orders.items Orders.promocode Orders.payment_method].
  destruct its as [ | it0 rest]; [discriminate | ].
  destruct (negb (Hours.is_open _)); [discriminate | ].
  destruct (List.find _ _); [discriminate | ].
  cbn [mbind outcome_bind]. rewrite Hlines.
  cbn [mbind outcome_bind PromoValidator.calculate_discount
       PromoValidator.truthy].
  rewrite Hrej. cbn [mbind outcome_bind].
  unfold Orders.applied_discount, rejected.
  cbn [PromoValidator.valid PromoValidator.discount].
  destruct (Orders.order_total _ _) as [total | e];
    cbn [mbind outcome_bind]; [ | discriminate].
  intros H. exact H.
Qed.

Lemma rejected_promo_is_ignored_witness :
  Orders.create_order (fun _ => "") Hours.init noon_2024_01_01 utc_2024_01_01
    "ORD-240101070000001"
    (Orders.mk_request [Orders.mk_item 1 1 []] "pickup" (Some "OLD10") None)
    spec_db customer =
    Return
      (Order.mk "ORD-240101070000001" (Some 7) "NEW"
                (Decimal.mk 100000 (-2)) Decimal.zero1
                (Decimal.mk 100000 (-2)) None false "cod" None,
       [(MenuItem.mk 1 "Burger" (Decimal.mk 100000 (-2)) true, 1,
         Decimal.mk 100000 (-2), [])]).
Proof.
  apply (rejected_promo_is_ignored (fun _ => "") Hours.init noon_2024_01_01
           utc_2024_01_01 "ORD-240101070000001"
           (Orders.mk_request [Orders.mk_item 1 1 []] "pickup"
                              (Some "OLD10") None)
           spec_db customer _ _ "invalid_or_inactive");
    vm_compute; reflexivity.
Defined.

Lemma order_total_nonneg (subtotal discount total : Decimal) :
  Orders.order_total subtotal discount = Return total ->
  Decimal.leb Decimal.zero1 total = true.
Proof.
  unfold Orders.order_total. intros H.
  apply DecimalFacts.leb_zero1.
  eapply DecimalFacts.quantize_nonneg; [exact H | ].
  unfold Decimal.max.
  destruct (Decimal.ltb Decimal.zero1 _) eqn:El; [ | simpl; lia].
  unfold Decimal.ltb in El.
  destruct (Decimal.compare Decimal.zero1 _) eqn:Ec; try discriminate.
  apply DecimalFacts.leb_zero1. unfold Decimal.leb. rewrite Ec. reflexivity.
Qed.

(** X16.  No data makes a total negative or an applied discount larger than
    the subtotal: the total of every created order is at least zero, and
    whenever the evaluator accepts a non-empty promo code its discount is at
    most the subtotal, for any kind and any value, negative ones included. *)
Theorem total_never_negative
    (strftime : datetime -> string) (hours : Hours.BusinessHoursService)
    (local_now utcnow : datetime) (number : string)
    (payload : Orders.OrderCreateRequest) (db : Session) (user : User.t)
    (order : Order.t) (lines : list Orders.line) :
  Orders.create_order strftime hours local_now utcnow number payload db user =
    Return (order, lines) ->
  Decimal.leb Decimal.zero1 (Order.total order) = true
  /\ (forall c r,
        truthy (Orders.promocode payload) = Some c ->
        calculate_discount (promocodes db) (Orders.promocode payload)
                           (Order.subtotal order) utcnow = Return r ->
        valid r = true ->
        Order.discount order = discount r
        /\ Decimal.leb (Order.discount order) (Order.subtotal order) = true).
Proof.
  intros H.
  apply create_order_returns in H
    as (_ & _ & promo_res & _ & Hpromo & Hdisc & Htotal & _).
  split; [eapply order_total_nonneg, Htotal | ].
  intros c r Hc Hr Hvalid. rewrite Hpromo in Hr. injection Hr as <-.
  rewrite Hdisc. unfold Orders.applied_discount. rewrite Hvalid.
  split; [reflexivity | ].
  unfold calculate_discount in Hpromo. rewrite Hc in Hpromo.
  destruct (query_promocode (promocodes db) c) as [promo | ];
    [ | injection Hpromo as <-; discriminate].
  destruct (negb (Promocode.is_active promo));
    [injection Hpromo as <-; discriminate | ].
  cbn [Promocode.valid_from] in Hpromo.
  destruct (match Promocode.valid_to promo with
            | Some t => datetime_ltb t utcnow
            | None => false
            end); [injection Hpromo as <-; discriminate | ].
  destruct (match Promocode.min_subtotal promo with
            | Some m => Decimal.ltb (Order.subtotal order) m
            | None => false
            end); [injection Hpromo as <-; discriminate | ].
  destruct (raw_discount promo (Order.subtotal order)) as [d | e];
    simpl in Hpromo; [ | discriminate].
  injection Hpromo as <-. cbn [discount]. apply DecimalFacts.leb_min_r.
Qed.

Lemma total_never_negative_witness :
  Decimal.leb Decimal.zero1 (Decimal.mk 110000 (-2)) = true.
Proof.
  apply (total_never_negative (fun _ => "") Hours.init noon_2024_01_01
           utc_2024_01_01 "ORD-240101070000001" neg10_payload spec_db customer
           (Order.mk "ORD-240101070000001" (Some 7) "NEW"
                     (Decimal.mk 100000 (-2)) (Decimal.mk (-10000) (-2))
                     (Decimal.mk 110000 (-2)) (Some "NEG10") false "cod" None)
           [(MenuItem.mk 1 "Burger" (Decimal.mk 100000 (-2)) true, 1,
             Decimal.mk 100000 (-2), [])]).
  vm_compute. reflexivity.
Defined.

Lemma datetime_ltb_irrefl (t : datetime) : datetime_ltb t t = false.
Proof.
  unfold datetime_ltb, time_ltb.
  rewrite !Z.ltb_irrefl, !Z.eqb_refl. reflexivity.
Qed.

Lemma decimal_ltb_irrefl (a : Decimal) : Decimal.ltb a a = false.
Proof. unfold Decimal.ltb. rewrite DecimalFacts.compare_refl. reflexivity. Qed.

(** X17.  The promo window and the minimum are inclusive, and expiry is
    reported before the minimum: an active promo is still applied at the
    very instant it expires to a subtotal equal to its minimum, while past
    its expiry it is rejected as expired even when the minimum is also
    missed, and before expiry a subtotal below the minimum is rejected as
    min_subtotal_not_met. *)
Theorem promo_window_is_inclusive
    (table : list Promocode.t) (code : option string) (c : string)
    (promo : Promocode.t) (subtotal : Decimal) (now : datetime) :
  truthy code = Some c ->
  query_promocode table c = Some promo ->
  Promocode.is_active promo = true ->
  (Promocode.valid_to promo = Some now ->
   Promocode.min_subtotal promo = Some subtotal ->
   calculate_discount table code subtotal now =
     (d ← raw_discount promo subtotal;
      Return (mk_PromoValidationResult true (Decimal.min d subtotal) None)))
  /\ (forall t, Promocode.valid_to promo = Some t ->
        datetime_ltb t now = true ->
        calculate_discount table code subtotal now =
          Return (rejected "expired"))
  /\ (forall m,
        match Promocode.valid_to promo with
        | Some t => datetime_ltb t now = false
        | None => True
        end ->
        Promocode.min_subtotal promo = Some m ->
        Decimal.ltb subtotal m = true ->
        calculate_discount table code subtotal now =
          Return (rejected "min_subtotal_not_met")).
Proof.
  intros Hc Hq Hact. unfold calculate_discount. rewrite Hc, Hq, Hact.
  cbn [negb Promocode.valid_from]. split; [ | split].
  - intros -> ->.
    rewrite datetime_ltb_irrefl, decimal_ltb_irrefl. reflexivity.
  - intros t -> ->. reflexivity.
  - intros m Hto -> ->.
    destruct (Promocode.valid_to promo); [rewrite Hto | ]; reflexivity.
Qed.

Lemma promo_window_is_inclusive_witness :
  calculate_discount [Promocode.set_valid_to save10 (Some utc_2024_01_01)]
                     (Some "SAVE10") zero_amount utc_2024_01_01 =
    Return (mk_PromoValidationResult true zero_amount None).
Proof.
  destruct (promo_window_is_inclusive
              [Promocode.set_valid_to save10 (Some utc_2024_01_01)]
              (Some "SAVE10") "SAVE10"
              (Promocode.set_valid_to save10 (Some utc_2024_01_01))
              zero_amount utc_2024_01_01 eq_refl eq_refl eq_refl)
    as [Hedge _].
  rewrite (Hedge eq_refl eq_refl). reflexivity.
Defined.

(** ** Amounts in hundredths *)

Lemma fits_small (c : Z) : 0 <= c < 10 ^ 28 -> Decimal.fits c.
Proof. unfold Decimal.fits, Decimal.prec. lia. Qed.

Lemma min_cents (a b : Z) :
  Decimal.min (Decimal.mk a (-2)) (Decimal.mk b (-2)) =
    Decimal.mk (if b <? a then b else a) (-2).
Proof.
  unfold Decimal.min, Decimal.ltb, Decimal.compare.
  cbn [Decimal.coef Decimal.exp].
  rewrite Z.min_id, Z.sub_diag. change (10 ^ 0) with 1. rewrite !Z.mul_1_r.
  destruct (Z.ltb_spec b a) as [Hlt | Hge].
  - apply Z.compare_lt_iff in Hlt. rewrite Hlt. reflexivity.
  - destruct (b ?= a) eqn:E; try reflexivity.
    exfalso. pose proof (proj1 (Z.compare_lt_iff b a) E). lia.
Qed.

Lemma order_total_cents (s d : Z) :
  0 <= d <= s -> s < 10 ^ 28 ->
  Orders.order_total (Decimal.mk s (-2)) (Decimal.mk d (-2)) =
    Return (Decimal.mk (s - d) (-2)).
Proof.
  intros Hd Hs. unfold Orders.order_total, Decimal.sub, Decimal.neg.
  cbn [Decimal.coef Decimal.exp].
  rewrite DecimalFacts.add_same_exp by (apply fits_small; lia).
  replace (s + - d) with (s - d) by lia.
  unfold Decimal.max, Decimal.ltb, Decimal.compare, Decimal.zero1.
  cbn [Decimal.coef Decimal.exp]. change (Z.min (-1) (-2)) with (-2).
  change (-1 - -2) with 1. change (-2 - -2) with 0.
  change (10 ^ 0) with 1. rewrite Z.mul_1_r. change (0 * 10 ^ 1) with 0.
  destruct (0 ?= s - d) eqn:E.
  - apply Z.compare_eq in E. rewrite <- E. reflexivity.
  - apply DecimalFacts.quantize_cents, fits_small. lia.
  - exfalso. pose proof (proj1 (Z.compare_gt_iff _ _) E). lia.
Qed.

Lemma order_total_no_discount (s : Z) :
  0 <= s < 10 ^ 28 ->
  Orders.order_total (Decimal.mk s (-2)) Decimal.zero1 =
    Return (Decimal.mk s (-2)).
Proof.
  intros Hs. unfold Orders.order_total, Decimal.sub, Decimal.neg, Decimal.add,
    Decimal.zero1.
  cbn [Decimal.coef Decimal.exp]. change (Z.min (-2) (-1)) with (-2).
  change (-2 - -2) with 0. change (-1 - -2) with 1. change (10 ^ 0) with 1.
  change (- 0 * 10 ^ 1) with 0. rewrite Z.mul_1_r, Z.add_0_r.
  rewrite DecimalFacts.fix_fits by (apply fits_small; lia).
  unfold Decimal.max, Decimal.ltb, Decimal.compare.
  cbn [Decimal.coef Decimal.exp]. change (Z.min (-1) (-2)) with (-2).
  change (-1 - -2) with 1. change (-2 - -2) with 0.
  change (10 ^ 0) with 1. rewrite Z.mul_1_r. change (0 * 10 ^ 1) with 0.
  destruct (0 ?= s) eqn:E.
  - apply Z.compare_eq in E. rewrite <- E. reflexivity.
  - apply DecimalFacts.quantize_cents, fits_small. lia.
  - exfalso. pose proof (proj1 (Z.compare_gt_iff _ _) E). lia.
Qed.

(** The discount the evaluator grants on a subtotal in hundredths, when the
    promo values are non-negative [Numeric(10, 2)] amounts: nothing, or an
    amount in hundredths between zero and the subtotal. *)
Lemma discount_in_cents
    (table : list Promocode.t) (code : option string) (s : Z)
    (now : datetime) (r : PromoValidationResult) :
  (forall p v, p ∈ table -> Promocode.value p = Some v ->
     Decimal.exp v = -2 /\ 0 <= Decimal.coef v < 10 ^ 10) ->
  0 <= s < 10 ^ 18 ->
  calculate_discount table code (Decimal.mk s (-2)) now = Return r ->
  discount r = Decimal.zero1
  \/ exists d, 0 <= d <= s /\ discount r = Decimal.mk d (-2).
Proof.
  intros Hvalues Hs H. unfold calculate_discount in H.
  destruct (truthy code) as [c | ]; [ | injection H as <-; left; reflexivity].
  destruct (query_promocode table c) as [promo | ] eqn:Eq;
    [ | injection H as <-; left; reflexivity].
  destruct (negb (Promocode.is_active promo));
    [injection H as <-; left; reflexivity | ].
  cbn [Promocode.valid_from] in H.
  destruct (match Promocode.valid_to promo with
            | Some t => datetime_ltb t now
            | None => false
            end); [injection H as <-; left; reflexivity | ].
  destruct (match Promocode.min_subtotal promo with
            | Some m => Decimal.ltb (Decimal.mk s (-2)) m
            | None => false
            end); [injection H as <-; left; reflexivity | ].
  assert (Hin : promo ∈ table).
  { apply find_some in Eq as [Hin _]. apply list_elem_of_In, Hin. }
  unfold raw_discount in H.
  destruct (String.eqb (Promocode.kind promo) "percent").
  - destruct (Promocode.value promo) as [v | ] eqn:Ev; [ | discriminate].
    destruct (Hvalues _ _ Hin Ev) as [Hexp Hcoef].
    change (mbind ?f (Decimal_of_column (Some v))) with (f v) in H.
    cbv beta in H.
    rewrite DecimalFacts.percent_exact in H.
    2:{ cbn [Decimal.coef]. apply fits_small.
        change (10 ^ 28) with (10 ^ 18 * 10 ^ 10). nia. }
    2:{ cbn [Decimal.exp]. lia. }
    cbn [Decimal.coef Decimal.exp] in H. rewrite Hexp in H.
    change (- (-2 + -2)) with 4 in H.
    injection H as <-. cbn [discount]. rewrite min_cents. right.
    pose proof (DecimalFacts.round_half_even_nonneg (s * Decimal.coef v) 4
                  ltac:(nia) ltac:(lia)).
    eexists. split; [ | reflexivity].
    destruct (Z.ltb_spec s (Decimal.round_half_even (s * Decimal.coef v) 4));
      lia.
  - destruct (String.eqb (Promocode.kind promo) "amount").
    + destruct (Promocode.value promo) as [v | ] eqn:Ev; [ | discriminate].
      destruct (Hvalues _ _ Hin Ev) as [Hexp Hcoef].
      injection H as <-. cbn [discount]. destruct v as [vc ve].
      cbn [Decimal.coef Decimal.exp] in *. subst ve. rewrite min_cents.
      right. eexists. split; [ | reflexivity].
      destruct (Z.ltb_spec s vc); lia.
    + injection H as <-. cbn [discount]. left.
      unfold Decimal.min, Decimal.ltb, Decimal.compare, Decimal.zero1.
      cbn [Decimal.coef Decimal.exp]. change (Z.min (-2) (-1)) with (-2).
      change (-2 - -2) with 0. change (-1 - -2) with 1.
      change (10 ^ 0) with 1. rewrite Z.mul_1_r. change (0 * 10 ^ 1) with 0.
      destruct (s ?= 0) eqn:E; try reflexivity.
      exfalso. pose proof (proj1 (Z.compare_lt_iff _ _) E). lia.
Qed.

(** X18.  With menu prices and promo values stored as non-negative amounts
    in hundredths ([Numeric(10, 2)]) and an exact subtotal below 10^16
    currency units, every order that [create_order] builds balances: there
    is a number of hundredths [d] between zero and the subtotal such that
    the discount equals [d] hundredths, the subtotal is the exact sum of
    price times quantity and the total is exactly subtotal minus [d], all
    three free of rounding error. *)
Theorem order_amounts_balance
    (strftime : datetime -> string) (hours : Hours.BusinessHoursService)
    (local_now utcnow : datetime) (number : string)
    (payload : Orders.OrderCreateRequest) (db : Session) (user : User.t)
    (order : Order.t) (lines : list Orders.line) :
  priced_in_cents (menu_items db) ->
  promo_values_in_cents (promocodes db) ->
  subtotal_cents (menu_items db) (Orders.items payload) < 10 ^ 18 ->
  Orders.create_order strftime hours local_now utcnow number payload db user =
    Return (order, lines) ->
  exists d,
    0 <= d <= subtotal_cents (menu_items db) (Orders.items payload)
    /\ Order.subtotal order =
         Decimal.mk (subtotal_cents (menu_items db) (Orders.items payload)) (-2)
    /\ Decimal.eqb (Order.discount order) (Decimal.mk d (-2)) = true
    /\ Order.total order =
         Decimal.mk (subtotal_cents (menu_items db) (Orders.items payload) - d)
                    (-2).
Proof.
  intros Hmenu Hvalues Hbound H.
  apply create_order_returns in H
    as (Hne & _ & promo_res & Hlines & Hpromo & Hdisc & Htotal & _).
  assert (Hids : forall it, it ∈ Orders.items payload ->
            Orders.item_id it ∈ Orders.item_id <$> Orders.items payload)
    by (intros it Hin; apply list_elem_of_fmap_2, Hin).
  pose proof (subtotal_cents_nonneg _
                (priced_in_cents_items_map db _ Hmenu) _ _ _ _ _ Hlines)
    as Hnonneg.
  rewrite subtotal_cents_items_map in Hnonneg by exact Hids.
  set (s := subtotal_cents (menu_items db) (Orders.items payload)) in *.
  assert (Hsub : Order.subtotal order = Decimal.mk s (-2)).
  { apply price_lines_exact_from_zero in Hlines.
    - rewrite Hlines, subtotal_cents_items_map by exact Hids. reflexivity.
    - apply priced_in_cents_items_map, Hmenu.
    - exact Hne.
    - rewrite subtotal_cents_items_map by exact Hids.
      apply fits_small. fold s. lia. }
  rewrite Hsub in Hpromo, Htotal.
  assert (Hd : Order.discount order = Decimal.zero1
               \/ exists d, 0 <= d <= s
                            /\ Order.discount order = Decimal.mk d (-2)).
  { rewrite Hdisc. unfold Orders.applied_discount.
    destruct (valid promo_res); [ | left; reflexivity].
    eapply discount_in_cents; [exact Hvalues | | exact Hpromo]. lia. }
  destruct Hd as [Hd | (d & Hrange & Hd)]; rewrite Hd in Htotal |- *.
  - exists 0. rewrite order_total_no_discount in Htotal by lia.
    injection Htotal as <-. rewrite Z.sub_0_r.
    split; [lia | split; [exact Hsub | split; reflexivity]].
  - exists d. rewrite order_total_cents in Htotal by lia.
    injection Htotal as <-.
    split; [exact Hrange | split; [exact Hsub | split; [ | reflexivity]]].
    unfold Decimal.eqb, Decimal.compare. cbn [Decimal.coef Decimal.exp].
    rewrite Z.compare_refl. reflexivity.
Qed.

Lemma order_amounts_balance_witness :
  exists d,
    0 <= d <= subtotal_cents spec_menu (Orders.items spec_payload)
    /\ Decimal.mk 250000 (-2) =
         Decimal.mk (subtotal_cents spec_menu (Orders.items spec_payload)) (-2)
    /\ Decimal.eqb (Decimal.mk 25000 (-2)) (Decimal.mk d (-2)) = true
    /\ Decimal.mk 225000 (-2) =
         Decimal.mk (subtotal_cents spec_menu (Orders.items spec_payload) - d)
                    (-2).
Proof.
  apply (order_amounts_balance (fun _ => "") Hours.init noon_2024_01_01
           utc_2024_01_01 "ORD-240101070000001" spec_payload
           (AdminPromo.with_promocodes spec_db promo_table) customer
           (Order.mk "ORD-240101070000001" (Some 7) "NEW"
                     (Decimal.mk 250000 (-2)) (Decimal.mk 25000 (-2))
                     (Decimal.mk 225000 (-2)) (Some "SAVE10") false "cod" None)
           [(MenuItem.mk 1 "Burger" (Decimal.mk 100000 (-2)) true, 2,
             Decimal.mk 100000 (-2), []);
            (MenuItem.mk 2 "Fries" (Decimal.mk 50000 (-2)) true, 1,
             Decimal.mk 50000 (-2), [])]).
  - intros k mi Hk. cbn [AdminPromo.with_promocodes menu_items spec_db] in Hk.
    unfold spec_menu in Hk.
    apply lookup_insert_Some in Hk as [[_ <-] | [_ Hk]];
      [split; [reflexivity | cbn; lia] | ].
    apply lookup_insert_Some in Hk as [[_ <-] | [_ Hk]];
      [split; [reflexivity | cbn; lia] | ].
    rewrite lookup_empty in Hk. discriminate.
  - intros p v Hp Hv. cbn [AdminPromo.with_promocodes promocodes] in Hp.
    unfold promo_table in Hp.
    repeat (apply elem_of_cons in Hp as [-> | Hp];
            [cbn in Hv; try discriminate; injection Hv as <-;
             cbn; split; [reflexivity | lia] | ]).
    apply elem_of_nil in Hp as [].
  - vm_compute. reflexivity.
  - vm_compute. reflexivity.
Defined.

(** ** Deleting a promo code *)

Lemma NoDup_fmap_eq {A B : Type} (f : A -> B) (l : list A) (x y : A) :
  NoDup (f <$> l) -> x ∈ l -> y ∈ l -> f x = f y -> x = y.
Proof.
  induction l as [ | a l IH]; intros Hnd Hx Hy Hf.
  - apply elem_of_nil in Hx as [].
  - rewrite fmap_cons in Hnd. apply NoDup_cons in Hnd as [Ha Hnd].
    apply elem_of_cons in Hx as [-> | Hx];
      apply elem_of_cons in Hy as [-> | Hy].
    + reflexivity.
    + exfalso. apply Ha. rewrite Hf. apply list_elem_of_fmap_2, Hy.
    + exfalso. apply Ha. rewrite <- Hf. apply list_elem_of_fmap_2, Hx.
    + apply IH; assumption.
Qed.

Lemma query_promocode_Some
    (table : list Promocode.t) (code : string) (promo : Promocode.t) :
  query_promocode table code = Some promo ->
  promo ∈ table /\ Promocode.code promo = code.
Proof.
  intros H. apply find_some in H as [Hin Heq].
  split; [apply list_elem_of_In, Hin | apply String.eqb_eq, Heq].
Qed.

Lemma query_promocode_None
    (table : list Promocode.t) (code : string) :
  (forall p, p ∈ table -> Promocode.code p <> code) ->
  query_promocode table code = None.
Proof.
  intros H. unfold query_promocode.
  destruct (find _ table) as [p | ] eqn:E; [ | reflexivity].
  apply find_some in E as [Hin Heq].
  exfalso. apply (H p); [apply list_elem_of_In, Hin | ].
  apply String.eqb_eq, Heq.
Qed.

(** Looking up a code after the rows with one primary key were removed,
    when that key belongs to a row with another code. *)
Lemma query_promocode_filter
    (table : list Promocode.t) (code : string) (row : Z) :
  (forall p, p ∈ table -> Promocode.id p = row -> Promocode.code p <> code) ->
  query_promocode
    (List.filter (fun p => negb (Promocode.id p =? row)) table) code =
    query_promocode table code.
Proof.
  unfold query_promocode. induction table as [ | p table IH]; intros H;
    [reflexivity | ].
  cbn [List.filter find].
  destruct (Z.eqb_spec (Promocode.id p) row) as [Hrow | Hrow]; cbn [negb find].
  - destruct (String.eqb_spec (Promocode.code p) code) as [Hcode | _].
    + exfalso. eapply H; [apply list_elem_of_here | exact Hrow | exact Hcode].
    + apply IH. intros q Hq. apply H, list_elem_of_further, Hq.
  - destruct (String.eqb (Promocode.code p) code); [reflexivity | ].
    apply IH. intros q Hq. apply H, list_elem_of_further, Hq.
Qed.

(** X19.  DELETE /admin/promo/{code} on a table that keeps the unique
    constraints of [promocodes]: it answers 404 when no row has the code and
    400 when the row was used at least once; otherwise the code cannot be
    looked up any more, so the evaluator rejects it as
    [invalid_or_inactive], every other code is looked up as before, the
    unique constraints still hold and the other tables are untouched. *)
Theorem deleted_promocode_is_gone (code : string) (db : Session) :
  unique_promocodes (promocodes db) ->
  match AdminPromo.delete_promocode code db with
  | Return db' =>
      (exists promo, query_promocode (promocodes db) code = Some promo
                     /\ Promocode.used_count promo <= 0)
      /\ query_promocode (promocodes db') code = None
      /\ (forall subtotal now, code <> "" ->
            calculate_discount (promocodes db') (Some code) subtotal now =
              Return (rejected "invalid_or_inactive"))
      /\ (forall other, other <> code ->
            query_promocode (promocodes db') other =
              query_promocode (promocodes db) other)
      /\ unique_promocodes (promocodes db')
      /\ menu_items db' = menu_items db
      /\ modification_types db' = modification_types db
      /\ orders db' = orders db
  | Raise e =>
      (query_promocode (promocodes db) code = None
       /\ e = HTTPException 404 "Promocode not found")
      \/ (exists promo, query_promocode (promocodes db) code = Some promo
                        /\ 0 < Promocode.used_count promo
                        /\ exists detail, e = HTTPException 400 detail)
  end.
Proof.
  intros [Hids Hcodes]. unfold AdminPromo.delete_promocode.
  destruct (query_promocode (promocodes db) code) as [promo | ] eqn:Eq;
    [ | left; split; reflexivity].
  destruct (Z.ltb_spec 0 (Promocode.used_count promo)) as [Hused | Hused].
  { right. exists promo. split; [reflexivity | split; [exact Hused | ]].
    eexists. reflexivity. }
  apply query_promocode_Some in Eq as Hpromo. destruct Hpromo as [Hin Hcode].
  cbn [AdminPromo.with_promocodes promocodes menu_items modification_types
       orders].
  assert (Hgone : query_promocode
                    (List.filter
                       (fun p => negb (Promocode.id p =? Promocode.id promo))
                       (promocodes db)) code = None).
  { apply query_promocode_None. intros p Hp Hpc.
    apply list_elem_of_In, filter_In in Hp as [Hp Hkeep].
    apply list_elem_of_In in Hp.
    assert (p = promo)
      by (eapply (NoDup_fmap_eq Promocode.code); eauto; congruence).
    subst p. rewrite Z.eqb_refl in Hkeep. discriminate. }
  split; [exists promo; split; [reflexivity | lia] | ].
  split; [exact Hgone | ].
  split.
  { intros subtotal now Hne. unfold calculate_discount.
    unfold truthy. destruct (String.eqb_spec code "") as [E | _];
      [contradiction | ].
    rewrite Hgone. reflexivity. }
  split.
  { intros other Hother. apply query_promocode_filter.
    intros p Hp Hrow Hpc.
    assert (p = promo) by (eapply (NoDup_fmap_eq Promocode.id); eauto).
    subst p. congruence. }
  split; [ | split; [reflexivity | split; reflexivity]].
  split.
  - apply NoDup_fmap_2_strong.
    + intros x y Hx Hy Hxy.
      apply list_elem_of_In, filter_In in Hx as [Hx _].
      apply list_elem_of_In, filter_In in Hy as [Hy _].
      apply list_elem_of_In in Hx, Hy.
      eapply (NoDup_fmap_eq Promocode.id); eauto.
    + apply NoDup_ListNoDup, List.NoDup_filter, NoDup_ListNoDup.
      eapply NoDup_fmap_1, Hids.
  - apply NoDup_fmap_2_strong.
    + intros x y Hx Hy Hxy.
      apply list_elem_of_In, filter_In in Hx as [Hx _].
      apply list_elem_of_In, filter_In in Hy as [Hy _].
      apply list_elem_of_In in Hx, Hy.
      eapply (NoDup_fmap_eq Promocode.code); eauto.
    + apply NoDup_ListNoDup, List.NoDup_filter, NoDup_ListNoDup.
      eapply NoDup_fmap_1, Hids.
Qed.

Lemma deleted_promocode_is_gone_witness :
  query_promocode
    (List.filter (fun p => negb (Promocode.id p =? 5)) promo_table)
    "SAVE10" = None.
Proof.
  pose proof (deleted_promocode_is_gone "SAVE10"
                (AdminPromo.with_promocodes spec_db promo_table)) as H.
  cbv beta iota delta [AdminPromo.delete_promocode] in H.
  change (query_promocode
            (promocodes (AdminPromo.with_promocodes spec_db promo_table))
            "SAVE10") with (Some save10) in H.
  cbv beta iota in H.
  change (0 <? Promocode.used_count save10) with false in H.
  cbv beta iota in H.
  apply H. split; apply (bool_decide_unpack _); vm_compute; exact I.
Defined.

(** * More on reading orders *)

(** X20.  Reading an order after a cancel.  When [cancel_order] succeeds,
    the owner of the order reads it back through [get_order] as the same
    row with status CANCELLED, the new [updated_at] and the number, amounts,
    promo code and payment fields it had; a caller who does not own it (an
    admin, since nobody else may cancel) gets 404 from [get_order] before
    and after, although the cancel went through; and what [get_order]
    answers for any other order, to anybody, is unchanged. *)
Theorem cancelled_order_read_back
    (utcnow : datetime) (order_id : Z) (db db' : Session) (user : User.t)
    (order' : Order.t) :
  Orders.cancel_order utcnow order_id db user = Return (db', order') ->
  (Order.user_id order' = Some (User.id user) ->
   exists order,
     Orders.get_order order_id db user = Return order
     /\ Orders.get_order order_id db' user = Return order'
     /\ order' =
          Order.mk (Order.number order) (Order.user_id order) "CANCELLED"
                   (Order.subtotal order) (Order.discount order)
                   (Order.total order) (Order.promocode_code order)
                   (Order.paid order) (Order.payment_method order)
                   (Some utcnow))
  /\ (Order.user_id order' <> Some (User.id user) ->
      User.role user = "admin"
      /\ Orders.get_order order_id db user =
           Raise (HTTPException 404 "Order not found")
      /\ Orders.get_order order_id db' user =
           Raise (HTTPException 404 "Order not found"))
  /\ (forall other reader, other <> order_id ->
        Orders.get_order other db' reader = Orders.get_order other db reader).
Proof.
  intros H.
  destruct (cancel_order_returns _ _ _ _ _ _ H)
    as (order & Hget & Hwho & _ & Ho & Hdb).
  assert (Hget' : orders db' !! order_id = Some order').
  { rewrite Hdb. simpl. apply lookup_insert_eq. }
  assert (Hid : Order.user_id order' = Order.user_id order)
    by (rewrite Ho; reflexivity).
  unfold Orders.get_order. rewrite Hget, Hget', Hid.
  split; [ | split].
  - intros Hown. exists order.
    rewrite bool_decide_eq_true_2 by exact Hown.
    split; [reflexivity | split; [reflexivity | exact Ho]].
  - intros Hown. rewrite bool_decide_eq_false_2 by exact Hown.
    destruct Hwho as [Hown' | Hadmin]; [contradiction | ].
    split; [exact Hadmin | split; reflexivity].
  - intros other reader Hother. rewrite Hdb. simpl.
    rewrite lookup_insert_ne by (intros E; apply Hother; symmetry; exact E).
    reflexivity.
Qed.

Lemma cancelled_order_read_back_witness :
  Orders.get_order 2
    (with_orders db_orders
       (<[2 := Order.with_status new_order "CANCELLED" (Some utc_2024_01_01)]>
          (orders db_orders)))
    (User.mk 1 "Dana" "admin") =
    Raise (HTTPException 404 "Order not found").
Proof.
  destruct (cancelled_order_read_back utc_2024_01_01 2 db_orders
              (with_orders db_orders
                 (<[2 := Order.with_status new_order "CANCELLED"
                           (Some utc_2024_01_01)]> (orders db_orders)))
              (User.mk 1 "Dana" "admin")
              (Order.with_status new_order "CANCELLED" (Some utc_2024_01_01))
              eq_refl) as (_ & Hadmin & _).
  apply Hadmin. discriminate.
Defined.
